(** * Contract metadata extraction: retry controller, extraction strategy
      and batch orchestrator

    A shallow embedding of the two scripts of the repository,

    - [metadata-extraction-POC.py]                  (script [KeyPOC]),
    - [managed-identity-metadata-extraction-POC.py] (script [ManagedPOC]),

    which are near copies of one another.  Every definition below carries the
    name of the Python function it embeds; where the two scripts differ the
    definition branches on the [script].

    Conventions of the embedding.

    - A Python [str] is a [string]; [str.lower]/[str.upper] act on the ASCII
      letters (no other character lowers to one of [r], [a], [t], [e], nor
      to a letter of [.txt], [.docx], [.pdf]).  A statement that shows a
      lower-cased text assumes that text to be ASCII ([Str.is_ascii]).
    - A JSON value / Python object stored in a dictionary is a [pyval]; a
      dictionary with string keys is a [gmap string pyval].
    - The external collaborators (LLM, OCR, file system, docx parser, clock,
      [time.sleep]) are the fields of an [Env]: what each of them returns or
      raises during one attempt on one work item.  A run takes one [Env] per
      attempt, a batch one per item and attempt.  The files that a batch
      writes go through a [Disk], which says for a path and a content
      whether the write succeeds or raises.
    - Effects ([ProgressTracker.increment], [time.sleep], the markdown side
      copy) are threaded through a [World]; a computation inside a [try] block
      is an [M A], a state monad that may raise.
    - [print] has no influence on results and is left out, but the argument
      expressions of a [print] that can raise are kept.
    - A [Config] holds the module-level constants as [int()], [float()] and
      the comparisons with ["true"] leave them: [MAX_WORKERS] and
      [MAX_RETRIES] are any integers, [RETRY_DELAY] is any [float], the
      infinities and not-a-number included. *)

From Stdlib Require Import String Ascii List ZArith QArith Lia Permutation DecimalString.
From stdpp Require Import base gmap strings list.

Open Scope string_scope.
Open Scope Z_scope.

(** ** Strings *)

Module Str.

(** The newline character of ['\n']. *)
Definition nl : string := String (ascii_of_nat 10) EmptyString.

Definition lower_ascii (c : ascii) : ascii :=
  let n := nat_of_ascii c in
  if ((65 <=? n)%nat && (n <=? 90)%nat)%bool then ascii_of_nat (n + 32) else c.

Definition upper_ascii (c : ascii) : ascii :=
  let n := nat_of_ascii c in
  if ((97 <=? n)%nat && (n <=? 122)%nat)%bool then ascii_of_nat (n - 32) else c.

Fixpoint map_ascii (f : ascii -> ascii) (s : string) : string :=
  match s with
  | EmptyString => EmptyString
  | String c s' => String (f c) (map_ascii f s')
  end.

(** [s.lower()] and [s.upper()]. *)
Definition lower : string -> string := map_ascii lower_ascii.
Definition upper : string -> string := map_ascii upper_ascii.

(** [s.isascii()]. *)
Fixpoint is_ascii (s : string) : bool :=
  match s with
  | EmptyString => true
  | String c s' => (nat_of_ascii c <? 128)%nat && is_ascii s'
  end.

(** [needle in hay]. *)
Fixpoint contains (needle hay : string) : bool :=
  if String.prefix needle hay then true
  else match hay with
       | EmptyString => false
       | String _ hay' => contains needle hay'
       end.

(** [s[:n]]. *)
Fixpoint take (n : N) (s : string) : string :=
  match s with
  | EmptyString => EmptyString
  | String c s' => if (n =? 0)%N then EmptyString else String c (take (N.pred n) s')
  end.

(** [sep.join(parts)]. *)
Definition join (sep : string) (parts : list string) : string :=
  String.concat sep parts.

(** [ch * n]. *)
Fixpoint repeat_char (c : ascii) (n : nat) : string :=
  match n with
  | O => EmptyString
  | S n' => String c (repeat_char c n')
  end.

(** [s.replace(old, new)] for a non-empty [old]: occurrences are replaced
    from the left and do not overlap.  [skip] counts the characters of a
    replaced occurrence that are still to be dropped. *)
Fixpoint replace_from (old new : string) (skip : nat) (s : string) : string :=
  match s with
  | EmptyString => EmptyString
  | String c s' =>
      match skip with
      | S k => replace_from old new k s'
      | O => if String.prefix old s
             then new ++ replace_from old new (String.length old - 1) s'
             else String c (replace_from old new O s')
      end
  end.

Definition replace (old new s : string) : string := replace_from old new O s.

(** [str(n)] for a natural number. *)
Definition of_nat (n : nat) : string :=
  DecimalString.NilZero.string_of_uint (Nat.to_uint n).

(** [str(z)] for an integer. *)
Definition of_Z (z : Z) : string :=
  DecimalString.NilZero.string_of_int (Z.to_int z).

End Str.

(** ** Paths: [os.path.basename], [os.path.dirname] and
       [pathlib.PurePosixPath] (POSIX flavour) *)

Module Path.

Definition slash : ascii := "/"%char.
Definition dot : ascii := "."%char.

(** [(p[:i], p[i:])] with [i = p.rfind(c) + 1]. *)
Fixpoint rsplit_at (c : ascii) (p : string) : string * string :=
  match p with
  | EmptyString => (EmptyString, EmptyString)
  | String a p' =>
      let '(h, t) := rsplit_at c p' in
      match h with
      | String _ _ => (String a h, t)
      | EmptyString =>
          if Ascii.eqb a c then (String a EmptyString, p') else (EmptyString, String a t)
      end
  end.

(** [s.rstrip('/')]. *)
Fixpoint rstrip_slash (s : string) : string :=
  match s with
  | EmptyString => EmptyString
  | String a s' =>
      match rstrip_slash s' with
      | EmptyString => if Ascii.eqb a slash then EmptyString else String a EmptyString
      | r => String a r
      end
  end.

Definition basename (p : string) : string := snd (rsplit_at slash p).

(** [head = p[:i]; if head and head != '/'*len(head): head = head.rstrip('/')]:
    a head made of slashes only is the one that [rstrip] would empty. *)
Definition dirname (p : string) : string :=
  let head := fst (rsplit_at slash p) in
  match rstrip_slash head with
  | EmptyString => head
  | stripped => stripped
  end.

End Path.

(** [pathlib.PurePosixPath]: the name, the stem and the suffix of a path. *)
Module PurePath.

(** [p.split('/')] *)
Fixpoint split_slash (p : string) : list string :=
  match p with
  | EmptyString => [EmptyString]
  | String a p' =>
      if Ascii.eqb a Path.slash then EmptyString :: split_slash p'
      else match split_slash p' with
           | h :: t => String a h :: t
           | [] => [String a EmptyString]
           end
  end.

(** The components after the root: empty components and [.] are dropped. *)
Definition parts (p : string) : list string :=
  List.filter (fun x => negb (String.eqb x "" || String.eqb x ".")) (split_slash p).

Definition name (p : string) : string := List.last (parts p) "".

(** [s[:-1]] *)
Fixpoint chop (s : string) : string :=
  match s with
  | EmptyString => EmptyString
  | String _ EmptyString => EmptyString
  | String a s' => String a (chop s')
  end.

(** [name[:i] if 0 < i < len(name) - 1 else name] with [i = name.rfind('.')] *)
Definition stem (p : string) : string :=
  let name := name p in
  let '(h, t) := Path.rsplit_at Path.dot name in
  match h, t with
  | String _ (String _ _), String _ _ => chop h
  | _, _ => name
  end.

(** [name[i:] if 0 < i < len(name) - 1 else ''] with [i = name.rfind('.')] *)
Definition suffix (p : string) : string :=
  let name := name p in
  let '(h, t) := Path.rsplit_at Path.dot name in
  match h, t with
  | String _ (String _ _), String _ _ => String Path.dot t
  | _, _ => EmptyString
  end.

End PurePath.


(** ** Python values, exceptions, results *)

(** What [json.loads] produces and what a result dictionary holds. *)
#[local] Unset Elimination Schemes.
Inductive pyval :=
| PNone
| PBool (b : bool)
| PInt (z : Z)
| PFloat (q : Q)
| PStr (s : string)
| PList (l : list pyval)
| PDict (kv : list (string * pyval)).
#[local] Set Elimination Schemes.

(** [type(v).__name__], as it shows in the messages of [TypeError] and
    [AttributeError]. *)
Definition type_name (v : pyval) : string :=
  match v with
  | PNone => "NoneType"
  | PBool _ => "bool"
  | PInt _ => "int"
  | PFloat _ => "float"
  | PStr _ => "str"
  | PList _ => "list"
  | PDict _ => "dict"
  end.

(** A dictionary with string keys. *)
Abbreviation dict := (gmap string pyval).

(** The dictionary of a JSON object: a repeated key keeps its last value. *)
Definition dict_of_pairs (kv : list (string * pyval)) : dict :=
  foldl (fun (m : dict) (p : string * pyval) => <[p.1 := p.2]> m) ∅ kv.

(** [d.get(key, default)]. *)
Definition dict_get (d : dict) (key : string) (default : pyval) : pyval :=
  match d !! key with
  | Some v => v
  | None => default
  end.

(** [key in d]. *)
Definition dict_has (d : dict) (key : string) : bool :=
  match d !! key with
  | Some _ => true
  | None => false
  end.

(** An instance of [Exception]; [msg] is [str(e)]. *)
Inductive exn := Exception (msg : string).

Definition str_exn (e : exn) : string := let 'Exception msg := e in msg.

(** The outcome of a call that may raise. *)
Inductive res (A : Type) :=
| Ok (a : A)
| Raise (e : exn).
Arguments Ok {A} a.
Arguments Raise {A} e.

(** [str(x)] of a value that is a [str] or [None], as an f-string renders
    it. *)
Definition str_opt (o : option string) : string :=
  match o with
  | Some s => s
  | None => "None"
  end.

(** Truth value of a value that is a [str] or [None]. *)
Definition truthy (o : option string) : bool :=
  match o with
  | Some (String _ _) => true
  | _ => false
  end.

Definition pyval_of_opt (o : option string) : pyval :=
  match o with
  | Some s => PStr s
  | None => PNone
  end.

(** A Python [float]: a finite number, an infinity, or not-a-number. *)
Inductive pyfloat :=
| Finite (q : Q)
| Infinite (negative : bool)
| NaN.

(** [x * (2 ** k)] for [0 <= k < 1024], where the integer converts to a
    [float]: scaling by a power of two is exact, and a product beyond the
    largest [float] is an infinity. *)
Definition float_mul_pow2 (x : pyfloat) (k : Z) : pyfloat :=
  match x with
  | Finite q =>
      let product := (q * inject_Z (2 ^ k))%Q in
      if Qle_bool (inject_Z (2 ^ 1024)) product then Infinite false
      else if Qle_bool product (inject_Z (- 2 ^ 1024)) then Infinite true
      else Finite product
  | Infinite negative => Infinite negative
  | NaN => NaN
  end.

(** ** Configuration: the module-level constants read from the environment *)

Record Config := {
  (** [doc_client] is not [None] *)
  doc_client : bool;
  (** [blob_service_client] is not [None] *)
  blob_service_client : bool;
  SAVE_MARKDOWN : bool;
  USE_TWO_CALL_FOR_PDFS : bool;
  ALWAYS_USE_TWO_CALL : bool;
  MAX_WORKERS : Z;
  MAX_RETRIES : Z;
  RETRY_DELAY : pyfloat
}.

(** The values the scripts fall back to when the environment sets nothing
    but the service endpoints. *)
Definition default_config : Config :=
  {| doc_client := true;
     blob_service_client := true;
     SAVE_MARKDOWN := true;
     USE_TWO_CALL_FOR_PDFS := true;
     ALWAYS_USE_TWO_CALL := false;
     MAX_WORKERS := 10;
     MAX_RETRIES := 3;
     RETRY_DELAY := Finite 2 |}.

(** The two scripts. *)
Inductive script := KeyPOC | ManagedPOC.

(** ** Work items *)

(** The ['data'] of a work item: downloaded bytes, a local path, or [None]. *)
Inductive file_data :=
| Bytes (b : string)
| PathStr (p : string)
| NoData.

(** The [file_info] dictionary.  [KeyPOC] has no ['blob_url'] entry, and
    [file_info.get('blob_url')] of [ManagedPOC] is [None] where it is
    missing. *)
Record file_info := {
  name : string;
  data : file_data;
  extension : option string;
  blob_url : option string
}.

(** ** External collaborators, as one attempt sees them *)

(** What Document Intelligence is asked to analyse. *)
Inductive ocr_source :=
| FromUrl (u : string)
| FromBytes (b : string)
| FromFile (p : string).

Record Env := {
  (** [file_data.decode('utf-8')] *)
  decode_utf8 : string -> res string;
  (** [open(path, 'r', encoding='utf-8').read()] *)
  open_read : string -> res string;
  (** the texts of [Document(...).paragraphs] *)
  docx_paragraphs : file_data -> res (list string);
  (** [begin_analyze_document*(...).result()]: the lines of every page *)
  analyze_document : ocr_source -> res (list (list string));
  (** the translation call: [response.choices[0].message.content] for the
      file name and the contract text sent *)
  chat_translate : string -> string -> res (option string);
  (** an extraction call followed by [json.loads], for the file name and the
      text sent *)
  chat_extract : string -> string -> res pyval;
  (** [datetime.now().isoformat()] *)
  now_isoformat : string;
  (** [time.sleep(secs)]: it returns after the delay, or raises *)
  sleep : pyfloat -> res unit
}.

(** ** Effects *)

Record World := {
  (** [ProgressTracker.completed] *)
  completed : Z;
  (** the arguments of the calls of [time.sleep] that returned, oldest first *)
  slept : list pyfloat;
  (** the blob names handed to the markdown upload, oldest first *)
  markdown : list string
}.

Definition world0 : World := {| completed := 0; slept := []; markdown := [] |}.

(** A computation inside a [try] block. *)
Definition M (A : Type) : Type := World -> res A * World.

Definition ret {A} (a : A) : M A := fun w => (Ok a, w).

Definition bind {A B} (m : M A) (k : A -> M B) : M B :=
  fun w => match m w with
           | (Ok a, w') => k a w'
           | (Raise e, w') => (Raise e, w')
           end.

Definition raise {A} (e : exn) : M A := fun w => (Raise e, w).

Definition lift {A} (r : res A) : M A := fun w => (r, w).

Notation "'let*' x ':=' m 'in' k" := (bind m (fun x => k))
  (at level 10, x binder, m at level 200, k at level 200).

(** [ProgressTracker.increment]. *)
Definition increment : M Z :=
  fun w => (Ok (completed w + 1),
            {| completed := completed w + 1; slept := slept w; markdown := markdown w |}).

(** [time.sleep(secs)] *)
Definition time_sleep (env : Env) (secs : pyfloat) : M unit :=
  fun w => match sleep env secs with
           | Ok _ => (Ok tt, {| completed := completed w; slept := slept w ++ [secs];
                                markdown := markdown w |})
           | Raise e => (Raise e, w)
           end.

(** ** Schema *)

Definition SIRION_FIELDS (s : script) : list string :=
  match s with
  | KeyPOC =>
      [ "Customer (CK) Entity";
        "Supplier Entity";
        "Effective Date";
        "Expiration Date";
        "Term Type";
        "Governing Law";
        "Contract Type";
        "Contract Currency";
        "Payment Term";
        "Termination for Convenience";
        "Notice Period for Termination for Convenience";
        "Party with the Right to Terminate for Convenience" ]
  | ManagedPOC =>
      [ "Original File Name";
        "Counterparty Legal Entity Name";
        "Internal Contracting Entity";
        "Contract Type";
        "Term Type";
        "Effective Date";
        "Expiration Date";
        "Governing Law";
        "Payment Term";
        "Contract Name";
        "Scope Category level 1";
        "Related Master Agreement" ]
  end.

(** ** File Reader *)

(** A pair [(value, None)] or [(None, error)] as the readers and the LLM
    wrappers return it. *)
Definition text_result : Type := option string * option string.

Definition extract_text_from_docx (env : Env) (fd : file_data) : text_result :=
  match docx_paragraphs env fd with
  | Ok full_text => (Some (Str.join Str.nl full_text), None)
  | Raise e => (None, Some (str_exn e))
  end.

(** The text of an analysed document: every line of every page. *)
Definition ocr_text (env : Env) (src : ocr_source) : text_result :=
  match analyze_document env src with
  | Ok pages => (Some (Str.join Str.nl (concat pages)), None)
  | Raise e => (None, Some (str_exn e))
  end.

Definition extract_text_from_pdf (s : script) (cfg : Config) (env : Env)
    (fd : file_data) (blob_url : option string) : text_result :=
  if negb (doc_client cfg) then (None, Some "Document Intelligence not configured")
  else
    match s with
    | KeyPOC =>
        match fd with
        | Bytes b => ocr_text env (FromBytes b)
        | PathStr p => ocr_text env (FromFile p)
        | NoData =>
            (* [open(None, "rb")] raises inside the [try] *)
            (None, Some "expected str, bytes or os.PathLike object, not NoneType")
        end
    | ManagedPOC =>
        match blob_url, fd with
        | Some (String _ _ as u), _ => ocr_text env (FromUrl u)
        | _, Bytes b => ocr_text env (FromBytes b)
        | _, PathStr (String _ _ as p) => ocr_text env (FromFile p)
        | _, _ => (None, Some "No file data or blob URL provided")
        end
    end.

(** The dispatch on the lower-cased extension that the three branches of
    [read_contract_file] share. *)
Definition read_by_extension (s : script) (cfg : Config) (env : Env)
    (read_txt : res string) (fd : file_data) (blob_url : option string)
    (ext : string) : text_result :=
  if String.eqb ext ".txt" then
    match read_txt with
    | Ok text => (Some text, None)
    | Raise e => (None, Some (str_exn e))
    end
  else if String.eqb ext ".docx" then extract_text_from_docx env fd
  else if String.eqb ext ".pdf" then extract_text_from_pdf s cfg env fd blob_url
  else (None, Some ("Unsupported file format: " ++ ext)).

Definition read_contract_file (s : script) (cfg : Config) (env : Env)
    (file_path_or_data : file_data) (extension : option string)
    (blob_url : option string) : res text_result :=
  match file_path_or_data, s, blob_url with
  | Bytes b, _, _ =>
      match extension with
      | Some (String _ _ as e) =>
          Ok (read_by_extension s cfg env (decode_utf8 env b) file_path_or_data
                blob_url (Str.lower e))
      | _ => Ok (None, Some "Extension required for bytes data")
      end
  | NoData, ManagedPOC, Some (String _ _) =>
      match extension with
      | Some (String _ _ as e) =>
          let ext := Str.lower e in
          if String.eqb ext ".pdf" then Ok (extract_text_from_pdf s cfg env NoData blob_url)
          else Ok (None, Some ("Blob URL only supported for PDFs, got: " ++ ext))
      | _ => Ok (None, Some "Extension required for blob URL")
      end
  | NoData, _, _ =>
      (* [Path(None)] *)
      Raise (Exception "expected str, bytes or os.PathLike object, not NoneType")
  | PathStr p, _, _ =>
      Ok (read_by_extension s cfg env (open_read env p) file_path_or_data blob_url
            (Str.lower (PurePath.suffix p)))
  end.

(** ** Extraction Strategy *)

(** The retry test of the scripts:
    ["rate" in error.lower() or "429" in error]. *)
Definition rate_limited (error : string) : bool :=
  Str.contains "rate" (Str.lower error) || Str.contains "429" error.

(** [result['file_name'] = file_name] on what [json.loads] returned: only a
    JSON object supports the assignment. *)
Definition as_object (v : pyval) : res dict :=
  match v with
  | PDict kv => Ok (dict_of_pairs kv)
  | PList _ => Raise (Exception "list indices must be integers or slices, not str")
  | _ => Raise (Exception ("'" ++ type_name v ++ "' object does not support item assignment"))
  end.

(** The body of the [try] of [extract_metadata_direct]. *)
Definition extract_direct_try (s : script) (env : Env) (contract_text file_name : string)
    : res dict :=
  let limit := match s with KeyPOC => 8000%N | ManagedPOC => 100000%N end in
  match chat_extract env file_name (Str.take limit contract_text) with
  | Raise e => Raise e
  | Ok v =>
      match as_object v with
      | Raise e => Raise e
      | Ok result =>
          let result := <["file_name" := PStr file_name]> result in
          let result := <["extraction_timestamp" := PStr (now_isoformat env)]> result in
          match s with
          | KeyPOC => Ok result
          | ManagedPOC => Ok (<["Original File Name" := PStr file_name]> result)
          end
      end
  end.

Definition extract_metadata_direct (s : script) (env : Env)
    (contract_text file_name : string) (attempt : Z) : option dict * option string :=
  match extract_direct_try s env contract_text file_name with
  | Ok result => (Some result, None)
  | Raise e =>
      let error_msg := str_exn e in
      let error_msg :=
        if rate_limited error_msg then error_msg ++ " (Rate limit detected)"
        else error_msg in
      (None, Some error_msg)
  end.

Definition translate_to_english (env : Env) (contract_text file_name : string)
    : text_result :=
  match chat_translate env file_name (Str.take 100000 contract_text) with
  | Ok translation => (translation, None)
  | Raise e => (None, Some (str_exn e))
  end.

(** The body of the [try] of [extract_metadata_from_english]. *)
Definition extract_english_try (s : script) (env : Env) (english_text file_name : string)
    : res dict :=
  match chat_extract env file_name (Str.take 16000 english_text) with
  | Raise e => Raise e
  | Ok v =>
      match as_object v with
      | Raise e => Raise e
      | Ok result =>
          let result := <["file_name" := PStr file_name]> result in
          let result := <["extraction_timestamp" := PStr (now_isoformat env)]> result in
          let result := <["extraction_method" := PStr "two_call_translation"]> result in
          match s with
          | KeyPOC => Ok result
          | ManagedPOC => Ok (<["Original File Name" := PStr file_name]> result)
          end
      end
  end.

Definition extract_metadata_from_english (s : script) (env : Env)
    (english_text file_name : string) : option dict * option string :=
  match extract_english_try s env english_text file_name with
  | Ok result => (Some result, None)
  | Raise e => (None, Some (str_exn e))
  end.

(** ** Retry Controller *)

(** The [ProgressTracker] object; its [completed] counter is shared and
    mutable and lives in the [World]. *)
Record ProgressTracker := { total : Z }.

(** [if progress_tracker: completed = progress_tracker.increment(); ...] *)
Definition report (progress_tracker : option ProgressTracker) (line : M unit) : M unit :=
  match progress_tracker with
  | Some _ => let* _ := increment in line
  | None => ret tt
  end.

Definition backslash : string := String (ascii_of_nat 92) EmptyString.

(** [os.path.dirname(file_name) if '/' in file_name or '\\' in file_name
    else ''] *)
Definition folder_path_of (file_name : string) : string :=
  if Str.contains "/" file_name || Str.contains backslash file_name
  then Path.dirname file_name else "".

(** The identity entries every result dictionary starts with. *)
Definition identity_entries (s : script) (file_name : string) : dict :=
  match s with
  | KeyPOC => <["File Name" := PStr file_name]> ∅
  | ManagedPOC =>
      <["File Name" := PStr (Path.basename file_name)]>
        (<["Folder Path" := PStr (folder_path_of file_name)]> ∅)
  end.

(** The dictionary of a failed document. *)
Definition failure_result (s : script) (file_name : string) (error : pyval) : dict :=
  <["Error" := error]> (identity_entries s file_name).

(** The row of a successful extraction. *)
Definition build_row (s : script) (file_name : string) (metadata : dict) : dict :=
  let row :=
    <["Extraction Timestamp" := dict_get metadata "extraction_timestamp" (PStr "")]>
      (<["Source Language" := dict_get metadata "source_language" (PStr "unknown")]>
         (identity_entries s file_name)) in
  let row :=
    foldl (fun (row : dict) (field : string) =>
             <[field := dict_get metadata field (PStr "")]> row)
          row (SIRION_FIELDS s) in
  let row := <["Confidence" := dict_get metadata "confidence" (PStr "medium")]> row in
  <["Notes" := dict_get metadata "extraction_notes" (PStr "")]> row.

(** [v.upper()] and [v.lower()] on a value that need not be a string. *)
Definition py_upper (v : pyval) : res string :=
  match v with
  | PStr s => Ok (Str.upper s)
  | _ => Raise (Exception ("'" ++ type_name v ++ "' object has no attribute 'upper'"))
  end.

Definition py_lower (o : option string) : res string :=
  match o with
  | Some s => Ok (Str.lower s)
  | None => Raise (Exception "'NoneType' object has no attribute 'lower'")
  end.

(** [if metadata:] holds for a dictionary with at least one key. *)
Definition metadata_truthy (metadata : option dict) : option dict :=
  match metadata with
  | Some d => if bool_decide (d = ∅) then None else Some d
  | None => None
  end.

(** [save_text_as_markdown]: a side copy whose result the caller drops and
    whose exceptions the function swallows. *)
Definition save_text_as_markdown (cfg : Config) (text blob_name : string) : M unit :=
  if negb (blob_service_client cfg) || negb (SAVE_MARKDOWN cfg) then ret tt
  else fun w => (Ok tt, {| completed := completed w; slept := slept w;
                           markdown := markdown w ++ [blob_name] |}).

(** [RETRY_DELAY * (2 ** (attempt - 1))], for the [attempt >= 1] of the
    loop: the power is an [int], and converting it to a [float] raises
    [OverflowError] from [2 ** 1024] on. *)
Definition wait_time (cfg : Config) (attempt : Z) : res pyfloat :=
  if 1024 <=? attempt - 1
  then Raise (Exception "int too large to convert to float")
  else Ok (float_mul_pow2 (RETRY_DELAY cfg) (attempt - 1)).

(** [wait_time = RETRY_DELAY * (2 ** (attempt - 1)); time.sleep(wait_time)] *)
Definition backoff (cfg : Config) (env : Env) (attempt : Z) : M unit :=
  let* wait_time := lift (wait_time cfg attempt) in
  time_sleep env wait_time.

(** Where [process_contract_with_retry] returns from. *)
Inductive exit_site :=
| AtReadError
| AtTranslationError
| AtSuccess
| AtError
| AtException
| AtFallback.

#[global] Instance exit_site_eq_dec : EqDecision exit_site.
Proof. solve_decision. Defined.

(** How one pass through the loop body ends: a [return] or a [continue]. *)
Inductive ctl :=
| Return (site : exit_site) (result : dict)
| Continue.

(** The extraction strategy of one attempt, from the read text on: the
    translation that failed ([inl], with its error), or what the extraction
    call returned ([inr]). *)
Definition run_strategy (s : script) (cfg : Config) (env : Env) (fi : file_info)
    (contract_text : string) (attempt : Z)
    : res (option string + (option dict * option string)) :=
  let file_name := name fi in
  match py_lower (extension fi) with
  | Raise e => Raise e
  | Ok ext =>
      let is_pdf := String.eqb ext ".pdf" in
      let use_two_call :=
        ALWAYS_USE_TWO_CALL cfg || (is_pdf && USE_TWO_CALL_FOR_PDFS cfg) in
      if use_two_call then
        let '(translation, trans_error) :=
          translate_to_english env contract_text file_name in
        match translation with
        | Some (String _ _ as translation) =>
            Ok (inr (extract_metadata_from_english s env translation file_name))
        | _ => Ok (inl trans_error)
        end
      else Ok (inr (extract_metadata_direct s env contract_text file_name attempt))
  end.

(** The body of the [try] of one attempt. *)
Definition attempt_body (s : script) (cfg : Config) (env : Env)
    (progress_tracker : option ProgressTracker) (fi : file_info) (attempt : Z) : M ctl :=
  let file_name := name fi in
  let* '(contract_text, read_error) :=
    lift (read_contract_file s cfg env (data fi) (extension fi) (blob_url fi)) in
  match contract_text with
  | Some (String _ _ as contract_text) =>
      let* _ := match s with
                | KeyPOC => ret tt
                | ManagedPOC =>
                    if SAVE_MARKDOWN cfg
                    then save_text_as_markdown cfg contract_text file_name
                    else ret tt
                end in
      let* step := lift (run_strategy s cfg env fi contract_text attempt) in
      match step with
      | inl trans_error =>
          let result :=
            failure_result s file_name
              (PStr ("Translation error: " ++ str_opt trans_error)) in
          let* _ := report progress_tracker (ret tt) in
          ret (Return AtTranslationError result)
      | inr (metadata, error) =>
          match metadata_truthy metadata with
          | Some metadata =>
              let row := build_row s file_name metadata in
              let* _ := report progress_tracker
                          (let* lang := lift (py_upper (dict_get metadata "source_language"
                                                          (PStr "unknown"))) in
                           ret tt) in
              ret (Return AtSuccess row)
          | None =>
              let* retry :=
                if attempt <? MAX_RETRIES cfg
                then let* lowered := lift (py_lower error) in
                     ret (Str.contains "rate" lowered || Str.contains "429" (str_opt error))
                else ret false in
              if retry then
                let* _ := backoff cfg env attempt in
                ret Continue
              else
                let result := failure_result s file_name (pyval_of_opt error) in
                let* _ := report progress_tracker (ret tt) in
                ret (Return AtError result)
          end
      end
  | _ =>
      let result := failure_result s file_name (PStr ("Read error: " ++ str_opt read_error)) in
      let* _ := report progress_tracker (ret tt) in
      ret (Return AtReadError result)
  end.

(** One attempt: the [try] with its [except Exception as e] handler.  What the
    handler itself raises leaves the function. *)
Definition attempt_once (s : script) (cfg : Config) (env : Env)
    (progress_tracker : option ProgressTracker) (fi : file_info) (attempt : Z) : M ctl :=
  fun w =>
    match attempt_body s cfg env progress_tracker fi attempt w with
    | (Ok c, w') => (Ok c, w')
    | (Raise e, w') =>
        if attempt <? MAX_RETRIES cfg then
          (let* _ := backoff cfg env attempt in ret Continue) w'
        else
          (let result := failure_result s (name fi) (PStr (str_exn e)) in
           let* _ := report progress_tracker (ret tt) in
           ret (Return AtException result)) w'
    end.

(** What the caller of [process_contract_with_retry] gets. *)
Inductive outcome :=
| Returned (site : exit_site) (result : dict)
| Propagated (e : exn).

(** [range(lo, hi)] *)
Definition py_range (lo hi : Z) : list Z :=
  map (fun i : nat => lo + Z.of_nat i) (seq 0 (Z.to_nat (hi - lo))).

(** The [for attempt in ...] loop, and the [return] after it. *)
Fixpoint retry_loop (s : script) (cfg : Config) (services : Z -> Env)
    (progress_tracker : option ProgressTracker) (fi : file_info)
    (attempts : list Z) (w : World) : outcome * World :=
  match attempts with
  | [] => (Returned AtFallback (failure_result s (name fi) (PStr "Max retries exceeded")), w)
  | attempt :: rest =>
      match attempt_once s cfg (services attempt) progress_tracker fi attempt w with
      | (Ok (Return site result), w') => (Returned site result, w')
      | (Ok Continue, w') => retry_loop s cfg services progress_tracker fi rest w'
      | (Raise e, w') => (Propagated e, w')
      end
  end.

(** [services attempt] is what the collaborators answer during that attempt. *)
Definition process_contract_with_retry (s : script) (cfg : Config) (services : Z -> Env)
    (fi : file_info) (progress_tracker : option ProgressTracker) (w : World)
    : outcome * World :=
  retry_loop s cfg services progress_tracker fi (py_range 1 (MAX_RETRIES cfg + 1)) w.

(** ** Batch Orchestrator *)

(** Where the documents come from: [process_contracts_from_blob] or
    [process_contracts_to_csv]. *)
Inductive source := Blob | Local.

(** A listed blob: its name, the [url] of its client, and what
    [download_blob().readall()] does. *)
Record blob := {
  blob_name : string;
  blob_client_url : string;
  download : res string
}.

Definition supported (ext : string) : bool :=
  String.eqb ext ".txt" || String.eqb ext ".docx" || String.eqb ext ".pdf".

(** The work item of a blob; a blob that cannot be fetched still gets one. *)
Definition blob_file_info (s : script) (b : blob) : file_info :=
  let extension := Str.lower (PurePath.suffix (blob_name b)) in
  let unprepared :=
    {| name := blob_name b; data := NoData; extension := None; blob_url := None |} in
  match s with
  | KeyPOC =>
      match download b with
      | Ok blob_data =>
          {| name := blob_name b; data := Bytes blob_data;
             extension := Some extension; blob_url := None |}
      | Raise _ => unprepared
      end
  | ManagedPOC =>
      if String.eqb extension ".pdf" then
        {| name := blob_name b; data := NoData;
           extension := Some extension; blob_url := Some (blob_client_url b) |}
      else
        match download b with
        | Ok blob_data =>
            {| name := blob_name b; data := Bytes blob_data;
               extension := Some extension; blob_url := None |}
        | Raise _ => unprepared
        end
  end.

(** The work item of a local file. *)
Definition local_file_info (file_path : string) : file_info :=
  {| name := Path.basename file_path; data := PathStr file_path;
     extension := Some (Str.lower (PurePath.suffix file_path)); blob_url := None |}.

(** The sequential loop: [results.append(process_contract_with_retry(...))]
    for each item in turn.  [services i] are the collaborators as item [i]
    meets them. *)
Fixpoint run_sequential (s : script) (cfg : Config) (services : nat -> Z -> Env)
    (progress : ProgressTracker) (i : nat) (file_infos : list file_info) (w : World)
    : res (list dict) * World :=
  match file_infos with
  | [] => (Ok [], w)
  | fi :: rest =>
      match process_contract_with_retry s cfg (services i) fi (Some progress) w with
      | (Returned _ result, w') =>
          match run_sequential s cfg services progress (S i) rest w' with
          | (Ok results, w'') => (Ok (result :: results), w'')
          | (Raise e, w'') => (Raise e, w'')
          end
      | (Propagated e, w') => (Raise e, w')
      end
  end.

(** The workers of the pool, one per submitted item.  The result of a worker
    does not read the [World], so the order in which the workers touch the
    shared counter is immaterial to the futures; the effects are accumulated
    in submission order. *)
Fixpoint run_workers (s : script) (cfg : Config) (services : nat -> Z -> Env)
    (progress : ProgressTracker) (i : nat) (file_infos : list file_info) (w : World)
    : list outcome * World :=
  match file_infos with
  | [] => ([], w)
  | fi :: rest =>
      let '(future, w') :=
        process_contract_with_retry s cfg (services i) fi (Some progress) w in
      let '(futures, w'') := run_workers s cfg services progress (S i) rest w' in
      (future :: futures, w'')
  end.

(** [as_completed(futures)]: each pending future is yielded once, in the
    order of completion.  [picks] names, step by step, which of the futures
    still pending completes next. *)
Fixpoint as_completed {A} (n : nat) (picks : list nat) (pending : list A) : list A :=
  match n, pending with
  | S n', x :: _ =>
      let k := (hd 0 picks mod length pending)%nat in
      nth k pending x :: as_completed n' (tl picks) (delete k pending)
  | _, _ => []
  end.

(** [for future in ...: results.append(future.result())]: [future.result()]
    raises again what the worker raised. *)
Fixpoint gather (futures : list outcome) : res (list dict) :=
  match futures with
  | [] => Ok []
  | Returned _ result :: rest =>
      match gather rest with
      | Ok results => Ok (result :: results)
      | Raise e => Raise e
      end
  | Propagated e :: _ => Raise e
  end.

(** The collection of the results, parallel or sequential.
    [ThreadPoolExecutor(max_workers=MAX_WORKERS)] raises [ValueError] unless
    [MAX_WORKERS] is positive; leaving its [with] block waits for every
    worker, also when [future.result()] has raised. *)
Definition collect_results (s : script) (cfg : Config) (services : nat -> Z -> Env)
    (parallel : bool) (picks : list nat) (file_infos : list file_info) (w : World)
    : res (list dict) * World :=
  let progress := {| total := Z.of_nat (length file_infos) |} in
  if parallel && (1 <? length file_infos)%nat then
    if MAX_WORKERS cfg <=? 0
    then (Raise (Exception "max_workers must be greater than 0"), w)
    else
      let '(futures, w') := run_workers s cfg services progress 0 file_infos w in
      (gather (as_completed (length futures) picks futures), w')
  else run_sequential s cfg services progress 0 file_infos w.

(** ** Outputs *)

(** [str(v)] as an f-string renders it.  A float, a list or a dictionary is
    shown by a placeholder: the scripts format no such value. *)
Definition py_format (v : pyval) : string :=
  match v with
  | PNone => "None"
  | PBool true => "True"
  | PBool false => "False"
  | PInt z => Str.of_Z z
  | PStr s => s
  | _ => "<" ++ type_name v ++ ">"
  end.

Definition csv_columns (s : script) (src : source) : list string :=
  match s, src with
  | ManagedPOC, Blob => ["Folder Path"]
  | _, _ => []
  end ++ ["File Name"; "Source Language"; "Extraction Timestamp"]
      ++ SIRION_FIELDS s ++ ["Confidence"; "Notes"].

(** [csv.DictWriter(..., extrasaction='ignore')._dict_to_list]: one cell per
    column, empty where the row has no such key; other keys are dropped. *)
Definition dict_to_list (fieldnames : list string) (rowdict : dict) : list pyval :=
  map (fun key => dict_get rowdict key (PStr "")) fieldnames.

(** What a written file holds: the records of a CSV file, header first, or
    the text of a plain file. *)
Inductive content :=
| CsvRecords (header : list string) (rows : list (list pyval))
| Text (t : string).

(** [writer.writeheader(); writer.writerows(results)] *)
Definition write_csv (fieldnames : list string) (results : list dict) : content :=
  CsvRecords fieldnames (map (dict_to_list fieldnames) results).

Definition is_error (r : dict) : bool := dict_has r "Error".

(** [sum(1 for r in results if 'Error' in r)] *)
Definition error_count (results : list dict) : nat :=
  length (filter (fun r => is_error r = true) results).

(** [sum(1 for r in results if 'Error' not in r)] *)
Definition success_count (results : list dict) : nat :=
  length (filter (fun r => is_error r = false) results).

(** The identities listed in the failure file. *)
Definition failed_contracts (src : source) (results : list dict) : list pyval :=
  map (fun r =>
         match src with
         | Blob => dict_get r "File Name" (dict_get r "Folder Path" (PStr "Unknown"))
         | Local => dict_get r "File Name" (PStr "Unknown")
         end)
      (filter (fun r => is_error r = true) results).

Definition failed_file_name (output_csv : string) : string :=
  Str.replace ".csv" "_failed_contracts.txt" output_csv.

(** The three kinds of [f.write] of the failure file, in order. *)
Definition failed_file_text (src : source) (results : list dict) : string :=
  ("Failed Contracts (" ++ Str.of_nat (error_count results) ++ " total)" ++ Str.nl)
    ++ (Str.repeat_char "="%char 80 ++ Str.nl ++ Str.nl)
    ++ String.concat "" (map (fun contract => py_format contract ++ Str.nl)
                             (failed_contracts src results)).

(** What [with open(path, 'w', ...) as f:] and the writes into [f] do for a
    path and the content written: they succeed, or one of them raises (an
    [OSError] of [open], a [UnicodeEncodeError] of a write). *)
Definition Disk : Type := string -> content -> res unit.

(** The files that the batch wants to write once the results are in, oldest
    first: the CSV of both scripts, and the failure list that only
    [ManagedPOC] has. *)
Definition outputs (s : script) (src : source) (output_csv : string)
    (results : list dict) : list (string * content) :=
  match results with
  | [] => []
  | _ :: _ =>
      (output_csv, write_csv (csv_columns s src) results)
        :: match s with
           | KeyPOC => []
           | ManagedPOC =>
               if (0 <? error_count results)%nat
               then [(failed_file_name output_csv, Text (failed_file_text src results))]
               else []
           end
  end.

(** The writes in turn, up to the first that raises: what is raised, if
    anything, and the files written in full. *)
Fixpoint write_files (disk : Disk) (wanted : list (string * content))
    : res unit * list (string * content) :=
  match wanted with
  | [] => (Ok tt, [])
  | (path, c) :: rest =>
      match disk path c with
      | Raise e => (Raise e, [])
      | Ok _ => let '(r, written) := write_files disk rest in (r, (path, c) :: written)
      end
  end.

Definition export (s : script) (src : source) (disk : Disk) (output_csv : string)
    (results : list dict) : res unit * list (string * content) :=
  write_files disk (outputs s src output_csv results).

(** A key of a dictionary has to be hashable. *)
Definition hashable (v : pyval) : res unit :=
  match v with
  | PList _ | PDict _ => Raise (Exception ("unhashable type: '" ++ type_name v ++ "'"))
  | _ => Ok tt
  end.

(** What can go wrong for one row while the languages and the confidence
    levels are counted. *)
Definition count_row (row : dict) : res unit :=
  match (match row !! "Source Language" with
         | Some lang => hashable lang      (* [languages[lang] = ...] *)
         | None => Ok tt
         end) with
  | Raise e => Raise e
  | Ok _ =>
      match row !! "Confidence" with
      | Some conf => hashable conf         (* [conf in confidences] *)
      | None => Ok tt
      end
  end.

Fixpoint for_each {A} (f : A -> res unit) (l : list A) : res unit :=
  match l with
  | [] => Ok tt
  | x :: l' => match f x with
               | Ok _ => for_each f l'
               | Raise e => Raise e
               end
  end.

(** The summary printed after the files are written: nothing of it is kept
    but the exception it may end with. *)
Definition summary_statistics (results : list dict) : res unit :=
  match results with
  | [] => Ok tt
  | _ :: _ =>
      if (0 <? success_count results)%nat then
        match for_each count_row results with
        | Raise e => Raise e
        | Ok _ =>
            (* [lang.upper()] for every language counted *)
            for_each (fun row => match row !! "Source Language" with
                                 | Some lang => match py_upper lang with
                                                | Ok _ => Ok tt
                                                | Raise e => Raise e
                                                end
                                 | None => Ok tt
                                 end) results
        end
      else Ok tt
  end.

(** What a batch run leaves behind. *)
Record Report := {
  (** the value returned, or the exception that left the function *)
  returned : res (option string);
  (** the [results] list at the end of the collection, if it completed *)
  collected : option (list dict);
  (** the files written in full, oldest first; a later write to the same
      path replaces the earlier file *)
  files : list (string * content);
  world : World
}.

(** What the [except Exception] around the body of
    [process_contracts_from_blob] makes of an exception; the local variant
    has no handler. *)
Definition leave (src : source) (e : exn) : res (option string) :=
  match src with
  | Blob => Ok None
  | Local => Raise e
  end.

(** The part of both batch functions that follows the enumeration of the
    documents. *)
Definition process_file_infos (s : script) (src : source) (cfg : Config)
    (services : nat -> Z -> Env) (disk : Disk) (parallel : bool) (picks : list nat)
    (file_infos : list file_info) (output_csv : string) : Report :=
  match collect_results s cfg services parallel picks file_infos world0 with
  | (Ok results, w) =>
      let '(exported, written) := export s src disk output_csv results in
      {| returned := match exported with
                     | Raise e => leave src e
                     | Ok _ =>
                         match summary_statistics results with
                         | Ok _ => Ok (Some output_csv)
                         | Raise e => leave src e
                         end
                     end;
         collected := Some results;
         files := written;
         world := w |}
  | (Raise e, w) =>
      {| returned := leave src e; collected := None; files := []; world := w |}
  end.

Definition nothing_done (returned : res (option string)) : Report :=
  {| returned := returned; collected := None; files := []; world := world0 |}.

(** [listing] is what [container_client.list_blobs()] yields or raises. *)
Definition process_contracts_from_blob (s : script) (cfg : Config)
    (services : nat -> Z -> Env) (disk : Disk) (picks : list nat)
    (listing : res (list blob)) (output_csv : string) (parallel : bool) : Report :=
  if negb (blob_service_client cfg) then nothing_done (Ok None)
  else
    match listing with
    | Raise _ => nothing_done (Ok None)
    | Ok listed =>
        let blobs :=
          filter (fun b => supported (Str.lower (PurePath.suffix (blob_name b))) = true) listed in
        match blobs with
        | [] => nothing_done (Ok None)
        | _ :: _ =>
            process_file_infos s Blob cfg services disk parallel picks
              (map (blob_file_info s) blobs) output_csv
        end
    end.

(** [files] are the paths that the three [glob] calls of an existing folder
    found; [None] stands for a folder that does not exist. *)
Definition process_contracts_to_csv (s : script) (cfg : Config)
    (services : nat -> Z -> Env) (disk : Disk) (picks : list nat)
    (files : option (list string)) (output_csv : string) (parallel : bool) : Report :=
  match files with
  | None | Some [] => nothing_done (Ok None)
  | Some ((_ :: _) as files) =>
      process_file_infos s Local cfg services disk parallel picks
        (map local_file_info files) output_csv
  end.

(** ** Vocabulary of the statements *)

(** The [World] after the progress report of a finished document. *)
Definition tick (progress_tracker : option ProgressTracker) (w : World) : World :=
  match progress_tracker with
  | Some _ => {| completed := completed w + 1; slept := slept w; markdown := markdown w |}
  | None => w
  end.

(** The delay before the retry that follows [attempt]. *)
Definition delay (cfg : Config) (attempt : Z) : pyfloat :=
  float_mul_pow2 (RETRY_DELAY cfg) (attempt - 1).

(** The backoff after [attempt] goes through: the delay is computed and
    [time.sleep] returns. *)
Definition backoff_accepted (cfg : Config) (env : Env) (attempt : Z) : bool :=
  match wait_time cfg attempt with
  | Ok secs => match sleep env secs with
               | Ok _ => true
               | Raise _ => false
               end
  | Raise _ => false
  end.

(** Every backoff that a run can come to goes through. *)
Definition backoffs_accepted (cfg : Config) (services : Z -> Env) : Prop :=
  forall attempt, 1 <= attempt < MAX_RETRIES cfg ->
                  backoff_accepted cfg (services attempt) attempt = true.

(** The [World] after a backoff sleep. *)
Definition after_sleep (secs : pyfloat) (w : World) : World :=
  {| completed := completed w; slept := slept w ++ [secs]; markdown := markdown w |}.

(** ** Concrete collaborators and work items *)

Module Fixtures.

(** [time.sleep] as CPython 3.11 has it on Linux for the delays of the
    scenarios below: it returns for a delay from 0 to 9.2e9 seconds, raises
    [ValueError] for not-a-number and for a negative delay down to -9.2e9
    seconds, and [OverflowError] for an infinity and for a delay of 9.3e9
    seconds or more in absolute value.  (In the narrow bands around
    9.22e9 seconds the outcome depends on the clock; they are put with the
    overflow.) *)
Definition posix_sleep (secs : pyfloat) : res unit :=
  match secs with
  | NaN => Raise (Exception "Invalid value NaN (not a number)")
  | Infinite _ => Raise (Exception "timestamp too large to convert to C _PyTime_t")
  | Finite q =>
      if Qle_bool 0 q && Qle_bool q 9200000000 then Ok tt
      else if Qle_bool (-9200000000) q && Qle_bool q 0
           then Raise (Exception "sleep length must be non-negative")
           else Raise (Exception "timestamp too large to convert to C _PyTime_t")
  end.

(** Collaborators that raise [msg] on every call. *)
Definition down (msg : string) : Env :=
  {| decode_utf8 := fun _ => Raise (Exception msg);
     open_read := fun _ => Raise (Exception msg);
     docx_paragraphs := fun _ => Raise (Exception msg);
     analyze_document := fun _ => Raise (Exception msg);
     chat_translate := fun _ _ => Raise (Exception msg);
     chat_extract := fun _ _ => Raise (Exception msg);
     now_isoformat := "2025-03-01T10:00:00";
     sleep := posix_sleep |}.

(** A disk on which every write succeeds. *)
Definition writable : Disk := fun _ _ => Ok tt.

(** Collaborators that read every document and answer the two LLM calls
    as given. *)
Definition answering (translation : res (option string)) (extraction : res pyval) : Env :=
  {| decode_utf8 := fun b => Ok b;
     open_read := fun _ => Ok "Leveransavtal mellan Circle K Sverige AB och ...";
     docx_paragraphs := fun _ => Ok ["Umowa Dostawy"; "Circle K Polska Sp. z o.o."];
     analyze_document := fun _ => Ok [["Tarnekokkulepe"; "Circle K Eesti AS"]; ["lk 2"]];
     chat_translate := fun _ _ => translation;
     chat_extract := fun _ _ => extraction;
     now_isoformat := "2025-03-01T10:00:00";
     sleep := posix_sleep |}.

Definition rate_limit_error : exn :=
  Exception "Error code: 429 - Requests to the ChatCompletions_Create Operation have exceeded rate limit".

Definition bad_request_error : exn :=
  Exception "Error code: 400 - content filtered".

(** A text blob, a PDF blob read through its URL, and a blob whose download
    failed. *)
Definition txt_item : file_info :=
  {| name := "sv/leveransavtal.txt"; data := Bytes "Leveransavtal ...";
     extension := Some ".txt"; blob_url := None |}.

Definition pdf_item : file_info :=
  {| name := "et/tarne.pdf"; data := NoData; extension := Some ".pdf";
     blob_url := Some "https://acct.blob.core.windows.net/contracts/et/tarne.pdf" |}.

Definition pdf_bytes_item : file_info :=
  {| name := "tarne.pdf"; data := Bytes "%PDF-1.7"; extension := Some ".pdf";
     blob_url := None |}.

Definition unprepared_item : file_info :=
  {| name := "pl/umowa.docx"; data := NoData; extension := None; blob_url := None |}.

Definition tracker (n : Z) : option ProgressTracker := Some {| total := n |}.

(** A complete answer of the model for the schema of [ManagedPOC], with a
    term type and an expiration date that do not fit together. *)
Definition perpetual_with_date : pyval :=
  PDict [ ("Original File Name", PStr "agreement.pdf");
          ("Counterparty Legal Entity Name", PStr "TechServices OU");
          ("Internal Contracting Entity", PStr "Circle K Eesti AS");
          ("Contract Type", PStr "Master Agreement");
          ("Term Type", PStr "Perpetual");
          ("Effective Date", PStr "04/01/2024");
          ("Expiration Date", PStr "03/31/2025");
          ("Governing Law", PStr "Estonia");
          ("Payment Term", PStr "Net 30");
          ("Contract Name", PStr "Master Agreement_TechServices OU_04/01/2024");
          ("Scope Category level 1", PStr "Technology");
          ("Related Master Agreement", PNone);
          ("source_language", PStr "et");
          ("confidence", PStr "high") ].

(** An answer that leaves out everything but two fields. *)
Definition sparse_answer : pyval :=
  PDict [ ("Contract Type", PStr "Supply Agreement");
          ("Governing Law", PStr "Swedish law") ].

End Fixtures.

(** The keys that the extraction functions write into what the model
    answered. *)
Definition stamp_keys : list string :=
  ["file_name"; "extraction_timestamp"; "extraction_method"; "Original File Name"].

(** [metadata] is the dictionary [answer] of the model after the caller has
    stamped it: the other keys are as the model gave them, and in
    [ManagedPOC] the file name field is the caller's file name. *)
Definition stamped (s : script) (file_name : string) (answer metadata : dict) : Prop :=
  (forall key, key ∉ stamp_keys -> metadata !! key = answer !! key)
  /\ metadata !! "Original File Name"
     = match s with
       | ManagedPOC => Some (PStr file_name)
       | KeyPOC => answer !! "Original File Name"
       end.

(** The JSON object [kv] is what the model answered to the extraction call of
    this attempt for this file. *)
Definition model_answer (env : Env) (file_name : string) (kv : list (string * pyval)) : Prop :=
  exists sent, chat_extract env file_name sent = Ok (PDict kv).

(** The dictionary a worker handed back; none if an exception left it. *)
Definition result_of (o : outcome) : dict :=
  match o with
  | Returned _ result => result
  | Propagated _ => ∅
  end.

Module Runs.

(** A text document whose extraction answers only two fields. *)
Definition sparse : outcome * World :=
  process_contract_with_retry ManagedPOC default_config
    (fun _ => Fixtures.answering (Ok None) (Ok Fixtures.sparse_answer))
    Fixtures.txt_item (Fixtures.tracker 1) world0.

(** A text document for which the model answers a perpetual term together
    with an expiration date. *)
Definition perpetual : outcome * World :=
  process_contract_with_retry ManagedPOC default_config
    (fun _ => Fixtures.answering (Ok None) (Ok Fixtures.perpetual_with_date))
    Fixtures.txt_item (Fixtures.tracker 1) world0.

End Runs.

(** The [World] after the markdown side copy of a read document. *)
Definition after_markdown (s : script) (cfg : Config) (file_name : string) (w : World) : World :=
  match s with
  | KeyPOC => w
  | ManagedPOC =>
      if SAVE_MARKDOWN cfg && blob_service_client cfg
      then {| completed := completed w; slept := slept w;
              markdown := markdown w ++ [file_name] |}
      else w
  end.

(** In this attempt the document is read, the strategy gets as far as the
    extraction call, and that call reports the error [err] and no
    metadata. *)
Definition reports_error (s : script) (cfg : Config) (env : Env) (fi : file_info)
    (attempt : Z) (err : string) : Prop :=
  exists c contract_text read_error metadata,
    read_contract_file s cfg env (data fi) (extension fi) (blob_url fi)
      = Ok (Some (String c contract_text), read_error)
    /\ run_strategy s cfg env fi (String c contract_text) attempt
       = Ok (inr (metadata, Some err))
    /\ metadata_truthy metadata = None.

Module Scenarios.

(** The translation call of a PDF is answered with HTTP 429. *)
Definition throttled_translation : outcome * World :=
  process_contract_with_retry ManagedPOC default_config
    (fun _ => Fixtures.answering (Raise Fixtures.rate_limit_error) (Ok Fixtures.sparse_answer))
    Fixtures.pdf_item (Fixtures.tracker 1) world0.

(** The extraction call of a text document is answered with HTTP 429 in
    every attempt. *)
Definition throttled_extraction (cfg : Config) : outcome * World :=
  process_contract_with_retry KeyPOC cfg
    (fun _ => Fixtures.answering (Ok None) (Raise Fixtures.rate_limit_error))
    Fixtures.txt_item (Fixtures.tracker 1) world0.

(** [RETRY_DELAY=0]. *)
Definition no_delay : Config :=
  {| doc_client := true;
     blob_service_client := true;
     SAVE_MARKDOWN := true;
     USE_TWO_CALL_FOR_PDFS := true;
     ALWAYS_USE_TWO_CALL := false;
     MAX_WORKERS := 10;
     MAX_RETRIES := 3;
     RETRY_DELAY := Finite 0 |}.

(** The message of the [TypeError] of [Path(None)]. *)
Definition path_none : string := "expected str, bytes or os.PathLike object, not NoneType".

(** The extraction call reports that very message as its error. *)
Definition reported_path_none : Env :=
  Fixtures.answering (Ok None) (Raise (Exception path_none)).

End Scenarios.

Module Throttled.

(** The extraction call answers HTTP 429 in every attempt. *)
Definition services (attempt : Z) : Env :=
  Fixtures.answering (Ok None) (Raise Fixtures.rate_limit_error).

(** What [extract_metadata_direct] makes of that answer. *)
Definition reported : string :=
  "Error code: 429 - Requests to the ChatCompletions_Create Operation have exceeded rate limit (Rate limit detected)".

End Throttled.

Module Answers.

(** The collaborators of the runs [Runs.sparse] and [Runs.perpetual]. *)
Definition sparse_env : Env := Fixtures.answering (Ok None) (Ok Fixtures.sparse_answer).
Definition perpetual_env : Env :=
  Fixtures.answering (Ok None) (Ok Fixtures.perpetual_with_date).

(** A PDF whose translation succeeds and whose extraction answers
    [Fixtures.perpetual_with_date]. *)
Definition two_call_env : Env :=
  Fixtures.answering (Ok (Some "Supply agreement between ...")) (Ok Fixtures.perpetual_with_date).

(** The metadata that [extract_metadata_from_english] makes of that
    answer for [Fixtures.pdf_item]. *)
Definition two_call_metadata : dict :=
  <["Original File Name" := PStr "et/tarne.pdf"]>
    (<["extraction_method" := PStr "two_call_translation"]>
       (<["extraction_timestamp" := PStr "2025-03-01T10:00:00"]>
          (<["file_name" := PStr "et/tarne.pdf"]>
             (match Fixtures.perpetual_with_date with
              | PDict kv => dict_of_pairs kv
              | _ => ∅
              end)))).

End Answers.

(** What each work item yields when it is processed on its own, in the order
    of submission; [i] is the index of the first item. *)
Fixpoint item_results (s : script) (cfg : Config) (services : nat -> Z -> Env)
    (progress : ProgressTracker) (i : nat) (file_infos : list file_info) : list dict :=
  match file_infos with
  | [] => []
  | fi :: rest =>
      result_of (fst (process_contract_with_retry s cfg (services i) fi (Some progress) world0))
        :: item_results s cfg services progress (S i) rest
  end.

(** Every work item, processed on its own, returns a dictionary: no
    exception leaves its run. *)
Fixpoint all_returned (s : script) (cfg : Config) (services : nat -> Z -> Env)
    (progress : ProgressTracker) (i : nat) (file_infos : list file_info) : Prop :=
  match file_infos with
  | [] => True
  | fi :: rest =>
      (exists site result w',
         process_contract_with_retry s cfg (services i) fi (Some progress) world0
         = (Returned site result, w'))
      /\ all_returned s cfg services progress (S i) rest
  end.


(** The plain-text files among the written files. *)
Definition text_files (written : list (string * content)) : list (string * string) :=
  concat (map (fun f => match snd f with
                        | CsvRecords _ _ => []
                        | Text t => [(fst f, t)]
                        end) written).

(** The identity under which a work item shows in the outputs. *)
Definition shown_name (s : script) (fi : file_info) : string :=
  match s with
  | KeyPOC => name fi
  | ManagedPOC => Path.basename (name fi)
  end.

Module Batch.

(** Two blobs: a text that is extracted, and a document whose download
    failed. *)
Definition items : list file_info := [Fixtures.txt_item; Fixtures.unprepared_item].

Definition services (i : nat) (attempt : Z) : Env :=
  match i with
  | O => Answers.sparse_env
  | S _ => Fixtures.down "timeout"
  end.

Definition run (s : script) : Report :=
  process_file_infos s Blob default_config services Fixtures.writable false [] items
    "sirion_metadata.csv".

End Batch.

(** The failed results among the results, in their order. *)
Definition failed_results (results : list dict) : list dict :=
  filter (fun r => is_error r = true) results.

(** The ['File Name'] of a result. *)
Definition shown_identity (r : dict) : string :=
  match r !! "File Name" with
  | Some (PStr file_name) => file_name
  | _ => "Unknown"
  end.

(** Every write that the batch wants to make succeeds. *)
Definition writes_succeed (disk : Disk) (wanted : list (string * content)) : Prop :=
  forall path c, (path, c) ∈ wanted -> disk path c = Ok tt.

(** The text of a failure list for [n] failures with the identities [ids]:
    the header with the count, the rule, an empty line, one identity per
    line. *)
Definition failure_list_layout (n : nat) (ids : list string) : string :=
  ("Failed Contracts (" ++ Str.of_nat n ++ " total)" ++ Str.nl)
    ++ (Str.repeat_char "="%char 80 ++ Str.nl ++ Str.nl)
    ++ String.concat "" (map (fun id => id ++ Str.nl) ids).

Module Edge.

(** [MAX_RETRIES=0]. *)
Definition no_retries : Config :=
  {| doc_client := true;
     blob_service_client := true;
     SAVE_MARKDOWN := true;
     USE_TWO_CALL_FOR_PDFS := true;
     ALWAYS_USE_TWO_CALL := false;
     MAX_WORKERS := 10;
     MAX_RETRIES := 0;
     RETRY_DELAY := Finite 2 |}.

(** No [DOCUMENT_INTELLIGENCE_ENDPOINT]. *)
Definition no_ocr : Config :=
  {| doc_client := false;
     blob_service_client := true;
     SAVE_MARKDOWN := true;
     USE_TWO_CALL_FOR_PDFS := true;
     ALWAYS_USE_TWO_CALL := false;
     MAX_WORKERS := 10;
     MAX_RETRIES := 3;
     RETRY_DELAY := Finite 2 |}.

(** [RETRY_DELAY=-2]. *)
Definition negative_delay : Config :=
  {| doc_client := true;
     blob_service_client := true;
     SAVE_MARKDOWN := true;
     USE_TWO_CALL_FOR_PDFS := true;
     ALWAYS_USE_TWO_CALL := false;
     MAX_WORKERS := 10;
     MAX_RETRIES := 3;
     RETRY_DELAY := Finite (-2) |}.

(** [RETRY_DELAY=1e10]. *)
Definition long_delay : Config :=
  {| doc_client := true;
     blob_service_client := true;
     SAVE_MARKDOWN := true;
     USE_TWO_CALL_FOR_PDFS := true;
     ALWAYS_USE_TWO_CALL := false;
     MAX_WORKERS := 10;
     MAX_RETRIES := 3;
     RETRY_DELAY := Finite 10000000000 |}.

(** [MAX_WORKERS=0]. *)
Definition no_workers : Config :=
  {| doc_client := true;
     blob_service_client := true;
     SAVE_MARKDOWN := true;
     USE_TWO_CALL_FOR_PDFS := true;
     ALWAYS_USE_TWO_CALL := false;
     MAX_WORKERS := 0;
     MAX_RETRIES := 3;
     RETRY_DELAY := Finite 2 |}.

(** A spreadsheet among the blobs. *)
Definition xlsx_item : file_info :=
  {| name := "prices.XLSX"; data := Bytes "PK..."; extension := Some ".XLSX";
     blob_url := None |}.

(** The model answers a null language. *)
Definition null_language : pyval :=
  PDict [ ("Contract Type", PStr "Supply Agreement"); ("source_language", PNone) ].

Definition null_language_env : Env := Fixtures.answering (Ok None) (Ok null_language).

(** The metadata that [extract_metadata_direct] of [KeyPOC] makes of it. *)
Definition null_language_metadata : dict :=
  <["extraction_timestamp" := PStr "2025-03-01T10:00:00"]>
    (<["file_name" := PStr "sv/leveransavtal.txt"]>
       (<["source_language" := PNone]>
          (<["Contract Type" := PStr "Supply Agreement"]> ∅))).

(** The translation comes back empty. *)
Definition empty_translation_env : Env :=
  Fixtures.answering (Ok (Some "")) (Ok Fixtures.sparse_answer).

End Edge.

(** A row whose language, if it has one, is a string. *)
Definition string_language (r : dict) : Prop :=
  forall v, r !! "Source Language" = Some v -> exists x, v = PStr x.

Module Unhashable.

(** The model answers a list where a confidence level is expected. *)
Definition answer : pyval :=
  PDict [ ("Contract Type", PStr "Supply Agreement");
          ("source_language", PStr "sv");
          ("confidence", PList [PStr "high"; PStr "medium"]) ].

Definition env : Env := Fixtures.answering (Ok None) (Ok answer).

Definition run (src : source) : Report :=
  process_file_infos KeyPOC src default_config (fun _ _ => env) Fixtures.writable false []
    [Fixtures.txt_item] "sirion_metadata.csv".

End Unhashable.

Module LocalRun.

(** A folder in which the patterns found two files. *)
Definition paths : list string := ["contracts/nda.txt"; "contracts/lease.docx"].

Definition services (i : nat) (attempt : Z) : Env := Answers.sparse_env.

Definition results (s : script) : list dict :=
  item_results s default_config services {| total := 2 |} 0 (map local_file_info paths).

End LocalRun.

(** ** Quality checks *)

(** [bool(v)] *)
Definition py_bool (v : pyval) : bool :=
  match v with
  | PNone => false
  | PBool b => b
  | PInt z => negb (z =? 0)
  | PFloat q => negb (Qeq_bool q 0)
  | PStr s => negb (String.eqb s "")
  | PList l => match l with [] => false | _ :: _ => true end
  | PDict kv => match kv with [] => false | _ :: _ => true end
  end.

(** [v == s] for a string [s] *)
Definition py_eq_str (v : pyval) (s : string) : bool :=
  match v with
  | PStr x => String.eqb x s
  | _ => false
  end.

(** [v is None] *)
Definition is_none (v : pyval) : bool :=
  match v with
  | PNone => true
  | _ => false
  end.

(** [not value or value == '' or value == 'null' or value is None] *)
Definition missing_value (value : pyval) : bool :=
  negb (py_bool value) || py_eq_str value "" || py_eq_str value "null" || is_none value.

Definition critical_fields (s : script) : list string :=
  match s with
  | KeyPOC =>
      [ "Customer (CK) Entity"; "Supplier Entity"; "Effective Date"; "Contract Type" ]
  | ManagedPOC =>
      [ "Internal Contracting Entity"; "Counterparty Legal Entity Name"; "Effective Date";
        "Contract Type" ]
  end.

Definition validate_critical_fields (s : script) (metadata : dict) : list string :=
  foldl (fun (missing_fields : list string) (field : string) =>
           let value := dict_get metadata field PNone in
           if missing_value value then (missing_fields ++ [field])%list else missing_fields)
        [] (critical_fields s).

(** Only the managed-identity script has this function. *)
Definition analyze_field_quality (metadata : dict) : list string :=
  foldl (fun (issues : list string) (field : string) =>
           let value := dict_get metadata field PNone in
           if missing_value value then (issues ++ [("Missing: " ++ field)%string])%list
           else issues)
        [] (SIRION_FIELDS ManagedPOC).

(** ** Single-file mode *)


(** [path_exists] is what [Path(file_path).exists()] answers or raises, and
    [write_json] what [open(output_json, 'w')] and [json.dump] do for a name
    and a dictionary.  The result is what the function returns or raises,
    and the JSON files it has written (name and dumped dictionary). *)
Definition process_single_contract (s : script) (cfg : Config) (env : Env)
    (path_exists : res bool) (write_json : string -> dict -> res unit)
    (file_path : string) : res (option dict) * list (string * dict) :=
  match path_exists with
  | Raise e => (Raise e, [])
  | Ok false => (Ok None, [])
  | Ok true =>
      match read_contract_file s cfg env (PathStr file_path) None None with
      | Raise e => (Raise e, [])
      | Ok (contract_text, read_error) =>
          match contract_text with
          | Some (String _ _ as contract_text) =>
              let '(metadata, error) :=
                extract_metadata_direct s env contract_text (PurePath.name file_path) 1 in
              match metadata_truthy metadata with
              | Some metadata =>
                  let output_json := PurePath.stem file_path ++ "_metadata.json" in
                  match write_json output_json metadata with
                  | Raise e => (Raise e, [])
                  | Ok _ => (Ok (Some metadata), [(output_json, metadata)])
                  end
              | None => (Ok None, [])
              end
          | _ => (Ok None, [])
          end
      end
  end.

Module Single.

Definition path : string := "contracts/nda.txt".

(** What single-file mode of [KeyPOC] returns for [path] when the model
    gives the sparse answer. *)
Definition metadata : dict :=
  <["extraction_timestamp" := PStr "2025-03-01T10:00:00"]>
    (<["file_name" := PStr "nda.txt"]>
       (dict_of_pairs [ ("Contract Type", PStr "Supply Agreement");
                        ("Governing Law", PStr "Swedish law") ])).

End Single.

Module NullName.

(** What the managed-identity script makes of the sparse answer for a file
    that is called [null]. *)
Definition metadata : dict :=
  <["Original File Name" := PStr "null"]>
    (<["extraction_timestamp" := PStr "2025-03-01T10:00:00"]>
       (<["file_name" := PStr "null"]>
          (dict_of_pairs [ ("Contract Type", PStr "Supply Agreement");
                           ("Governing Law", PStr "Swedish law") ]))).

End NullName.
(** * Properties *)

(** ** Strings and paths on examples *)

Example t_lower : Str.lower "Rate LIMIT 429" = "rate limit 429". Proof. reflexivity. Qed.
Example t_contains : Str.contains "rate" "failed to generate" = true. Proof. reflexivity. Qed.
Example t_contains2 : Str.contains "rate" "boom" = false. Proof. reflexivity. Qed.
Example t_take : Str.take 3 "abcdef" = "abc". Proof. reflexivity. Qed.
Example t_rep : Str.replace ".csv" "_failed_contracts.txt" "out.csv" = "out_failed_contracts.txt". Proof. reflexivity. Qed.
Example t_rep2 : Str.replace "aa" "b" "aaaaa" = "bba". Proof. reflexivity. Qed.
Example t_ofnat : Str.of_nat 12 = "12". Proof. reflexivity. Qed.
Example t_ofnat0 : Str.of_nat 0 = "0". Proof. reflexivity. Qed.
Example t_ofZ : Str.of_Z (-12) = "-12". Proof. reflexivity. Qed.
Example t_base : Path.basename "a/b/c.pdf" = "c.pdf". Proof. reflexivity. Qed.
Example t_base2 : Path.basename "c.pdf" = "c.pdf". Proof. reflexivity. Qed.
Example t_base3 : Path.basename "a/b/" = "". Proof. reflexivity. Qed.
Example t_dir : Path.dirname "a/b/c.pdf" = "a/b". Proof. reflexivity. Qed.
Example t_dir2 : Path.dirname "/c.pdf" = "/". Proof. reflexivity. Qed.
Example t_dir3 : Path.dirname "a//c.pdf" = "a". Proof. reflexivity. Qed.
Example t_dir4 : Path.dirname "c.pdf" = "". Proof. reflexivity. Qed.
Example t_dir5 : Path.dirname "//c" = "//". Proof. reflexivity. Qed.
Example t_suf : PurePath.suffix "a/b.c/d.tar.GZ" = ".GZ". Proof. reflexivity. Qed.
Example t_suf2 : PurePath.suffix "a/.bashrc" = "". Proof. reflexivity. Qed.
Example t_suf3 : PurePath.suffix "a/b." = "". Proof. reflexivity. Qed.
Example t_suf4 : PurePath.suffix "a.b/c" = "". Proof. reflexivity. Qed.
Example t_suf5 : PurePath.suffix "x.pdf/." = ".pdf". Proof. reflexivity. Qed.
Example t_suf6 : PurePath.suffix "a/b.docx//" = ".docx". Proof. reflexivity. Qed.

(** Closes an equation between closed terms by evaluation, leaving a proof
    term that does not hold the evaluated terms. *)
Ltac computed :=
  lazymatch goal with
  | |- @eq ?T ?a ?b => exact (@eq_refl T b <: @eq T a b)
  end.

(** ** Ranges *)

Lemma py_range_cons (lo hi : Z) :
  lo < hi -> py_range lo hi = lo :: py_range (lo + 1) hi.
Proof.
  intros H. unfold py_range.
  replace (Z.to_nat (hi - lo)) with (S (Z.to_nat (hi - (lo + 1)))) by lia.
  cbn [seq map]. f_equal; [lia|].
  rewrite <- seq_shift, map_map. apply map_ext. intros i. lia.
Qed.

Lemma py_range_nil (lo hi : Z) : hi <= lo -> py_range lo hi = [].
Proof.
  intros H. unfold py_range. replace (Z.to_nat (hi - lo)) with O by lia. reflexivity.
Qed.

Lemma py_range_In (lo hi a : Z) : In a (py_range lo hi) <-> lo <= a < hi.
Proof.
  unfold py_range. rewrite in_map_iff. split.
  - intros (i & <- & Hi). apply in_seq in Hi. lia.
  - intros H. exists (Z.to_nat (a - lo)). split; [lia|]. apply in_seq. lia.
Qed.

(** ** Backoff delays *)

(** A backoff either goes through, leaving its delay among the sleeps, or
    raises and leaves the world as it was. *)
Lemma backoff_cases cfg env attempt w :
  (backoff_accepted cfg env attempt = true
   /\ backoff cfg env attempt w = (Ok tt, after_sleep (delay cfg attempt) w))
  \/ (backoff_accepted cfg env attempt = false
      /\ exists e, backoff cfg env attempt w = (Raise e, w)).
Proof.
  unfold backoff_accepted, backoff, bind, lift, time_sleep, delay, wait_time.
  destruct (1024 <=? attempt - 1).
  - right. eauto.
  - destruct (sleep env _) as [[]|e]; [left | right]; eauto.
Qed.

Lemma backoff_run cfg env attempt w :
  backoff_accepted cfg env attempt = true ->
  backoff cfg env attempt w = (Ok tt, after_sleep (delay cfg attempt) w).
Proof.
  intros H. destruct (backoff_cases cfg env attempt w) as [[_ ?]|[H' _]]; [done | congruence].
Qed.

Lemma backoff_refused cfg env attempt w :
  backoff_accepted cfg env attempt = false ->
  exists e, backoff cfg env attempt w = (Raise e, w).
Proof.
  intros H. destruct (backoff_cases cfg env attempt w) as [[H' _]|[_ ?]]; [congruence | done].
Qed.

(** The [wait_time; time.sleep; continue] of the handler and of the
    rate-limit branch. *)
Lemma backoff_continue cfg env attempt w :
  (backoff_accepted cfg env attempt = true
   /\ (let* _ := backoff cfg env attempt in ret Continue) w
      = (Ok Continue, after_sleep (delay cfg attempt) w))
  \/ (backoff_accepted cfg env attempt = false
      /\ exists e, (let* _ := backoff cfg env attempt in ret Continue) w = (Raise e, w)).
Proof.
  unfold bind.
  destruct (backoff_cases cfg env attempt w) as [[Ha ->]|[Ha [e ->]]]; [left | right]; eauto.
Qed.

(** A finite delay is the exact product. *)
Lemma delay_finite cfg q attempt x :
  RETRY_DELAY cfg = Finite q ->
  delay cfg attempt = Finite x ->
  x = (q * inject_Z (2 ^ (attempt - 1)))%Q.
Proof.
  unfold delay, float_mul_pow2. intros ->. repeat case_match; congruence.
Qed.

(** Finite delays of a positive [RETRY_DELAY] grow with the attempt. *)
Lemma delay_increasing cfg q i j x y :
  RETRY_DELAY cfg = Finite q -> (0 < q)%Q -> 1 <= i -> i < j ->
  delay cfg i = Finite x -> delay cfg j = Finite y ->
  (x < y)%Q.
Proof.
  intros Hq Hpos Hi Hij Hx Hy.
  rewrite (delay_finite _ _ _ _ Hq Hx), (delay_finite _ _ _ _ Hq Hy).
  apply Qmult_lt_l; [assumption|].
  rewrite <- Zlt_Qlt. apply Z.pow_lt_mono_r; lia.
Qed.

(** A check of [backoffs_accepted] by evaluation. *)
Lemma backoffs_checked cfg services :
  forallb (fun attempt => backoff_accepted cfg (services attempt) attempt)
          (py_range 1 (MAX_RETRIES cfg)) = true ->
  backoffs_accepted cfg services.
Proof.
  intros H attempt Ha. rewrite forallb_forall in H. apply H, py_range_In. lia.
Qed.

(** ** One attempt *)

Lemma report_ret (pt : option ProgressTracker) (w : World) :
  report pt (ret tt) w = (Ok tt, tick pt w).
Proof. destruct pt; reflexivity. Qed.

Lemma slept_tick (pt : option ProgressTracker) (w : World) : slept (tick pt w) = slept w.
Proof. destruct pt; reflexivity. Qed.

(** When its backoff is accepted, the handler does not raise: the attempt
    ends with a [return] or a [continue]. *)
Lemma attempt_once_ok s cfg env pt fi attempt w :
  (attempt < MAX_RETRIES cfg -> backoff_accepted cfg env attempt = true) ->
  exists c w', attempt_once s cfg env pt fi attempt w = (Ok c, w').
Proof.
  intros Hacc. unfold attempt_once.
  destruct (attempt_body s cfg env pt fi attempt w) as [[c|e] w1]; [eauto|].
  destruct (attempt <? MAX_RETRIES cfg) eqn:Hlt.
  - unfold bind. rewrite backoff_run by (apply Hacc; lia). eauto.
  - unfold bind. rewrite report_ret. eauto.
Qed.


(** What the handler's [wait_time; time.sleep; continue] cannot give. *)
Ltac handler_backoff H :=
  lazymatch type of H with
  | context [backoff ?cfg ?env ?attempt] =>
      lazymatch type of H with
      | _ ?w = _ =>
          let E := fresh "E" in
          destruct (backoff_continue cfg env attempt w) as [[_ E]|[_ [? E]]];
          rewrite E in H; simplify_eq
      end
  end.





(** An exception leaves an attempt only from a backoff that is refused. *)
Lemma attempt_once_raises s cfg env pt fi attempt w w' e :
  attempt_once s cfg env pt fi attempt w = (Raise e, w') ->
  attempt < MAX_RETRIES cfg /\ backoff_accepted cfg env attempt = false.
Proof.
  unfold attempt_once.
  destruct (attempt_body s cfg env pt fi attempt w) as [[c|e0] w1] eqn:Hb; [discriminate|].
  destruct (attempt <? MAX_RETRIES cfg) eqn:Hlt.
  - intros H. split; [lia|].
    destruct (backoff_continue cfg env attempt w1) as [[_ E]|[Ha _]]; [|done].
    rewrite E in H. discriminate.
  - unfold bind, ret. rewrite report_ret. discriminate.
Qed.

(** ** The retry loop *)


(** An exception that leaves a run is the one of a refused backoff. *)
Lemma retry_loop_propagates s cfg services pt fi attempts : forall w w' e,
  retry_loop s cfg services pt fi attempts w = (Propagated e, w') ->
  exists attempt,
    In attempt attempts /\ attempt < MAX_RETRIES cfg
    /\ backoff_accepted cfg (services attempt) attempt = false.
Proof.
  induction attempts as [|a rest IH]; intros w w' e; cbn [retry_loop]; [discriminate|].
  destruct (attempt_once s cfg (services a) pt fi a w) as [[[site0 r0|]|e0] w1] eqn:Ha.
  - discriminate.
  - intros H. destruct (IH _ _ _ H) as (a' & Hin & Hlt & Hacc).
    exists a'. split; [by right | done].
  - intros _. apply attempt_once_raises in Ha as [Hlt Hacc].
    exists a. split; [by left | done].
Qed.

Lemma process_propagates s cfg services fi pt w w' e :
  process_contract_with_retry s cfg services fi pt w = (Propagated e, w') ->
  exists attempt,
    1 <= attempt < MAX_RETRIES cfg
    /\ backoff_accepted cfg (services attempt) attempt = false.
Proof.
  unfold process_contract_with_retry. intros H.
  apply retry_loop_propagates in H as (a & Hin & Hlt & Hacc).
  apply py_range_In in Hin. exists a. split; [lia | done].
Qed.

(** ** Termination of the retry controller *)

Example negative_delay_run :
  process_contract_with_retry KeyPOC Edge.negative_delay (fun _ => Fixtures.down "connection reset")
    Fixtures.unprepared_item (Fixtures.tracker 1) world0
  = (Propagated (Exception "sleep length must be non-negative"), world0).
Proof. vm_compute. reflexivity. Qed.




Example unprepared_item_run :
  process_contract_with_retry KeyPOC default_config (fun _ => Fixtures.down "connection reset")
    Fixtures.unprepared_item (Fixtures.tracker 1) world0
  = (Returned AtException
       (failure_result KeyPOC "pl/umowa.docx"
          (PStr "expected str, bytes or os.PathLike object, not NoneType")),
     {| completed := 1; slept := [Finite 2; Finite 4]; markdown := [] |}).
Proof. vm_compute. reflexivity. Qed.

(** ** Result dictionaries *)

Lemma lookup_foldl_insert (g : string -> pyval) (fields : list string) :
  forall (row : dict) (k : string),
    foldl (fun (row : dict) (f : string) => <[f := g f]> row) row fields !! k
    = if decide (k ∈ fields) then Some (g k) else row !! k.
Proof.
  induction fields as [|a fields IH]; intros row k; cbn [foldl].
  - rewrite decide_False by apply not_elem_of_nil. reflexivity.
  - rewrite IH. destruct (decide (k ∈ fields)) as [Hin|Hnin].
    + rewrite decide_True by (right; exact Hin). reflexivity.
    + destruct (decide (k = a)) as [->|Hne].
      * rewrite decide_True by left. apply lookup_insert_eq.
      * rewrite decide_False by (intros [?|?]%elem_of_cons; done).
        apply lookup_insert_ne. congruence.
Qed.

Lemma fields_apart s f :
  f ∈ SIRION_FIELDS s -> f <> "Notes" /\ f <> "Confidence" /\ f <> "Error".
Proof.
  intros H. destruct s; cbn in H;
    repeat (apply elem_of_cons in H as [->|H]); try (by apply elem_of_nil in H); done.
Qed.

(** Every schema field is a key of a success row, with the value of the
    metadata, or [''] where the metadata has none. *)
Lemma build_row_field s file_name metadata f :
  f ∈ SIRION_FIELDS s ->
  build_row s file_name metadata !! f = Some (dict_get metadata f (PStr "")).
Proof.
  intros H. destruct (fields_apart s f H) as (H1 & H2 & _).
  unfold build_row. rewrite !lookup_insert_ne by congruence.
  rewrite (lookup_foldl_insert (fun f => dict_get metadata f (PStr ""))).
  rewrite decide_True by exact H. reflexivity.
Qed.

Lemma not_listed (k : string) (l : list string) : bool_decide (k ∈ l) = false -> k ∉ l.
Proof. intros H. apply bool_decide_eq_false in H. exact H. Qed.

Lemma not_a_field s k :
  bool_decide (k ∈ SIRION_FIELDS s) = false -> k ∉ SIRION_FIELDS s.
Proof. apply not_listed. Qed.

Lemma build_row_confidence s file_name metadata :
  build_row s file_name metadata !! "Confidence"
  = Some (dict_get metadata "confidence" (PStr "medium")).
Proof.
  unfold build_row. rewrite lookup_insert_ne by done. apply lookup_insert_eq.
Qed.

Lemma build_row_language s file_name metadata :
  build_row s file_name metadata !! "Source Language"
  = Some (dict_get metadata "source_language" (PStr "unknown")).
Proof.
  unfold build_row. rewrite !lookup_insert_ne by done.
  rewrite (lookup_foldl_insert (fun f => dict_get metadata f (PStr ""))).
  rewrite decide_False by (apply not_a_field; destruct s; vm_compute; reflexivity).
  rewrite lookup_insert_ne by done. apply lookup_insert_eq.
Qed.

Lemma identity_entries_no_error s file_name : identity_entries s file_name !! "Error" = None.
Proof. destruct s; unfold identity_entries; by rewrite !lookup_insert_ne, lookup_empty. Qed.

Lemma build_row_no_error s file_name metadata :
  is_error (build_row s file_name metadata) = false.
Proof.
  unfold is_error, dict_has, build_row. rewrite !lookup_insert_ne by done.
  rewrite (lookup_foldl_insert (fun f => dict_get metadata f (PStr ""))).
  rewrite decide_False by (apply not_a_field; destruct s; vm_compute; reflexivity).
  rewrite !lookup_insert_ne by done. by rewrite identity_entries_no_error.
Qed.

Lemma failure_result_is_error s file_name error :
  is_error (failure_result s file_name error) = true.
Proof. unfold is_error, dict_has, failure_result. by rewrite lookup_insert_eq. Qed.

(** ** What the extraction functions return *)

Lemma as_object_inv v d : as_object v = Ok d -> exists kv, v = PDict kv /\ d = dict_of_pairs kv.
Proof. destruct v; cbn; intros H; simplify_eq. eauto. Qed.

Lemma stamp_apart key : key ∉ stamp_keys ->
  key <> "file_name" /\ key <> "extraction_timestamp" /\ key <> "extraction_method"
  /\ key <> "Original File Name".
Proof.
  unfold stamp_keys. intros H. repeat split; intros ->; apply H;
    apply (bool_decide_unpack _); vm_compute; exact I.
Qed.

Lemma extract_direct_try_inv s env contract_text file_name result :
  extract_direct_try s env contract_text file_name = Ok result ->
  exists kv, model_answer env file_name kv /\ stamped s file_name (dict_of_pairs kv) result.
Proof.
  unfold extract_direct_try.
  destruct (chat_extract env file_name _) as [v|e] eqn:Hc; [|discriminate].
  destruct (as_object v) as [d|e] eqn:Hd; [|discriminate].
  apply as_object_inv in Hd as (kv & -> & ->).
  intros H. exists kv. split; [eexists; exact Hc|].
  split.
  - intros key (H1 & H2 & H3 & H4)%stamp_apart.
    destruct s; simplify_eq; by rewrite !lookup_insert_ne.
  - destruct s; simplify_eq.
    + by rewrite !lookup_insert_ne.
    + by rewrite lookup_insert_eq.
Qed.

Lemma extract_english_try_inv s env english_text file_name result :
  extract_english_try s env english_text file_name = Ok result ->
  exists kv, model_answer env file_name kv /\ stamped s file_name (dict_of_pairs kv) result.
Proof.
  unfold extract_english_try.
  destruct (chat_extract env file_name _) as [v|e] eqn:Hc; [|discriminate].
  destruct (as_object v) as [d|e] eqn:Hd; [|discriminate].
  apply as_object_inv in Hd as (kv & -> & ->).
  intros H. exists kv. split; [eexists; exact Hc|].
  split.
  - intros key (H1 & H2 & H3 & H4)%stamp_apart.
    destruct s; simplify_eq; by rewrite !lookup_insert_ne.
  - destruct s; simplify_eq.
    + by rewrite !lookup_insert_ne.
    + by rewrite lookup_insert_eq.
Qed.

(** Whatever strategy ran, a metadata dictionary is a stamped answer of the
    model. *)
Lemma run_strategy_metadata s cfg env fi contract_text attempt metadata error :
  run_strategy s cfg env fi contract_text attempt = Ok (inr (Some metadata, error)) ->
  exists kv, model_answer env (name fi) kv
             /\ stamped s (name fi) (dict_of_pairs kv) metadata.
Proof.
  unfold run_strategy, extract_metadata_from_english, extract_metadata_direct.
  intros H. repeat (case_match; simplify_eq/=).
  - eapply extract_english_try_inv; eauto.
  - eapply extract_direct_try_inv; eauto.
Qed.

Lemma metadata_truthy_inv metadata d :
  metadata_truthy metadata = Some d -> metadata = Some d.
Proof. unfold metadata_truthy. intros H. repeat (case_match; simplify_eq). done. Qed.

(** ** How an attempt and a run can end *)

(** A success row is built from a stamped answer of the model; with a
    progress tracker, its language is a string. *)
Lemma attempt_body_success s cfg env pt fi attempt w w' row :
  attempt_body s cfg env pt fi attempt w = (Ok (Return AtSuccess row), w') ->
  exists kv metadata,
    model_answer env (name fi) kv
    /\ stamped s (name fi) (dict_of_pairs kv) metadata
    /\ row = build_row s (name fi) metadata.
Proof.
  intros H. unfold attempt_body, bind, lift, ret in H.
  repeat (case_match; simplify_eq/=; try rewrite report_ret in * ).
  all: simplify_eq/=.
  all: match goal with
       | Hm : metadata_truthy _ = Some _ |- _ => apply metadata_truthy_inv in Hm as ->
       end.
  all: match goal with
       | Hr : run_strategy _ _ _ _ _ _ = _ |- _ =>
           apply run_strategy_metadata in Hr as (kv & Ha & Hs)
       end.
  all: eauto.
Qed.

Lemma attempt_body_failure s cfg env pt fi attempt w w' site result :
  attempt_body s cfg env pt fi attempt w = (Ok (Return site result), w') ->
  site <> AtSuccess ->
  exists error, result = failure_result s (name fi) error.
Proof.
  intros H Hs. unfold attempt_body, bind, lift, ret in H.
  repeat (case_match; simplify_eq/=; try rewrite report_ret in * ).
  all: simplify_eq/=; eauto; done.
Qed.

(** What an attempt returns is a success row or a failure dictionary. *)
Lemma attempt_once_result s cfg env pt fi attempt w w' site result :
  attempt_once s cfg env pt fi attempt w = (Ok (Return site result), w') ->
  (site = AtSuccess
   /\ exists kv metadata,
        model_answer env (name fi) kv
        /\ stamped s (name fi) (dict_of_pairs kv) metadata
        /\ result = build_row s (name fi) metadata)
  \/ (site <> AtSuccess /\ exists error, result = failure_result s (name fi) error).
Proof.
  unfold attempt_once.
  destruct (attempt_body s cfg env pt fi attempt w) as [[c|e] w1] eqn:Hb.
  - intros H. simplify_eq. destruct (decide (site = AtSuccess)) as [->|Hs].
    + left. split; [done|]. eapply attempt_body_success; eauto.
    + right. split; [done|]. eapply attempt_body_failure; eauto.
  - destruct (attempt <? MAX_RETRIES cfg).
    + intros H. handler_backoff H.
    + unfold bind, ret. rewrite report_ret. intros H. simplify_eq.
      right. split; [done|]. eauto.
Qed.

(** A run returns what one of its attempts returned, or falls through an
    empty loop. *)
Lemma retry_loop_inv s cfg services pt fi attempts : forall w w' site result,
  retry_loop s cfg services pt fi attempts w = (Returned site result, w') ->
  (site = AtFallback
   /\ result = failure_result s (name fi) (PStr "Max retries exceeded"))
  \/ exists attempt w0 w1,
       In attempt attempts
       /\ attempt_once s cfg (services attempt) pt fi attempt w0
          = (Ok (Return site result), w1).
Proof.
  induction attempts as [|a rest IH]; intros w w' site result; cbn [retry_loop].
  - intros H. simplify_eq. by left.
  - destruct (attempt_once s cfg (services a) pt fi a w) as [[[site0 r0|]|e] w1] eqn:Ha.
    + intros H. simplify_eq. right. exists a, w, w'. split; [by left | done].
    + intros H. apply IH in H as [H|(a' & w0 & w2 & Hin & H)]; [by left|].
      right. exists a', w0, w2. split; [by right | done].
    + discriminate.
Qed.

Lemma process_result s cfg services fi pt w w' site result :
  process_contract_with_retry s cfg services fi pt w = (Returned site result, w') ->
  (site = AtSuccess
   /\ exists attempt kv metadata,
        1 <= attempt <= MAX_RETRIES cfg
        /\ model_answer (services attempt) (name fi) kv
        /\ stamped s (name fi) (dict_of_pairs kv) metadata
        /\ result = build_row s (name fi) metadata)
  \/ (site <> AtSuccess /\ exists error, result = failure_result s (name fi) error).
Proof.
  unfold process_contract_with_retry. intros H.
  apply retry_loop_inv in H as [[-> ->]|(a & w0 & w1 & Hin & H)].
  - right. split; [done|]. eauto.
  - apply py_range_In in Hin.
    apply attempt_once_result in H as [(-> & kv & md & H1 & H2 & H3)|H]; [|by right].
    left. split; [done|]. exists a, kv, md. split; [lia|]. done.
Qed.

(** A result is a success row exactly when it has no ['Error'] key. *)
Lemma process_success_iff s cfg services fi pt w w' site result :
  process_contract_with_retry s cfg services fi pt w = (Returned site result, w') ->
  is_error result = false <-> site = AtSuccess.
Proof.
  intros H. apply process_result in H as [(-> & a & kv & md & _ & _ & _ & ->)|(Hs & err & ->)].
  - split; [done|]. intros _. apply build_row_no_error.
  - rewrite failure_result_is_error. split; [discriminate | done].
Qed.

(** ** Success rows *)

Lemma field_not_stamped s field :
  field ∈ SIRION_FIELDS s -> field <> "Original File Name" -> field ∉ stamp_keys.
Proof.
  intros H Hne Hs. unfold stamp_keys in Hs.
  apply elem_of_cons in Hs as [->|Hs]; [|apply elem_of_cons in Hs as [->|Hs]];
    [| |apply elem_of_cons in Hs as [->|Hs]]; [| | |apply elem_of_cons in Hs as [->|Hs]];
    [| | | done |by apply elem_of_nil in Hs].
  all: revert H; apply not_a_field; destruct s; vm_compute; reflexivity.
Qed.

(** The fields of a success row, read off the answer of the model. *)
Lemma success_row_fields s cfg services fi pt w w' site row :
  process_contract_with_retry s cfg services fi pt w = (Returned site row, w') ->
  is_error row = false ->
  exists attempt kv,
    1 <= attempt <= MAX_RETRIES cfg
    /\ model_answer (services attempt) (name fi) kv
    /\ forall field, field ∈ SIRION_FIELDS s ->
         is_Some (row !! field)
         /\ (field <> "Original File Name" ->
             row !! field = Some (dict_get (dict_of_pairs kv) field (PStr ""))).
Proof.
  intros H Hok.
  destruct (process_result _ _ _ _ _ _ _ _ _ H)
    as [(-> & a & kv & md & Ha & Hm & [Hst _] & ->)|(_ & err & ->)].
  - exists a, kv. split; [done|]. split; [done|]. intros field Hf.
    rewrite (build_row_field _ _ _ _ Hf). split; [eauto|].
    intros Hne. unfold dict_get. by rewrite Hst by by apply (field_not_stamped s).
  - by rewrite failure_result_is_error in Hok.
Qed.

(** C7. The row of a successful extraction has every field of
    [SIRION_FIELDS] as a key.  The value is the one the model answered in the
    attempt that succeeded, and the empty string for a field the model left
    out (the file name field of [ManagedPOC] is the caller's file name). *)
Theorem success_row_has_every_field s cfg services fi pt w w' site row :
  process_contract_with_retry s cfg services fi pt w = (Returned site row, w') ->
  is_error row = false ->
  exists attempt kv,
    1 <= attempt <= MAX_RETRIES cfg
    /\ model_answer (services attempt) (name fi) kv
    /\ forall field, field ∈ SIRION_FIELDS s ->
         is_Some (row !! field)
         /\ (field <> "Original File Name" ->
             row !! field = Some (dict_get (dict_of_pairs kv) field (PStr ""))).
Proof. apply success_row_fields. Qed.

Lemma success_row_has_every_field_witness :
  exists attempt kv,
    1 <= attempt <= MAX_RETRIES default_config
    /\ model_answer Answers.sparse_env (name Fixtures.txt_item) kv
    /\ forall field, field ∈ SIRION_FIELDS ManagedPOC ->
         is_Some (result_of (fst Runs.sparse) !! field)
         /\ (field <> "Original File Name" ->
             result_of (fst Runs.sparse) !! field
             = Some (dict_get (dict_of_pairs kv) field (PStr ""))).
Proof.
  apply (success_row_has_every_field ManagedPOC default_config (fun _ => Answers.sparse_env)
           Fixtures.txt_item (Fixtures.tracker 1) world0 (snd Runs.sparse) AtSuccess
           (result_of (fst Runs.sparse))); computed.
Defined.

(** C10. In the row of a successful extraction, ['Confidence'] is
    ['medium'] when the answer of the model has no ['confidence'] key, and
    ['Source Language'] is ['unknown'] when it has no ['source_language']
    key. *)
Theorem defaults_for_omitted_keys s cfg services fi pt w w' site row :
  process_contract_with_retry s cfg services fi pt w = (Returned site row, w') ->
  is_error row = false ->
  exists attempt kv,
    1 <= attempt <= MAX_RETRIES cfg
    /\ model_answer (services attempt) (name fi) kv
    /\ (dict_of_pairs kv !! "confidence" = None ->
        row !! "Confidence" = Some (PStr "medium"))
    /\ (dict_of_pairs kv !! "source_language" = None ->
        row !! "Source Language" = Some (PStr "unknown")).
Proof.
  intros H Hok.
  destruct (process_result _ _ _ _ _ _ _ _ _ H)
    as [(-> & a & kv & md & Ha & Hm & [Hst _] & ->)|(_ & err & ->)].
  - exists a, kv. split; [done|]. split; [done|].
    rewrite build_row_confidence, build_row_language. unfold dict_get.
    rewrite !Hst by (apply not_listed; vm_compute; reflexivity).
    split; intros ->; reflexivity.
  - by rewrite failure_result_is_error in Hok.
Qed.

Lemma defaults_for_omitted_keys_witness :
  exists attempt kv,
    1 <= attempt <= MAX_RETRIES default_config
    /\ model_answer Answers.sparse_env (name Fixtures.txt_item) kv
    /\ (dict_of_pairs kv !! "confidence" = None ->
        result_of (fst Runs.sparse) !! "Confidence" = Some (PStr "medium"))
    /\ (dict_of_pairs kv !! "source_language" = None ->
        result_of (fst Runs.sparse) !! "Source Language" = Some (PStr "unknown")).
Proof.
  apply (defaults_for_omitted_keys ManagedPOC default_config (fun _ => Answers.sparse_env)
           Fixtures.txt_item (Fixtures.tracker 1) world0 (snd Runs.sparse) AtSuccess
           (result_of (fst Runs.sparse))); computed.
Defined.

Example sparse_row_defaults :
  result_of (fst Runs.sparse) !! "Confidence" = Some (PStr "medium")
  /\ result_of (fst Runs.sparse) !! "Source Language" = Some (PStr "unknown")
  /\ result_of (fst Runs.sparse) !! "Payment Term" = Some (PStr "")
  /\ result_of (fst Runs.sparse) !! "Governing Law" = Some (PStr "Swedish law")
  /\ result_of (fst Runs.sparse) !! "Original File Name" = Some (PStr "sv/leveransavtal.txt")
  /\ result_of (fst Runs.sparse) !! "File Name" = Some (PStr "leveransavtal.txt")
  /\ result_of (fst Runs.sparse) !! "Folder Path" = Some (PStr "sv").
Proof. vm_compute. repeat split. Qed.

(** C4. In [ManagedPOC], whichever strategy ran (the direct call or the
    translation followed by the extraction from English), the metadata it
    returns carries the file name of the work item under
    ['Original File Name'], whatever the model answered for that key, and so
    does the row built from it. *)
Theorem original_file_name_is_input cfg env fi contract_text attempt metadata error :
  run_strategy ManagedPOC cfg env fi contract_text attempt = Ok (inr (Some metadata, error)) ->
  metadata !! "Original File Name" = Some (PStr (name fi))
  /\ build_row ManagedPOC (name fi) metadata !! "Original File Name"
     = Some (PStr (name fi)).
Proof.
  intros H. apply run_strategy_metadata in H as (kv & _ & _ & Hname).
  split; [exact Hname|].
  rewrite build_row_field by (apply (bool_decide_unpack _); vm_compute; exact I).
  unfold dict_get. by rewrite Hname.
Qed.

Lemma original_file_name_is_input_witness :
  Answers.two_call_metadata !! "Original File Name" = Some (PStr (name Fixtures.pdf_item))
  /\ build_row ManagedPOC (name Fixtures.pdf_item) Answers.two_call_metadata
       !! "Original File Name"
     = Some (PStr (name Fixtures.pdf_item)).
Proof.
  apply (original_file_name_is_input default_config Answers.two_call_env Fixtures.pdf_item
           "Tarnekokkulepe" 1 Answers.two_call_metadata None).
  computed.
Defined.

(** The same for the two extraction functions taken alone. *)
Lemma extract_metadata_direct_file_name env contract_text file_name attempt result error :
  extract_metadata_direct ManagedPOC env contract_text file_name attempt = (Some result, error) ->
  result !! "Original File Name" = Some (PStr file_name).
Proof.
  unfold extract_metadata_direct.
  destruct (extract_direct_try _ _ _ _) as [r|e] eqn:Ht; intros H; simplify_eq.
  by apply extract_direct_try_inv in Ht as (kv & _ & _ & Hname).
Qed.

Lemma extract_metadata_from_english_file_name env english_text file_name result error :
  extract_metadata_from_english ManagedPOC env english_text file_name = (Some result, error) ->
  result !! "Original File Name" = Some (PStr file_name).
Proof.
  unfold extract_metadata_from_english.
  destruct (extract_english_try _ _ _ _) as [r|e] eqn:Ht; intros H; simplify_eq.
  by apply extract_english_try_inv in Ht as (kv & _ & _ & Hname).
Qed.

(** ** Term type and expiration date *)

(** C8, as stated, fails: the model answers ["Perpetual"] together with an
    expiration date, the extraction succeeds, and the row keeps both. *)
Lemma perpetual_row_keeps_date :
  is_error (result_of (fst Runs.perpetual)) = false
  /\ result_of (fst Runs.perpetual) !! "Term Type" = Some (PStr "Perpetual")
  /\ result_of (fst Runs.perpetual) !! "Expiration Date" = Some (PStr "03/31/2025")
  /\ result_of (fst Runs.perpetual) !! "Expiration Date" <> Some PNone.
Proof. vm_compute. repeat split. discriminate. Qed.

(** C8, amended. The row of a successful extraction of [ManagedPOC] carries
    the ['Term Type'] and the ['Expiration Date'] that the model answered,
    unchanged (the empty string for a key left out): the row pairs
    ["Perpetual"] with a null expiration date exactly when the answer of the
    model does.  The pairing is asked of the model in [SYSTEM_PROMPT]; the
    code does not check it. *)
Theorem term_and_expiration_pass_through cfg services fi pt w w' site row :
  process_contract_with_retry ManagedPOC cfg services fi pt w = (Returned site row, w') ->
  is_error row = false ->
  exists attempt kv,
    1 <= attempt <= MAX_RETRIES cfg
    /\ model_answer (services attempt) (name fi) kv
    /\ row !! "Term Type" = Some (dict_get (dict_of_pairs kv) "Term Type" (PStr ""))
    /\ row !! "Expiration Date"
       = Some (dict_get (dict_of_pairs kv) "Expiration Date" (PStr ""))
    /\ ((row !! "Term Type" = Some (PStr "Perpetual") ->
         row !! "Expiration Date" = Some PNone)
        <-> (dict_of_pairs kv !! "Term Type" = Some (PStr "Perpetual") ->
             dict_of_pairs kv !! "Expiration Date" = Some PNone)).
Proof.
  intros H Hok.
  destruct (success_row_fields _ _ _ _ _ _ _ _ _ H Hok)
    as (a & kv & Ha & Hm & Hrow).
  exists a, kv. split; [done|]. split; [done|].
  assert (Ht : row !! "Term Type" = Some (dict_get (dict_of_pairs kv) "Term Type" (PStr ""))).
  { apply Hrow; [apply (bool_decide_unpack _); vm_compute; exact I | done]. }
  assert (He : row !! "Expiration Date"
               = Some (dict_get (dict_of_pairs kv) "Expiration Date" (PStr ""))).
  { apply Hrow; [apply (bool_decide_unpack _); vm_compute; exact I | done]. }
  split; [done|]. split; [done|].
  rewrite Ht, He. unfold dict_get.
  destruct (dict_of_pairs kv !! "Term Type") as [t|];
    destruct (dict_of_pairs kv !! "Expiration Date") as [d|];
    split; intros Himp Heq; simplify_eq; try (specialize (Himp eq_refl)); simplify_eq; done.
Qed.

Lemma term_and_expiration_pass_through_witness :
  exists attempt kv,
    1 <= attempt <= MAX_RETRIES default_config
    /\ model_answer Answers.perpetual_env (name Fixtures.txt_item) kv
    /\ result_of (fst Runs.perpetual) !! "Term Type"
       = Some (dict_get (dict_of_pairs kv) "Term Type" (PStr ""))
    /\ result_of (fst Runs.perpetual) !! "Expiration Date"
       = Some (dict_get (dict_of_pairs kv) "Expiration Date" (PStr ""))
    /\ ((result_of (fst Runs.perpetual) !! "Term Type" = Some (PStr "Perpetual") ->
         result_of (fst Runs.perpetual) !! "Expiration Date" = Some PNone)
        <-> (dict_of_pairs kv !! "Term Type" = Some (PStr "Perpetual") ->
             dict_of_pairs kv !! "Expiration Date" = Some PNone)).
Proof.
  apply (term_and_expiration_pass_through default_config (fun _ => Answers.perpetual_env)
           Fixtures.txt_item (Fixtures.tracker 1) world0 (snd Runs.perpetual) AtSuccess
           (result_of (fst Runs.perpetual))); computed.
Defined.

(** ** Exceptions inside an attempt *)

(** C6, as stated, fails.  The download of a blob failed, so that the attempt
    raises the [TypeError] of [Path(None)]: its text has no rate-limit
    indicator, and the attempt is retried after a backoff all the same,
    whereas the same text reported by the extraction call ends the run at
    once. *)
Lemma exception_retried_whatever_its_text :
  rate_limited Scenarios.path_none = false
  /\ attempt_body KeyPOC default_config (Fixtures.down "timeout") (Fixtures.tracker 1)
       Fixtures.unprepared_item 1 world0
     = (Raise (Exception Scenarios.path_none), world0)
  /\ attempt_once KeyPOC default_config (Fixtures.down "timeout") (Fixtures.tracker 1)
       Fixtures.unprepared_item 1 world0
     = (Ok Continue, after_sleep (Finite 2) world0)
  /\ attempt_once KeyPOC default_config Scenarios.reported_path_none (Fixtures.tracker 1)
       Fixtures.txt_item 1 world0
     = (Ok (Return AtError
              (failure_result KeyPOC "sv/leveransavtal.txt" (PStr Scenarios.path_none))),
        tick (Fixtures.tracker 1) world0).
Proof. vm_compute. repeat split. Qed.

(** C6, amended. An exception raised inside an attempt is caught, and no
    test is applied to its text.  While attempts remain the handler backs
    off: when the backoff is accepted (its delay can be computed and
    [time.sleep] returns), the attempt is followed by the next one; when it
    is refused, what the backoff raises leaves the function.  In the last
    attempt the exception ends the run with [str(e)] as the error of the
    document. *)
Theorem exception_caught_and_retried s cfg env pt fi attempt w e w1 :
  attempt_body s cfg env pt fi attempt w = (Raise e, w1) ->
  (attempt < MAX_RETRIES cfg ->
   if backoff_accepted cfg env attempt
   then attempt_once s cfg env pt fi attempt w
        = (Ok Continue, after_sleep (delay cfg attempt) w1)
   else exists e', attempt_once s cfg env pt fi attempt w = (Raise e', w1))
  /\ (MAX_RETRIES cfg <= attempt ->
      attempt_once s cfg env pt fi attempt w
      = (Ok (Return AtException (failure_result s (name fi) (PStr (str_exn e)))),
         tick pt w1)).
Proof.
  intros H. unfold attempt_once. rewrite H. split; intros Ha.
  - destruct (attempt <? MAX_RETRIES cfg) eqn:E; [|lia].
    destruct (backoff_continue cfg env attempt w1) as [[-> E']|[-> E']]; done.
  - destruct (attempt <? MAX_RETRIES cfg) eqn:E; [lia|].
    unfold bind, ret. by rewrite report_ret.
Qed.

Lemma exception_caught_and_retried_witness :
  (1 < MAX_RETRIES default_config ->
   if backoff_accepted default_config (Fixtures.down "timeout") 1
   then attempt_once KeyPOC default_config (Fixtures.down "timeout") (Fixtures.tracker 1)
          Fixtures.unprepared_item 1 world0
        = (Ok Continue, after_sleep (delay default_config 1) world0)
   else exists e',
          attempt_once KeyPOC default_config (Fixtures.down "timeout") (Fixtures.tracker 1)
            Fixtures.unprepared_item 1 world0 = (Raise e', world0))
  /\ (MAX_RETRIES default_config <= 1 ->
      attempt_once KeyPOC default_config (Fixtures.down "timeout") (Fixtures.tracker 1)
        Fixtures.unprepared_item 1 world0
      = (Ok (Return AtException
               (failure_result KeyPOC (name Fixtures.unprepared_item)
                  (PStr (str_exn (Exception Scenarios.path_none))))),
         tick (Fixtures.tracker 1) world0)).
Proof.
  apply (exception_caught_and_retried KeyPOC default_config (Fixtures.down "timeout")
           (Fixtures.tracker 1) Fixtures.unprepared_item 1 world0
           (Exception Scenarios.path_none) world0).
  vm_compute; reflexivity.
Defined.

Example refused_backoff_after_exception :
  backoff_accepted Edge.negative_delay (Fixtures.down "timeout") 1 = false
  /\ attempt_once KeyPOC Edge.negative_delay (Fixtures.down "timeout") (Fixtures.tracker 1)
       Fixtures.unprepared_item 1 world0
     = (Raise (Exception "sleep length must be non-negative"), world0).
Proof. vm_compute. split; reflexivity. Qed.

(** ** Rate-limit errors of the extraction call *)

Lemma slept_after_markdown s cfg file_name w :
  slept (after_markdown s cfg file_name w) = slept w.
Proof. unfold after_markdown. repeat case_match; reflexivity. Qed.

(** An attempt whose extraction call reports an error: retried after the
    backoff when attempts remain and the text has a rate-limit indicator,
    ended with that error otherwise. *)
Lemma attempt_reported_error s cfg env pt fi attempt w err :
  reports_error s cfg env fi attempt err ->
  (attempt < MAX_RETRIES cfg -> rate_limited err = true ->
   backoff_accepted cfg env attempt = true) ->
  attempt_once s cfg env pt fi attempt w
  = if (attempt <? MAX_RETRIES cfg) && rate_limited err
    then (Ok Continue,
          after_sleep (delay cfg attempt) (after_markdown s cfg (name fi) w))
    else (Ok (Return AtError (failure_result s (name fi) (PStr err))),
          tick pt (after_markdown s cfg (name fi) w)).
Proof.
  intros (c & text & read_error & metadata & Hread & Hrun & Hmd) Hacc.
  unfold attempt_once, attempt_body, bind, lift, ret. rewrite Hread.
  unfold save_text_as_markdown, after_markdown, ret.
  destruct (attempt <? MAX_RETRIES cfg) eqn:Hlt; destruct (rate_limited err) eqn:Hrl;
    cbn [andb]; unfold rate_limited in Hrl.
  1: assert (Ha : backoff_accepted cfg env attempt = true)
       by (apply Hacc; [lia | reflexivity]).
  all: destruct s, (SAVE_MARKDOWN cfg), (blob_service_client cfg); cbn -[backoff];
    rewrite Hrun, Hmd; cbn -[backoff]; rewrite ?Hlt; cbn -[backoff];
    rewrite ?Hrl; cbn -[backoff]; rewrite ?backoff_run by exact Ha;
    rewrite ?report_ret; reflexivity.
Qed.

Lemma retry_loop_schedule s cfg services pt fi n err (k : nat) : forall lo w,
  1 <= lo <= n -> n <= MAX_RETRIES cfg -> Z.to_nat (n - lo) = k ->
  (forall a, lo <= a < n ->
     backoff_accepted cfg (services a) a = true
     /\ exists e, reports_error s cfg (services a) fi a e /\ rate_limited e = true) ->
  reports_error s cfg (services n) fi n err ->
  n = MAX_RETRIES cfg \/ rate_limited err = false ->
  exists w',
    retry_loop s cfg services pt fi (py_range lo (MAX_RETRIES cfg + 1)) w
    = (Returned AtError (failure_result s (name fi) (PStr err)), w')
    /\ slept w' = (slept w ++ map (delay cfg) (py_range lo n))%list.
Proof.
  induction k as [|k IH]; intros lo w Hlo Hn Hk Hbefore Hlast Hend.
  - assert (lo = n) as -> by lia.
    rewrite py_range_cons by lia. cbn [retry_loop].
    assert (Hno : (n <? MAX_RETRIES cfg) && rate_limited err = false).
    { destruct Hend as [->| ->]; [|apply andb_false_r].
      by rewrite Z.ltb_irrefl. }
    rewrite (attempt_reported_error _ _ _ _ _ _ _ _ Hlast), Hno.
    2: { intros Hlt Hrl. apply andb_false_iff in Hno as [Hno|Hno]; [lia | congruence]. }
    eexists. split; [reflexivity|].
    rewrite slept_tick, slept_after_markdown, py_range_nil by lia.
    cbn [map]. by rewrite app_nil_r.
  - rewrite py_range_cons by lia. cbn [retry_loop].
    destruct (Hbefore lo) as (Hacc & e & He & Hrate); [lia|].
    rewrite (attempt_reported_error _ _ _ _ _ _ _ _ He), Hrate by done.
    assert ((lo <? MAX_RETRIES cfg) = true) as -> by lia. cbn [andb].
    destruct (IH (lo + 1) (after_sleep (delay cfg lo) (after_markdown s cfg (name fi) w)))
      as (w' & Hrun & Hslept); try done; try lia.
    { intros a Ha. apply Hbefore. lia. }
    exists w'. split; [exact Hrun|].
    rewrite Hslept. cbn [after_sleep slept]. rewrite slept_after_markdown.
    rewrite (py_range_cons lo n) by lia. cbn [map]. by rewrite <- app_assoc.
Qed.

(** C1, as stated, fails.  The translation call of a PDF is answered with
    HTTP 429: the error reported for the attempt has both rate-limit
    indicators and attempts remain, yet the document is not retried, no
    backoff is slept, and the first failure is final.  With [RETRY_DELAY=0]
    the retries of a throttled extraction call are spaced by delays that do
    not increase.  And with a [RETRY_DELAY] that [time.sleep] refuses, a
    throttled extraction call is not retried at all: the exception of the
    backoff leaves the function. *)
Lemma throttled_translation_not_retried :
  (1 < MAX_RETRIES default_config
   /\ fst Scenarios.throttled_translation
      = Returned AtTranslationError
          (failure_result ManagedPOC "et/tarne.pdf"
             (PStr "Translation error: Error code: 429 - Requests to the ChatCompletions_Create Operation have exceeded rate limit"))
   /\ rate_limited "Translation error: Error code: 429 - Requests to the ChatCompletions_Create Operation have exceeded rate limit" = true
   /\ slept (snd Scenarios.throttled_translation) = [])
  /\ slept (snd (Scenarios.throttled_extraction Scenarios.no_delay)) = [Finite 0; Finite 0]
  /\ Scenarios.throttled_extraction Edge.long_delay
     = (Propagated (Exception "timestamp too large to convert to C _PyTime_t"), world0).
Proof. vm_compute. repeat split. Qed.

(** C1, amended. The error tested for a retry is the one reported by the
    extraction call.  If the extraction calls of the attempts [1 .. n-1]
    report errors with a rate-limit indicator and their backoffs are
    accepted (the delay can be computed and [time.sleep] returns), and the
    call of attempt [n] reports [err], where [n] is the last attempt or
    [err] has no indicator, then the run ends at attempt [n] with [err] as
    the error of the document, after exactly the backoff delays of the
    attempts [1 .. n-1]: at most [MAX_RETRIES - 1] retries, none at all for
    a first error without indicator.  A finite delay is the product
    [RETRY_DELAY * 2^(a-1)], and finite delays increase strictly when
    [RETRY_DELAY] is positive. *)
Theorem rate_limit_retry_schedule s cfg services fi pt w n err :
  1 <= n <= MAX_RETRIES cfg ->
  (forall a, 1 <= a < n ->
     backoff_accepted cfg (services a) a = true
     /\ exists e, reports_error s cfg (services a) fi a e /\ rate_limited e = true) ->
  reports_error s cfg (services n) fi n err ->
  n = MAX_RETRIES cfg \/ rate_limited err = false ->
  (exists w',
     process_contract_with_retry s cfg services fi pt w
     = (Returned AtError (failure_result s (name fi) (PStr err)), w')
     /\ slept w' = (slept w ++ map (delay cfg) (py_range 1 n))%list)
  /\ (forall q a x,
        1 <= a -> RETRY_DELAY cfg = Finite q -> delay cfg a = Finite x ->
        x = (q * inject_Z (2 ^ (a - 1)))%Q)
  /\ (forall q i j x y,
        RETRY_DELAY cfg = Finite q -> (0 < q)%Q -> 1 <= i -> i < j ->
        delay cfg i = Finite x -> delay cfg j = Finite y -> (x < y)%Q).
Proof.
  intros Hn Hbefore Hlast Hend. split; [|split].
  - unfold process_contract_with_retry.
    eapply (retry_loop_schedule s cfg services pt fi n err (Z.to_nat (n - 1)));
      eauto; lia.
  - intros q a x _. apply delay_finite.
  - intros q i j x y. apply delay_increasing.
Qed.

Lemma throttled_reports (attempt : Z) :
  reports_error KeyPOC default_config (Throttled.services attempt) Fixtures.txt_item attempt
    Throttled.reported.
Proof.
  unfold reports_error. do 4 eexists.
  split; [vm_compute; reflexivity|]. split; [vm_compute; reflexivity|]. reflexivity.
Qed.

Lemma rate_limit_retry_schedule_witness :
  (exists w',
     process_contract_with_retry KeyPOC default_config Throttled.services
       Fixtures.txt_item (Fixtures.tracker 1) world0
     = (Returned AtError
          (failure_result KeyPOC (name Fixtures.txt_item) (PStr Throttled.reported)), w')
     /\ slept w' = (slept world0 ++ map (delay default_config) (py_range 1 3))%list)
  /\ (forall q a x,
        1 <= a -> RETRY_DELAY default_config = Finite q -> delay default_config a = Finite x ->
        x = (q * inject_Z (2 ^ (a - 1)))%Q)
  /\ (forall q i j x y,
        RETRY_DELAY default_config = Finite q -> (0 < q)%Q -> 1 <= i -> i < j ->
        delay default_config i = Finite x -> delay default_config j = Finite y -> (x < y)%Q).
Proof.
  apply (rate_limit_retry_schedule KeyPOC default_config Throttled.services
           Fixtures.txt_item (Fixtures.tracker 1) world0 3 Throttled.reported).
  - vm_compute. split; discriminate.
  - intros a Ha. split.
    + assert (a = 1 \/ a = 2) as [-> | ->] by lia; reflexivity.
    + exists Throttled.reported. split; [apply throttled_reports|].
      vm_compute. reflexivity.
  - apply throttled_reports.
  - left. reflexivity.
Defined.

Example throttled_extraction_run :
  Scenarios.throttled_extraction default_config
  = (Returned AtError (failure_result KeyPOC "sv/leveransavtal.txt" (PStr Throttled.reported)),
     {| completed := 1; slept := [Finite 2; Finite 4]; markdown := [] |}).
Proof. vm_compute. reflexivity. Qed.

(** ** The results of a run do not depend on the shared state *)

Lemma attempt_once_fst s cfg env pt fi attempt w w0 :
  fst (attempt_once s cfg env pt fi attempt w) = fst (attempt_once s cfg env pt fi attempt w0).
Proof.
  unfold attempt_once, attempt_body, backoff, bind, lift, ret, report, increment, time_sleep,
    save_text_as_markdown.
  repeat (case_match; simplify_eq/=; try done).
  all: unfold bind in *; simplify_eq/=; done.
Qed.

Lemma retry_loop_fst s cfg services pt fi attempts : forall w w0,
  fst (retry_loop s cfg services pt fi attempts w)
  = fst (retry_loop s cfg services pt fi attempts w0).
Proof.
  induction attempts as [|a rest IH]; intros w w0; cbn [retry_loop]; [reflexivity|].
  pose proof (attempt_once_fst s cfg (services a) pt fi a w w0) as H.
  destruct (attempt_once s cfg (services a) pt fi a w) as [[[site r|]|e] w1];
    destruct (attempt_once s cfg (services a) pt fi a w0) as [[[site0 r0|]|e0] w2];
    cbn in H; simplify_eq; try reflexivity.
  apply IH.
Qed.

(** What a work item yields is the same wherever the shared counter
    stands and whatever other workers have slept. *)
Lemma process_fst s cfg services fi pt w w0 :
  fst (process_contract_with_retry s cfg services fi pt w)
  = fst (process_contract_with_retry s cfg services fi pt w0).
Proof. apply retry_loop_fst. Qed.

Lemma retry_loop_accepted s cfg services pt fi attempts : forall w,
  (forall a, In a attempts -> a < MAX_RETRIES cfg ->
             backoff_accepted cfg (services a) a = true) ->
  exists site result w',
    retry_loop s cfg services pt fi attempts w = (Returned site result, w').
Proof.
  induction attempts as [|a rest IH]; intros w Hacc; cbn [retry_loop]; [eauto|].
  destruct (attempt_once_ok s cfg (services a) pt fi a w) as (c & w1 & ->).
  { apply Hacc. by left. }
  destruct c; [eauto|]. apply IH. intros a' Hin. apply Hacc. by right.
Qed.

(** When its backoffs are accepted, no exception leaves
    [process_contract_with_retry], whatever [MAX_RETRIES] is. *)
Lemma process_accepted s cfg services fi pt w :
  backoffs_accepted cfg services ->
  exists site result w',
    process_contract_with_retry s cfg services fi pt w = (Returned site result, w').
Proof.
  intros Hacc. apply retry_loop_accepted. intros a Hin Hlt.
  apply py_range_In in Hin. apply Hacc. lia.
Qed.

(** ** Collecting the results *)

Lemma run_sequential_inv s cfg services progress file_infos : forall i w results w',
  run_sequential s cfg services progress i file_infos w = (Ok results, w') ->
  results = item_results s cfg services progress i file_infos
  /\ all_returned s cfg services progress i file_infos.
Proof.
  induction file_infos as [|fi rest IH]; intros i w results w';
    cbn [run_sequential item_results all_returned].
  - intros H. by simplify_eq.
  - pose proof (process_fst s cfg (services i) fi (Some progress) world0 w) as Hfst.
    destruct (process_contract_with_retry s cfg (services i) fi (Some progress) w)
      as [[site r|e] w1]; [|discriminate].
    destruct (process_contract_with_retry s cfg (services i) fi (Some progress) world0)
      as [o w0] eqn:Hp0. cbn [fst] in Hfst. subst o.
    destruct (run_sequential s cfg services progress (S i) rest w1) as [[rs|e] w2] eqn:Hrest;
      [|discriminate].
    intros H. simplify_eq. destruct (IH _ _ _ _ Hrest) as [-> Hall].
    cbn [fst result_of]. split; [done|]. split; [eauto | done].
Qed.

Lemma run_sequential_all_returned s cfg services progress file_infos : forall i w,
  all_returned s cfg services progress i file_infos ->
  exists w',
    run_sequential s cfg services progress i file_infos w
    = (Ok (item_results s cfg services progress i file_infos), w').
Proof.
  induction file_infos as [|fi rest IH]; intros i w;
    cbn [run_sequential item_results all_returned].
  - eauto.
  - intros [(site & r & w0 & Hp0) Hall].
    pose proof (process_fst s cfg (services i) fi (Some progress) world0 w) as Hfst.
    rewrite Hp0 in Hfst. cbn [fst] in Hfst.
    destruct (process_contract_with_retry s cfg (services i) fi (Some progress) w)
      as [o w1]. cbn [fst] in Hfst. subst o.
    destruct (IH (S i) w1 Hall) as (w2 & ->). rewrite Hp0. cbn [fst result_of]. eauto.
Qed.

Lemma run_workers_inv s cfg services progress file_infos : forall i w results,
  gather (fst (run_workers s cfg services progress i file_infos w)) = Ok results ->
  results = item_results s cfg services progress i file_infos
  /\ all_returned s cfg services progress i file_infos.
Proof.
  induction file_infos as [|fi rest IH]; intros i w results;
    cbn [run_workers item_results all_returned].
  - cbn. intros H. by simplify_eq.
  - pose proof (process_fst s cfg (services i) fi (Some progress) world0 w) as Hfst.
    destruct (process_contract_with_retry s cfg (services i) fi (Some progress) w)
      as [o w1].
    destruct (process_contract_with_retry s cfg (services i) fi (Some progress) world0)
      as [o0 w0] eqn:Hp0. cbn [fst] in Hfst. subst o0.
    specialize (IH (S i) w1).
    destruct (run_workers s cfg services progress (S i) rest w1) as [futures w2].
    cbn [fst gather] in *. destruct o as [site r|e]; [|discriminate].
    destruct (gather futures) as [rs|e]; [|discriminate].
    intros H. simplify_eq. destruct (IH rs eq_refl) as [-> Hall].
    cbn [fst result_of]. split; [done|]. split; [eauto | done].
Qed.

Lemma run_workers_all_returned s cfg services progress file_infos : forall i w,
  all_returned s cfg services progress i file_infos ->
  gather (fst (run_workers s cfg services progress i file_infos w))
  = Ok (item_results s cfg services progress i file_infos).
Proof.
  induction file_infos as [|fi rest IH]; intros i w;
    cbn [run_workers item_results all_returned].
  - done.
  - intros [(site & r & w0 & Hp0) Hall].
    pose proof (process_fst s cfg (services i) fi (Some progress) world0 w) as Hfst.
    rewrite Hp0 in Hfst. cbn [fst] in Hfst.
    destruct (process_contract_with_retry s cfg (services i) fi (Some progress) w)
      as [o w1]. cbn [fst] in Hfst. subst o.
    specialize (IH (S i) w1 Hall).
    destruct (run_workers s cfg services progress (S i) rest w1) as [futures w2].
    rewrite Hp0. cbn [fst gather result_of] in *. by rewrite IH.
Qed.

Lemma run_workers_length s cfg services progress file_infos : forall i w,
  length (fst (run_workers s cfg services progress i file_infos w)) = length file_infos.
Proof.
  induction file_infos as [|fi rest IH]; intros i w; cbn [run_workers]; [done|].
  destruct (process_contract_with_retry s cfg (services i) fi (Some progress) w) as [o w1].
  specialize (IH (S i) w1).
  destruct (run_workers s cfg services progress (S i) rest w1) as [futures w2].
  cbn [fst length] in *. by rewrite IH.
Qed.

(** [as_completed] yields every pending future once. *)
Lemma as_completed_Permutation {A} (n : nat) : forall (picks : list nat) (pending : list A),
  length pending = n -> Permutation (as_completed n picks pending) pending.
Proof.
  induction n as [|n IH]; intros picks pending Hn.
  - destruct pending; [constructor | discriminate].
  - destruct pending as [|x rest]; [discriminate|]. cbn [as_completed].
    set (l := x :: rest) in *.
    set (k := (hd 0 picks mod length l)%nat).
    assert (Hk : (k < length l)%nat) by (apply Nat.mod_upper_bound; subst l; cbn; lia).
    destruct (lookup_lt_is_Some_2 l k Hk) as [y Hy].
    rewrite nth_lookup, Hy. cbn [default].
    transitivity (y :: delete k l).
    + apply perm_skip, IH. rewrite length_delete by eauto. lia.
    + symmetry. by apply delete_Permutation.
Qed.

(** The dictionaries gathered from a permutation of the futures are a
    permutation of the dictionaries gathered from the futures. *)
Lemma gather_Permutation (l l' : list outcome) (results : list dict) :
  Permutation l' l -> gather l = Ok results ->
  exists results', gather l' = Ok results' /\ Permutation results' results.
Proof.
  intros Hp. revert results.
  induction Hp as [|o l1 l2 Hp IH|o1 o2 l1|l1 l2 l3 Hp1 IH1 Hp2 IH2]; intros results Hg.
  - cbn in *. simplify_eq. eauto.
  - cbn in *. destruct o as [site r|e]; [|discriminate].
    destruct (gather l2) as [rs|e] eqn:E; [|discriminate]. simplify_eq.
    destruct (IH rs eq_refl) as (rs' & -> & Hperm). eexists. split; [reflexivity|].
    by constructor.
  - cbn in *. destruct o1 as [site1 r1|e]; [|discriminate];
      destruct o2 as [site2 r2|e]; [|discriminate].
    destruct (gather l1) as [rs|e] eqn:E; [|discriminate]. simplify_eq.
    eexists. split; [reflexivity|]. constructor.
  - destruct (IH2 results Hg) as (rs2 & Hg2 & Hperm2).
    destruct (IH1 rs2 Hg2) as (rs1 & Hg1 & Hperm1).
    exists rs1. split; [done|]. by etransitivity.
Qed.

Lemma length_item_results s cfg services progress file_infos : forall i,
  length (item_results s cfg services progress i file_infos) = length file_infos.
Proof.
  induction file_infos as [|fi rest IH]; intros i; cbn [item_results length]; [done|].
  by rewrite IH.
Qed.

(** When the collection completes, no exception has left the run of any
    item, and the results are those of the items taken one by one: in
    submission order when sequential, in completion order when parallel. *)
Lemma collect_results_inv s cfg services parallel picks file_infos w results w' :
  collect_results s cfg services parallel picks file_infos w = (Ok results, w') ->
  all_returned s cfg services {| total := Z.of_nat (length file_infos) |} 0 file_infos
  /\ Permutation results
       (item_results s cfg services {| total := Z.of_nat (length file_infos) |} 0 file_infos)
  /\ (parallel && (1 <? length file_infos)%nat = false ->
      results
      = item_results s cfg services {| total := Z.of_nat (length file_infos) |} 0 file_infos).
Proof.
  unfold collect_results.
  set (progress := {| total := Z.of_nat (length file_infos) |}).
  destruct (parallel && (1 <? length file_infos)%nat) eqn:Hmode.
  - destruct (MAX_WORKERS cfg <=? 0); [discriminate|].
    pose proof (run_workers_inv s cfg services progress file_infos 0%nat w) as Hinv.
    destruct (run_workers s cfg services progress 0 file_infos w) as [futures w1].
    cbn [fst] in Hinv. intros [= Hgather <-].
    destruct (gather_Permutation _ futures results
                (Permutation_sym (as_completed_Permutation _ picks futures eq_refl)) Hgather)
      as (rs & Hg & Hperm).
    destruct (Hinv rs Hg) as [-> Hall].
    split; [done|]. split; [by symmetry | discriminate].
  - intros H. apply run_sequential_inv in H as [-> Hall]. done.
Qed.

(** The collection completes when no exception leaves the run of any item
    and the pool, where one is made, gets a positive number of workers. *)
Lemma collect_results_completes s cfg services parallel picks file_infos w :
  all_returned s cfg services {| total := Z.of_nat (length file_infos) |} 0 file_infos ->
  (parallel && (1 <? length file_infos)%nat = true -> 0 < MAX_WORKERS cfg) ->
  exists results w',
    collect_results s cfg services parallel picks file_infos w = (Ok results, w').
Proof.
  intros Hall Hpool. unfold collect_results.
  set (progress := {| total := Z.of_nat (length file_infos) |}) in *.
  destruct (parallel && (1 <? length file_infos)%nat) eqn:Hmode.
  - assert ((MAX_WORKERS cfg <=? 0) = false) as -> by (specialize (Hpool eq_refl); lia).
    pose proof (run_workers_all_returned s cfg services progress file_infos 0%nat w Hall) as Hg.
    destruct (run_workers s cfg services progress 0 file_infos w) as [futures w1].
    cbn [fst] in Hg.
    destruct (gather_Permutation futures (as_completed (length futures) picks futures) _
                (as_completed_Permutation _ picks futures eq_refl) Hg)
      as (results & -> & _).
    eauto.
  - destruct (run_sequential_all_returned s cfg services progress file_infos 0%nat w Hall)
      as (w1 & ->).
    eauto.
Qed.

(** The runs of all items return when the backoffs of all items are
    accepted. *)
Lemma all_returned_accepted s cfg services progress file_infos : forall i,
  (forall k fi, file_infos !! k = Some fi -> backoffs_accepted cfg (services (i + k)%nat)) ->
  all_returned s cfg services progress i file_infos.
Proof.
  induction file_infos as [|fi rest IH]; intros i Hacc; cbn [all_returned]; [done|]. split.
  - apply process_accepted. specialize (Hacc 0%nat fi eq_refl).
    by rewrite Nat.add_0_r in Hacc.
  - apply IH. intros k fi' Hk. specialize (Hacc (S k) fi' Hk).
    by replace (S i + k)%nat with (i + S k)%nat by lia.
Qed.

(** What a batch leaves behind when its collection completes. *)
Lemma collected_results s src cfg services disk parallel picks file_infos output_csv results :
  collected (process_file_infos s src cfg services disk parallel picks file_infos output_csv)
  = Some results ->
  all_returned s cfg services {| total := Z.of_nat (length file_infos) |} 0 file_infos
  /\ Permutation results
       (item_results s cfg services {| total := Z.of_nat (length file_infos) |} 0 file_infos)
  /\ (parallel && (1 <? length file_infos)%nat = false ->
      results
      = item_results s cfg services {| total := Z.of_nat (length file_infos) |} 0 file_infos)
  /\ files (process_file_infos s src cfg services disk parallel picks file_infos output_csv)
     = snd (export s src disk output_csv results)
  /\ returned (process_file_infos s src cfg services disk parallel picks file_infos output_csv)
     = match fst (export s src disk output_csv results) with
       | Raise e => leave src e
       | Ok _ => match summary_statistics results with
                 | Ok _ => Ok (Some output_csv)
                 | Raise e => leave src e
                 end
       end.
Proof.
  unfold process_file_infos.
  destruct (collect_results s cfg services parallel picks file_infos world0)
    as [[rs|e] w'] eqn:Hc; [|discriminate].
  destruct (export s src disk output_csv rs) as [exported written] eqn:He.
  cbn [collected files returned]. intros H. simplify_eq. rewrite He. cbn [fst snd].
  apply collect_results_inv in Hc as (Hall & Hperm & Hseq). done.
Qed.

(** C2, as stated, fails.  Of two documents the second cannot be fetched
    and its attempt raises; with a [RETRY_DELAY] that [time.sleep] refuses,
    the exception of the backoff leaves the worker and ends the collection:
    the batch has no result for either document and writes nothing.  And in
    parallel mode with [MAX_WORKERS=0] the pool cannot be made: no document
    is processed at all. *)
Lemma refused_backoff_ends_the_batch :
  (collected (process_file_infos KeyPOC Blob Edge.negative_delay Batch.services
                Fixtures.writable false [] Batch.items "sirion_metadata.csv") = None
   /\ files (process_file_infos KeyPOC Blob Edge.negative_delay Batch.services
               Fixtures.writable false [] Batch.items "sirion_metadata.csv") = []
   /\ returned (process_file_infos KeyPOC Local Edge.negative_delay Batch.services
                  Fixtures.writable true [] Batch.items "sirion_metadata.csv")
      = Raise (Exception "sleep length must be non-negative"))
  /\ (collected (process_file_infos KeyPOC Blob Edge.no_workers Batch.services
                   Fixtures.writable true [] Batch.items "sirion_metadata.csv") = None
      /\ world (process_file_infos KeyPOC Blob Edge.no_workers Batch.services
                  Fixtures.writable true [] Batch.items "sirion_metadata.csv") = world0).
Proof. vm_compute. repeat split. Qed.

(** C2, amended.  When the backoffs of every work item are accepted (each
    delay can be computed and [time.sleep] returns for it) and, where the
    pool of workers is made (parallel mode, more than one item),
    [MAX_WORKERS] is positive, a batch run collects exactly one result per
    work item: the results are, up to their order, the dictionaries that the
    items yield one by one, and there are as many of them as items.  This
    holds in parallel mode (completion order) and in sequential mode
    (submission order), whatever else fails in the processing of the
    items. *)
Theorem one_result_per_work_item s src cfg services disk parallel picks file_infos output_csv :
  (forall k fi, file_infos !! k = Some fi -> backoffs_accepted cfg (services k)) ->
  (parallel = true -> (1 < length file_infos)%nat -> 0 < MAX_WORKERS cfg) ->
  exists results,
    collected (process_file_infos s src cfg services disk parallel picks file_infos output_csv)
    = Some results
    /\ length results = length file_infos
    /\ Permutation results
         (item_results s cfg services {| total := Z.of_nat (length file_infos) |} 0 file_infos)
    /\ (parallel = false ->
        results
        = item_results s cfg services {| total := Z.of_nat (length file_infos) |} 0 file_infos).
Proof.
  intros Hacc Hpool.
  destruct (collect_results_completes s cfg services parallel picks file_infos world0)
    as (results & w' & Hc).
  { apply all_returned_accepted. intros k fi Hk. exact (Hacc k fi Hk). }
  { intros [-> Hlen%Nat.ltb_lt]%andb_true_iff. by apply Hpool. }
  assert (Hcol : collected (process_file_infos s src cfg services disk parallel picks
                              file_infos output_csv) = Some results).
  { unfold process_file_infos. rewrite Hc. by destruct (export _ _ _ _ _). }
  exists results. split; [done|].
  apply collected_results in Hcol as (_ & Hperm & Hseq & _).
  split; [|split; [done|]].
  - rewrite (Permutation_length Hperm). apply length_item_results.
  - intros ->. by apply Hseq.
Qed.

Lemma one_result_per_work_item_witness :
  exists results,
    collected (process_file_infos ManagedPOC Blob default_config Batch.services
                 Fixtures.writable true [1%nat] Batch.items "sirion_metadata.csv")
    = Some results
    /\ length results = length Batch.items
    /\ Permutation results
         (item_results ManagedPOC default_config Batch.services
            {| total := Z.of_nat (length Batch.items) |} 0 Batch.items)
    /\ (true = false ->
        results
        = item_results ManagedPOC default_config Batch.services
            {| total := Z.of_nat (length Batch.items) |} 0 Batch.items).
Proof.
  apply (one_result_per_work_item ManagedPOC Blob default_config Batch.services
           Fixtures.writable true [1%nat] Batch.items "sirion_metadata.csv").
  - intros k fi _. apply backoffs_checked. destruct k; computed.
  - intros _ _. reflexivity.
Defined.

(** ** What the results of a batch look like *)

Lemma item_results_shape s cfg services progress file_infos r : forall i,
  all_returned s cfg services progress i file_infos ->
  r ∈ item_results s cfg services progress i file_infos ->
  exists fi, fi ∈ file_infos
    /\ ((exists metadata, r = build_row s (name fi) metadata)
        \/ (exists error, r = failure_result s (name fi) error)).
Proof.
  induction file_infos as [|fi rest IH]; intros i; cbn [item_results all_returned].
  - intros _ H. by apply elem_of_nil in H.
  - intros [(site & r0 & w1 & Hp) Hall] [->|H]%elem_of_cons.
    + exists fi. split; [left|].
      rewrite Hp. cbn [fst result_of].
      apply process_result in Hp as [(_ & a & kv & md & _ & _ & _ & ->)|(_ & err & ->)]; eauto.
    + destruct (IH _ Hall H) as (fi' & Hin & Hshape). exists fi'. split; [by right | done].
Qed.

Lemma identity_file_name s file_name :
  identity_entries s file_name !! "File Name"
  = Some (PStr (match s with
                | KeyPOC => file_name
                | ManagedPOC => Path.basename file_name
                end)).
Proof. destruct s; unfold identity_entries; by rewrite lookup_insert_eq. Qed.

Lemma failure_result_file_name s file_name error :
  failure_result s file_name error !! "File Name"
  = Some (PStr (match s with
                | KeyPOC => file_name
                | ManagedPOC => Path.basename file_name
                end)).
Proof.
  unfold failure_result. rewrite lookup_insert_ne by done. apply identity_file_name.
Qed.

(** A failure dictionary has no other keys than the identity of the document
    and its error. *)
Lemma failure_result_other s file_name error key :
  key <> "Error" -> key <> "File Name" -> key <> "Folder Path" ->
  failure_result s file_name error !! key = None.
Proof.
  intros H1 H2 H3. unfold failure_result, identity_entries.
  destruct s; by rewrite !lookup_insert_ne, lookup_empty by congruence.
Qed.


(** The failed results of a batch are failure dictionaries of submitted
    items. *)
Lemma failed_result_shape s cfg services progress file_infos results r :
  all_returned s cfg services progress 0 file_infos ->
  Permutation results (item_results s cfg services progress 0 file_infos) ->
  r ∈ results -> is_error r = true ->
  exists fi error, fi ∈ file_infos /\ r = failure_result s (name fi) error.
Proof.
  intros Hall Hperm Hr Herr. rewrite Hperm in Hr.
  apply (item_results_shape _ _ _ _ _ _ _ Hall) in Hr as (fi & Hin & [(md & ->)|(err & ->)]).
  - by rewrite build_row_no_error in Herr.
  - eauto.
Qed.


(** ** The CSV file and the failure list *)

Example batch_run_collected :
  collected (Batch.run KeyPOC)
  = Some [ result_of (fst (process_contract_with_retry KeyPOC default_config
                             (Batch.services 0) Fixtures.txt_item (Fixtures.tracker 2) world0));
           failure_result KeyPOC "pl/umowa.docx" (PStr Scenarios.path_none) ].
Proof. vm_compute. reflexivity. Qed.


(** C5, as stated, fails.  One of the two documents fails, and the run of
    [metadata-extraction-POC.py] writes the CSV file and nothing else; the
    run of the managed-identity script writes the failure list as well. *)
Lemma no_failure_list_in_key_script :
  (error_count <$> collected (Batch.run KeyPOC)) = Some 1%nat
  /\ map fst (files (Batch.run KeyPOC)) = ["sirion_metadata.csv"]
  /\ text_files (files (Batch.run KeyPOC)) = []
  /\ map fst (files (Batch.run ManagedPOC))
     = ["sirion_metadata.csv"; "sirion_metadata_failed_contracts.txt"].
Proof. vm_compute. repeat split. Qed.

Example managed_failure_list :
  text_files (files (Batch.run ManagedPOC))
  = [("sirion_metadata_failed_contracts.txt",
      "Failed Contracts (1 total)" ++ Str.nl
        ++ "================================================================================"
        ++ Str.nl ++ Str.nl ++ "umowa.docx" ++ Str.nl)].
Proof. vm_compute. reflexivity. Qed.

Lemma results_nonempty s cfg services progress (file_infos : list file_info) results :
  file_infos <> [] ->
  Permutation results (item_results s cfg services progress 0 file_infos) ->
  results <> [].
Proof.
  intros Hne Hperm ->. apply Permutation_length in Hperm.
  rewrite length_item_results in Hperm. destruct file_infos; [done | discriminate].
Qed.

Lemma write_files_succeed (disk : Disk) (wanted : list (string * content)) :
  writes_succeed disk wanted -> write_files disk wanted = (Ok tt, wanted).
Proof.
  unfold writes_succeed. induction wanted as [|[path c] rest IH]; intros H; [done|].
  cbn [write_files]. rewrite (H path c) by left.
  rewrite IH; [done|]. intros p' c' Hin. apply H. by right.
Qed.

(** What is written in full was wanted, in that order. *)
Lemma write_files_prefix (disk : Disk) (wanted : list (string * content)) :
  exists rest, wanted = (snd (write_files disk wanted) ++ rest)%list.
Proof.
  induction wanted as [|[path c] wanted IH]; [by exists []|]. cbn [write_files].
  destruct (disk path c); [|by eexists].
  destruct IH as [rest IH]. destruct (write_files disk wanted) as [r written].
  cbn [snd] in *. exists rest. cbn. by rewrite <- IH.
Qed.

Lemma export_succeeds s src disk output_csv results :
  writes_succeed disk (outputs s src output_csv results) ->
  export s src disk output_csv results = (Ok tt, outputs s src output_csv results).
Proof. apply write_files_succeed. Qed.


Lemma error_count_pos (results : list dict) :
  (0 < error_count results)%nat <-> exists r, r ∈ results /\ is_error r = true.
Proof.
  unfold error_count. split.
  - intros H. destruct (filter _ results) as [|r rest] eqn:E; [cbn in H; lia|].
    exists r.
    assert (Hin : r ∈ filter (fun r => is_error r = true) results) by (rewrite E; left).
    apply list_elem_of_filter in Hin as [? ?]. done.
  - intros (r & Hr & Herr).
    assert (Hin : r ∈ filter (fun r => is_error r = true) results)
      by by apply list_elem_of_filter.
    destruct (filter _ results); [by apply elem_of_nil in Hin | cbn; lia].
Qed.

(** The identities listed for the failed results are their ['File Name']
    entries, one for each failed result and in their order. *)
Lemma failed_contracts_identities s src results :
  Forall (fun r => exists file_name error, r = failure_result s file_name error)
         (failed_results results) ->
  failed_contracts src results = map PStr (map shown_identity (failed_results results)).
Proof.
  unfold failed_contracts, failed_results. intros Hall.
  induction Hall as [|r rest (file_name & err & ->) Hall IH]; [done|].
  cbn [map]. rewrite IH. f_equal.
  unfold dict_get, shown_identity. rewrite failure_result_file_name. by destruct src.
Qed.

Lemma failed_file_text_layout src results ids :
  failed_contracts src results = map PStr ids ->
  failed_file_text src results = failure_list_layout (error_count results) ids.
Proof.
  intros H. unfold failed_file_text, failure_list_layout. rewrite H, map_map. reflexivity.
Qed.

(** The failed results of a completed collection, and the failure list made
    of them. *)
Lemma failed_results_of_batch s src cfg services disk parallel picks file_infos output_csv
    results :
  collected (process_file_infos s src cfg services disk parallel picks file_infos output_csv)
  = Some results ->
  Forall (fun r => exists fi error,
            fi ∈ file_infos /\ r = failure_result s (name fi) error
            /\ shown_identity r = shown_name s fi)
         (failed_results results)
  /\ text_files (outputs s src output_csv results)
     = match s with
       | KeyPOC => []
       | ManagedPOC =>
           if (0 <? error_count results)%nat
           then [(failed_file_name output_csv,
                  failure_list_layout (error_count results)
                    (map shown_identity (failed_results results)))]
           else []
       end.
Proof.
  intros Hc. apply collected_results in Hc as (Hall & Hperm & _).
  assert (Hshape : Forall (fun r => exists fi error,
                             fi ∈ file_infos /\ r = failure_result s (name fi) error
                             /\ shown_identity r = shown_name s fi)
                          (failed_results results)).
  { apply Forall_forall. intros r [Herr Hr]%list_elem_of_filter.
    destruct (failed_result_shape _ _ _ _ _ _ _ Hall Hperm Hr Herr) as (fi & err & Hin & ->).
    exists fi, err. split; [done|]. split; [done|].
    unfold shown_identity, shown_name. by rewrite failure_result_file_name. }
  split; [done|].
  unfold outputs, text_files. destruct results as [|r rs].
  { by destruct s. }
  destruct s; [reflexivity|].
  destruct (0 <? error_count (r :: rs))%nat; [|reflexivity].
  cbn. rewrite (failed_file_text_layout src (r :: rs)
                  (map shown_identity (failed_results (r :: rs)))); [done|].
  apply (failed_contracts_identities ManagedPOC).
  eapply Forall_impl; [exact Hshape|]. intros r' (fi & err & _ & -> & _). eauto.
Qed.


Lemma batch_run_results (s : script) :
  collected (Batch.run s)
  = Some (item_results s default_config Batch.services {| total := 2 |} 0 Batch.items).
Proof. destruct s; computed. Qed.

Lemma writable_succeeds wanted : writes_succeed Fixtures.writable wanted.
Proof. intros path c _. reflexivity. Qed.


(** C5, amended.  When the collection of a batch completes and its writes
    succeed, the managed-identity script writes the failure list exactly
    when at least one document failed; the text starts with the header that
    states the number of failures, followed by a rule and an empty line, and
    then lists the ['File Name'] of each failed result on a line of its own,
    in the order of the results; each of them is the name of a submitted
    document.  The other script, [metadata-extraction-POC.py], writes no
    failure list whatever fails. *)
Theorem failure_list_written_iff_failures s src cfg services disk parallel picks file_infos
    output_csv results :
  collected (process_file_infos s src cfg services disk parallel picks file_infos output_csv)
  = Some results ->
  writes_succeed disk (outputs s src output_csv results) ->
  ((0 < error_count results)%nat <-> exists r, r ∈ results /\ is_error r = true)
  /\ length (failed_results results) = error_count results
  /\ Forall (fun r => exists fi,
                fi ∈ file_infos /\ r !! "File Name" = Some (PStr (shown_name s fi))
                /\ shown_identity r = shown_name s fi)
            (failed_results results)
  /\ text_files (files (process_file_infos s src cfg services disk parallel picks file_infos
                          output_csv))
     = match s with
       | KeyPOC => []
       | ManagedPOC =>
           if (0 <? error_count results)%nat
           then [(failed_file_name output_csv,
                  failure_list_layout (error_count results)
                    (map shown_identity (failed_results results)))]
           else []
       end.
Proof.
  intros Hc Hdisk.
  destruct (failed_results_of_batch _ _ _ _ _ _ _ _ _ _ Hc) as [Hfailed Htext].
  apply collected_results in Hc as (_ & _ & _ & Hf & _).
  rewrite Hf, (export_succeeds _ _ _ _ _ Hdisk). cbn [snd].
  split; [apply error_count_pos|]. split; [done|]. split; [|done].
  eapply Forall_impl; [exact Hfailed|].
  intros r (fi & err & Hfi & -> & Hid). exists fi. split; [done|]. split; [|done].
  unfold shown_name. apply failure_result_file_name.
Qed.

Lemma failure_list_written_iff_failures_witness :
  ((0 < error_count (item_results ManagedPOC default_config Batch.services {| total := 2 |} 0
                       Batch.items))%nat
   <-> exists r,
         r ∈ item_results ManagedPOC default_config Batch.services {| total := 2 |} 0 Batch.items
         /\ is_error r = true)
  /\ length (failed_results (item_results ManagedPOC default_config Batch.services
                               {| total := 2 |} 0 Batch.items))
     = error_count (item_results ManagedPOC default_config Batch.services {| total := 2 |} 0
                      Batch.items)
  /\ Forall (fun r => exists fi,
                fi ∈ Batch.items
                /\ r !! "File Name" = Some (PStr (shown_name ManagedPOC fi))
                /\ shown_identity r = shown_name ManagedPOC fi)
            (failed_results (item_results ManagedPOC default_config Batch.services
                               {| total := 2 |} 0 Batch.items))
  /\ text_files (files (Batch.run ManagedPOC))
     = if (0 <? error_count (item_results ManagedPOC default_config Batch.services
                               {| total := 2 |} 0 Batch.items))%nat
       then [(failed_file_name "sirion_metadata.csv",
              failure_list_layout
                (error_count (item_results ManagedPOC default_config Batch.services
                                {| total := 2 |} 0 Batch.items))
                (map shown_identity
                   (failed_results (item_results ManagedPOC default_config Batch.services
                                      {| total := 2 |} 0 Batch.items))))]
       else [].
Proof.
  apply (failure_list_written_iff_failures ManagedPOC Blob default_config Batch.services
           Fixtures.writable false [] Batch.items "sirion_metadata.csv").
  - apply batch_run_results.
  - apply writable_succeeds.
Defined.

(** * Further properties of the code *)

(** ** The effects of an attempt and of a run *)

(** An attempt sleeps once, for its backoff delay, exactly when it ends with
    [continue]; it never lowers the progress counter and leaves it alone
    when no tracker is passed. *)
Lemma attempt_once_effects s cfg env pt fi attempt w r w' :
  attempt_once s cfg env pt fi attempt w = (r, w') ->
  match r with
  | Ok Continue => attempt < MAX_RETRIES cfg
                   /\ slept w' = (slept w ++ [delay cfg attempt])%list
  | _ => slept w' = slept w
  end
  /\ completed w <= completed w'
  /\ (pt = None -> completed w' = completed w).
Proof.
  unfold attempt_once, attempt_body, report, save_text_as_markdown, increment.
  unfold backoff, time_sleep, wait_time, delay.
  unfold bind, lift, ret. intros H.
  repeat (case_match; simplify_eq/=);
    simplify_eq/=; repeat split; try done; try lia.
Qed.

Lemma retry_loop_effects s cfg services pt fi (k : nat) : forall lo w o w',
  1 <= lo -> Z.to_nat (MAX_RETRIES cfg + 1 - lo) = k ->
  retry_loop s cfg services pt fi (py_range lo (MAX_RETRIES cfg + 1)) w = (o, w') ->
  (exists last,
     lo - 1 <= last <= Z.max (lo - 1) (MAX_RETRIES cfg - 1)
     /\ slept w' = (slept w ++ map (delay cfg) (py_range lo (last + 1)))%list)
  /\ completed w <= completed w'
  /\ (pt = None -> completed w' = completed w).
Proof.
  induction k as [|k IH]; intros lo w o w' Hlo Hk.
  - rewrite py_range_nil by lia. cbn [retry_loop]. intros H. simplify_eq.
    split; [|split; [lia | done]].
    exists (lo - 1). split; [lia|]. rewrite py_range_nil by lia. cbn. by rewrite app_nil_r.
  - rewrite py_range_cons by lia. cbn [retry_loop].
    destruct (attempt_once s cfg (services lo) pt fi lo w) as [r w1] eqn:Hc.
    apply attempt_once_effects in Hc as (Hs & Hcount & Hnone).
    destruct r as [[site r|]|e].
    + intros H. simplify_eq. split; [|done].
      exists (lo - 1). split; [lia|]. rewrite py_range_nil by lia. cbn.
      by rewrite app_nil_r.
    + destruct Hs as [Hlt Hs]. intros H.
      apply IH in H as ((last & Hlast & Hslept) & Hcount' & Hnone'); [|lia..].
      split; [|split; [lia|]].
      * exists last. split; [lia|].
        rewrite Hslept, Hs, (py_range_cons lo (last + 1)) by lia.
        cbn [map]. by rewrite <- app_assoc.
      * intros Hpt. rewrite Hnone', Hnone; done.
    + intros H. simplify_eq. split; [|done].
      exists (lo - 1). split; [lia|]. rewrite py_range_nil by lia. cbn.
      by rewrite app_nil_r.
Qed.

(** The sleeps of a run, whatever the collaborators do and however the run
    ends: one backoff delay per retry, [RETRY_DELAY * 2^(a-1)] after attempt
    [a], for the attempts [1 .. retries] with at most [MAX_RETRIES - 1]
    retries; nothing else is ever slept.  The progress counter never goes
    down, and is untouched when no tracker is passed. *)
Theorem process_sleeps_backoff_schedule s cfg services fi pt w o w' :
  process_contract_with_retry s cfg services fi pt w = (o, w') ->
  (exists retries,
     0 <= retries <= Z.max 0 (MAX_RETRIES cfg - 1)
     /\ slept w' = (slept w ++ map (delay cfg) (py_range 1 (retries + 1)))%list)
  /\ completed w <= completed w'
  /\ (pt = None -> completed w' = completed w).
Proof.
  unfold process_contract_with_retry. intros H.
  apply (retry_loop_effects s cfg services pt fi (Z.to_nat (MAX_RETRIES cfg + 1 - 1)))
    in H; [|lia|reflexivity].
  destruct H as ((last & Hlast & Hslept) & H2 & H3). split; [|done].
  exists last. split; [lia | done].
Qed.

Lemma process_sleeps_backoff_schedule_witness :
  (exists retries,
     0 <= retries <= Z.max 0 (MAX_RETRIES default_config - 1)
     /\ slept (snd (Scenarios.throttled_extraction default_config))
        = (slept world0 ++ map (delay default_config) (py_range 1 (retries + 1)))%list)
  /\ completed world0 <= completed (snd (Scenarios.throttled_extraction default_config))
  /\ (Fixtures.tracker 1 = None ->
      completed (snd (Scenarios.throttled_extraction default_config)) = completed world0).
Proof.
  apply (process_sleeps_backoff_schedule KeyPOC default_config
           (fun _ => Fixtures.answering (Ok None) (Raise Fixtures.rate_limit_error))
           Fixtures.txt_item (Fixtures.tracker 1) world0
           (fst (Scenarios.throttled_extraction default_config))).
  computed.
Defined.

(** With [MAX_RETRIES] below one the loop body never runs: no collaborator
    is consulted, nothing is slept or counted, and the document is reported
    as ['Max retries exceeded']. *)
Theorem no_attempt_without_retries s cfg services fi pt w :
  MAX_RETRIES cfg < 1 ->
  process_contract_with_retry s cfg services fi pt w
  = (Returned AtFallback (failure_result s (name fi) (PStr "Max retries exceeded")), w).
Proof.
  intros H. unfold process_contract_with_retry. by rewrite py_range_nil by lia.
Qed.

Lemma no_attempt_without_retries_witness :
  process_contract_with_retry KeyPOC Edge.no_retries (fun _ => Fixtures.down "timeout")
    Fixtures.txt_item (Fixtures.tracker 1) world0
  = (Returned AtFallback
       (failure_result KeyPOC (name Fixtures.txt_item) (PStr "Max retries exceeded")),
     world0).
Proof.
  apply (no_attempt_without_retries KeyPOC Edge.no_retries). vm_compute. reflexivity.
Defined.

(** ** Failures that end a run at its first attempt *)

Lemma read_failure_is_final_aux s cfg services fi pt w contract_text read_error :
  1 <= MAX_RETRIES cfg ->
  read_contract_file s cfg (services 1) (data fi) (extension fi) (blob_url fi)
  = Ok (contract_text, read_error) ->
  truthy contract_text = false ->
  process_contract_with_retry s cfg services fi pt w
  = (Returned AtReadError
       (failure_result s (name fi) (PStr ("Read error: " ++ str_opt read_error))),
     tick pt w).
Proof.
  intros Hmax Hread Htext. unfold process_contract_with_retry.
  rewrite py_range_cons by lia. cbn [retry_loop].
  unfold attempt_once, attempt_body, bind, lift, ret. rewrite Hread.
  destruct contract_text as [[|c t]|]; try discriminate; cbn; by rewrite report_ret.
Qed.

(** A document that cannot be read is never retried: whatever the reader
    reported (an error, or no text and no error), the first attempt returns
    the failure ['Read error: ...'], without a sleep and without calling the
    LLM. *)
Theorem read_failure_is_final s cfg services fi pt w contract_text read_error :
  1 <= MAX_RETRIES cfg ->
  read_contract_file s cfg (services 1) (data fi) (extension fi) (blob_url fi)
  = Ok (contract_text, read_error) ->
  truthy contract_text = false ->
  process_contract_with_retry s cfg services fi pt w
  = (Returned AtReadError
       (failure_result s (name fi) (PStr ("Read error: " ++ str_opt read_error))),
     tick pt w).
Proof. apply read_failure_is_final_aux. Qed.

Lemma read_failure_is_final_witness :
  process_contract_with_retry KeyPOC default_config (fun _ => Fixtures.down "connection reset")
    Fixtures.txt_item (Fixtures.tracker 1) world0
  = (Returned AtReadError
       (failure_result KeyPOC (name Fixtures.txt_item)
          (PStr ("Read error: " ++ str_opt (Some "connection reset")))),
     tick (Fixtures.tracker 1) world0).
Proof.
  apply (read_failure_is_final KeyPOC default_config (fun _ => Fixtures.down "connection reset")
           Fixtures.txt_item (Fixtures.tracker 1) world0 None (Some "connection reset")).
  - vm_compute. discriminate.
  - computed.
  - reflexivity.
Defined.

(** A failed translation is never retried either: an exception of the
    translation call, a missing content or an empty translation ends the
    run at the first attempt with ['Translation error: ...']. *)
Theorem translation_failure_is_final s cfg services fi pt w c contract_text read_error
    trans_error :
  1 <= MAX_RETRIES cfg ->
  read_contract_file s cfg (services 1) (data fi) (extension fi) (blob_url fi)
  = Ok (Some (String c contract_text), read_error) ->
  run_strategy s cfg (services 1) fi (String c contract_text) 1 = Ok (inl trans_error) ->
  process_contract_with_retry s cfg services fi pt w
  = (Returned AtTranslationError
       (failure_result s (name fi) (PStr ("Translation error: " ++ str_opt trans_error))),
     tick pt (after_markdown s cfg (name fi) w)).
Proof.
  intros Hmax Hread Hrun. unfold process_contract_with_retry.
  rewrite py_range_cons by lia. cbn [retry_loop].
  unfold attempt_once, attempt_body, bind, lift, ret. rewrite Hread.
  unfold save_text_as_markdown, after_markdown, ret.
  destruct s, (SAVE_MARKDOWN cfg), (blob_service_client cfg); cbn;
    rewrite Hrun; cbn; by rewrite report_ret.
Qed.

Lemma translation_failure_is_final_witness :
  process_contract_with_retry ManagedPOC default_config (fun _ => Edge.empty_translation_env)
    Fixtures.pdf_item (Fixtures.tracker 1) world0
  = (Returned AtTranslationError
       (failure_result ManagedPOC (name Fixtures.pdf_item)
          (PStr ("Translation error: " ++ str_opt None))),
     tick (Fixtures.tracker 1)
       (after_markdown ManagedPOC default_config (name Fixtures.pdf_item) world0)).
Proof.
  eapply (translation_failure_is_final ManagedPOC default_config
            (fun _ => Edge.empty_translation_env) Fixtures.pdf_item (Fixtures.tracker 1)
            world0 _ _ None None).
  - vm_compute. discriminate.
  - vm_compute. reflexivity.
  - vm_compute. reflexivity.
Defined.

(** ** The file reader *)

Lemma read_by_extension_unsupported s cfg env read_txt fd blob_url ext :
  supported ext = false ->
  read_by_extension s cfg env read_txt fd blob_url ext
  = (None, Some ("Unsupported file format: " ++ ext)).
Proof.
  unfold supported, read_by_extension. intros H.
  destruct (String.eqb ext ".txt"), (String.eqb ext ".docx"), (String.eqb ext ".pdf");
    try discriminate. reflexivity.
Qed.

(** The reader raises in one case only: no data (a blob that could not be
    fetched) and no blob URL to read instead.  Bytes and paths always come
    back as a pair: every failure of the decoder, of the docx parser or of
    the OCR service is captured in the error of the pair. *)
Theorem reader_raises_only_without_data s cfg env fd extension blob_url e :
  read_contract_file s cfg env fd extension blob_url = Raise e ->
  fd = NoData
  /\ (s = KeyPOC \/ truthy blob_url = false)
  /\ e = Exception Scenarios.path_none.
Proof.
  unfold read_contract_file. intros H.
  destruct fd, s, blob_url as [[|c u]|], extension as [[|c' x]|];
    simplify_eq/=; repeat case_match; simplify_eq/=; auto.
Qed.

Lemma reader_raises_only_without_data_witness :
  Fixtures.unprepared_item.(data) = NoData
  /\ (KeyPOC = KeyPOC \/ truthy Fixtures.unprepared_item.(blob_url) = false)
  /\ Exception Scenarios.path_none = Exception Scenarios.path_none.
Proof.
  apply (reader_raises_only_without_data KeyPOC default_config (Fixtures.down "timeout")
           _ Fixtures.unprepared_item.(extension) _ _).
  reflexivity.
Defined.

(** A file whose extension, an ASCII text, is none of [.txt], [.docx],
    [.pdf] (compared in lower case) is refused by name, without reading or
    decoding anything, and the run ends at its first attempt. *)
Theorem unsupported_extension_is_final s cfg services fi pt w b e :
  1 <= MAX_RETRIES cfg ->
  data fi = Bytes b ->
  extension fi = Some e -> truthy (Some e) = true ->
  Str.is_ascii e = true ->
  supported (Str.lower e) = false ->
  process_contract_with_retry s cfg services fi pt w
  = (Returned AtReadError
       (failure_result s (name fi)
          (PStr ("Read error: Unsupported file format: " ++ Str.lower e))),
     tick pt w).
Proof.
  intros Hmax Hdata Hext He _ Hsup.
  apply (read_failure_is_final_aux s cfg services fi pt w None
           (Some ("Unsupported file format: " ++ Str.lower e))); try done.
  unfold read_contract_file. rewrite Hdata, Hext.
  destruct e as [|c x]; [discriminate|].
  by rewrite read_by_extension_unsupported.
Qed.

Lemma unsupported_extension_is_final_witness :
  process_contract_with_retry KeyPOC default_config (fun _ => Fixtures.down "timeout")
    Edge.xlsx_item (Fixtures.tracker 1) world0
  = (Returned AtReadError
       (failure_result KeyPOC (name Edge.xlsx_item)
          (PStr ("Read error: Unsupported file format: " ++ Str.lower ".XLSX"))),
     tick (Fixtures.tracker 1) world0).
Proof.
  apply (unsupported_extension_is_final KeyPOC default_config (fun _ => Fixtures.down "timeout")
           Edge.xlsx_item (Fixtures.tracker 1) world0 "PK...").
  - vm_compute. discriminate.
  - reflexivity.
  - reflexivity.
  - reflexivity.
  - reflexivity.
  - reflexivity.
Defined.

(** Without a Document Intelligence client a PDF is never handed to the OCR
    service: whether it comes as bytes, as a path or as a blob URL, the run
    ends at its first attempt with
    ['Read error: Document Intelligence not configured']. *)
Theorem pdf_without_ocr_client_is_final s cfg services fi pt w e :
  1 <= MAX_RETRIES cfg ->
  doc_client cfg = false ->
  extension fi = Some e -> Str.lower e = ".pdf" ->
  (match data fi with
   | Bytes _ => True
   | PathStr p => Str.lower (PurePath.suffix p) = ".pdf"
   | NoData => s = ManagedPOC /\ truthy (blob_url fi) = true
   end) ->
  process_contract_with_retry s cfg services fi pt w
  = (Returned AtReadError
       (failure_result s (name fi)
          (PStr "Read error: Document Intelligence not configured")),
     tick pt w).
Proof.
  intros Hmax Hdoc Hext He Hdata.
  apply (read_failure_is_final_aux s cfg services fi pt w None
           (Some "Document Intelligence not configured")); try done.
  unfold read_contract_file, read_by_extension, extract_text_from_pdf.
  rewrite Hext, Hdoc.
  destruct e as [|c x]; [discriminate|].
  destruct (data fi) as [b|p|].
  - rewrite He. reflexivity.
  - rewrite Hdata. by destruct s, (blob_url fi).
  - destruct Hdata as [-> Hurl]. destruct (blob_url fi) as [[|c' u]|]; try discriminate.
    rewrite He. reflexivity.
Qed.

Lemma pdf_without_ocr_client_is_final_witness :
  process_contract_with_retry ManagedPOC Edge.no_ocr (fun _ => Answers.two_call_env)
    Fixtures.pdf_item (Fixtures.tracker 1) world0
  = (Returned AtReadError
       (failure_result ManagedPOC (name Fixtures.pdf_item)
          (PStr "Read error: Document Intelligence not configured")),
     tick (Fixtures.tracker 1) world0).
Proof.
  apply (pdf_without_ocr_client_is_final ManagedPOC Edge.no_ocr (fun _ => Answers.two_call_env)
           Fixtures.pdf_item (Fixtures.tracker 1) world0 ".pdf").
  - vm_compute. discriminate.
  - reflexivity.
  - reflexivity.
  - reflexivity.
  - split; reflexivity.
Defined.

(** ** A blob that could not be downloaded *)

Lemma attempt_body_without_data s cfg env pt fi attempt w :
  data fi = NoData -> s = KeyPOC \/ truthy (blob_url fi) = false ->
  attempt_body s cfg env pt fi attempt w = (Raise (Exception Scenarios.path_none), w).
Proof.
  intros Hdata Hurl. unfold attempt_body, bind, lift, read_contract_file. rewrite Hdata.
  destruct Hurl as [->|Hurl]; [reflexivity|].
  destruct s, (blob_url fi) as [[|c u]|]; try discriminate; reflexivity.
Qed.

Lemma retry_loop_without_data s cfg services pt fi (k : nat) : forall lo w,
  backoffs_accepted cfg services ->
  data fi = NoData -> s = KeyPOC \/ truthy (blob_url fi) = false ->
  1 <= lo <= MAX_RETRIES cfg -> Z.to_nat (MAX_RETRIES cfg - lo) = k ->
  exists w',
    retry_loop s cfg services pt fi (py_range lo (MAX_RETRIES cfg + 1)) w
    = (Returned AtException (failure_result s (name fi) (PStr Scenarios.path_none)), w')
    /\ slept w' = (slept w ++ map (delay cfg) (py_range lo (MAX_RETRIES cfg)))%list
    /\ completed w' = completed (tick pt w).
Proof.
  induction k as [|k IH]; intros lo w Hacc Hdata Hurl Hlo Hk;
    rewrite py_range_cons by lia; cbn [retry_loop];
    unfold attempt_once; rewrite (attempt_body_without_data _ _ _ _ _ _ _ Hdata Hurl).
  - destruct (lo <? MAX_RETRIES cfg) eqn:E; [lia|].
    unfold bind, ret. rewrite report_ret. eexists. split; [reflexivity|].
    rewrite slept_tick, py_range_nil by lia. cbn. by rewrite app_nil_r.
  - destruct (lo <? MAX_RETRIES cfg) eqn:E; [|lia].
    unfold bind, ret. rewrite backoff_run by (apply Hacc; lia).
    destruct (IH (lo + 1) (after_sleep (delay cfg lo) w) Hacc Hdata Hurl)
      as (w' & -> & Hs & Hc); [lia..|].
    exists w'. split; [done|]. split.
    + rewrite Hs, (py_range_cons lo (MAX_RETRIES cfg)) by lia. cbn. by rewrite <- app_assoc.
    + rewrite Hc. by destruct pt.
Qed.

(** When the download of a blob fails, the item goes on with no data and no
    extension.  Every attempt then fails in [Path(None)], so that, when the
    backoffs are accepted, the run goes through all [MAX_RETRIES] attempts
    and sleeps every backoff delay before it reports the document as
    failed, and the error it reports is the [TypeError] of [Path(None)], not
    the error of the download. *)
Theorem undownloaded_blob_exhausts_retries s cfg services fi pt w :
  1 <= MAX_RETRIES cfg ->
  backoffs_accepted cfg services ->
  data fi = NoData -> s = KeyPOC \/ truthy (blob_url fi) = false ->
  exists w',
    process_contract_with_retry s cfg services fi pt w
    = (Returned AtException (failure_result s (name fi) (PStr Scenarios.path_none)), w')
    /\ slept w' = (slept w ++ map (delay cfg) (py_range 1 (MAX_RETRIES cfg)))%list
    /\ completed w' = completed (tick pt w).
Proof.
  intros Hmax Hacc Hdata Hurl. unfold process_contract_with_retry.
  eapply (retry_loop_without_data s cfg services pt fi); eauto; lia.
Qed.

Lemma undownloaded_blob_exhausts_retries_witness :
  exists w',
    process_contract_with_retry ManagedPOC default_config (fun _ => Answers.sparse_env)
      Fixtures.unprepared_item (Fixtures.tracker 1) world0
    = (Returned AtException
         (failure_result ManagedPOC (name Fixtures.unprepared_item)
            (PStr Scenarios.path_none)), w')
    /\ slept w' = (slept world0
                   ++ map (delay default_config) (py_range 1 (MAX_RETRIES default_config)))%list
    /\ completed w' = completed (tick (Fixtures.tracker 1) world0).
Proof.
  apply (undownloaded_blob_exhausts_retries ManagedPOC default_config
           (fun _ => Answers.sparse_env) Fixtures.unprepared_item (Fixtures.tracker 1) world0).
  - vm_compute. discriminate.
  - apply backoffs_checked. computed.
  - reflexivity.
  - right. reflexivity.
Defined.

(** The work item of a blob whose download raised is such an item, in both
    scripts (in [ManagedPOC] a PDF is not downloaded at all). *)
Lemma failed_download_without_data s b e :
  download b = Raise e ->
  s = KeyPOC \/ Str.lower (PurePath.suffix (blob_name b)) <> ".pdf" ->
  blob_file_info s b
  = {| name := blob_name b; data := NoData; extension := None; blob_url := None |}.
Proof.
  intros Hd Hs. unfold blob_file_info. rewrite Hd.
  destruct s; [reflexivity|]. destruct Hs as [?|Hs]; [discriminate|].
  destruct (String.eqb_spec (Str.lower (PurePath.suffix (blob_name b))) ".pdf"); [done|].
  reflexivity.
Qed.

(** ** The progress report of a success *)

Lemma metadata_truthy_nonempty (metadata : dict) :
  metadata <> ∅ -> metadata_truthy (Some metadata) = Some metadata.
Proof. intros H. unfold metadata_truthy. by rewrite bool_decide_eq_false_2. Qed.

(** The progress line of a success upper-cases the language.  When the
    model answers a ['source_language'] that is not a string (a JSON null,
    say), the extraction has succeeded and yet, with a progress tracker, the
    attempt raises after the counter was incremented.  The exception is
    handled like any other: while attempts remain the handler backs off
    (the attempt is followed by the next one when the backoff is accepted,
    and what the backoff raises leaves the function when it is refused), and
    in the last attempt the document is reported as failed with the text of
    the [AttributeError], the counter having been incremented twice.
    Without a tracker the same answer gives a success row. *)
Theorem success_report_needs_string_language s cfg env p fi attempt w c text read_error
    metadata error v :
  read_contract_file s cfg env (data fi) (extension fi) (blob_url fi)
  = Ok (Some (String c text), read_error) ->
  run_strategy s cfg env fi (String c text) attempt = Ok (inr (Some metadata, error)) ->
  metadata <> ∅ ->
  dict_get metadata "source_language" (PStr "unknown") = v ->
  (forall x, v <> PStr x) ->
  attempt_once s cfg env None fi attempt w
  = (Ok (Return AtSuccess (build_row s (name fi) metadata)),
     after_markdown s cfg (name fi) w)
  /\ (if attempt <? MAX_RETRIES cfg
      then
        if backoff_accepted cfg env attempt
        then attempt_once s cfg env (Some p) fi attempt w
             = (Ok Continue,
                after_sleep (delay cfg attempt)
                  (tick (Some p) (after_markdown s cfg (name fi) w)))
        else exists e',
               attempt_once s cfg env (Some p) fi attempt w
               = (Raise e', tick (Some p) (after_markdown s cfg (name fi) w))
      else attempt_once s cfg env (Some p) fi attempt w
           = (Ok (Return AtException
                    (failure_result s (name fi)
                       (PStr ("'" ++ type_name v ++ "' object has no attribute 'upper'")))),
              tick (Some p) (tick (Some p) (after_markdown s cfg (name fi) w)))).
Proof.
  intros Hread Hrun Hne Hv Hnot.
  unfold attempt_once, attempt_body, bind, lift, ret. rewrite Hread.
  unfold save_text_as_markdown, after_markdown, ret, report, increment, bind, lift, ret.
  split.
  - destruct s, (SAVE_MARKDOWN cfg), (blob_service_client cfg); cbn;
      rewrite Hrun, (metadata_truthy_nonempty _ Hne); reflexivity.
  - assert (Hup : py_upper v
                  = Raise (Exception ("'" ++ type_name v ++ "' object has no attribute 'upper'"))).
    { destruct v; try reflexivity. by destruct (Hnot s0). }
    destruct (attempt <? MAX_RETRIES cfg) eqn:Hlt.
    + destruct (backoff_accepted cfg env attempt) eqn:Ha.
      * destruct s, (SAVE_MARKDOWN cfg), (blob_service_client cfg); cbn -[backoff];
          rewrite Hrun, (metadata_truthy_nonempty _ Hne), Hv, Hup; cbn -[backoff];
          rewrite ?Hlt, (backoff_run _ _ _ _ Ha); reflexivity.
      * destruct s, (SAVE_MARKDOWN cfg), (blob_service_client cfg); cbn -[backoff];
          rewrite Hrun, (metadata_truthy_nonempty _ Hne), Hv, Hup; cbn -[backoff];
          rewrite ?Hlt;
          match goal with
          | |- context [backoff cfg env attempt ?w0] =>
              destruct (backoff_refused cfg env attempt w0 Ha) as [e' ->]
          end; eauto.
    + destruct s, (SAVE_MARKDOWN cfg), (blob_service_client cfg); cbn -[backoff];
        rewrite Hrun, (metadata_truthy_nonempty _ Hne), Hv, Hup; cbn -[backoff];
        rewrite ?Hlt; reflexivity.
Qed.

Lemma success_report_needs_string_language_witness :
  attempt_once KeyPOC default_config Edge.null_language_env None Fixtures.txt_item 3 world0
  = (Ok (Return AtSuccess (build_row KeyPOC (name Fixtures.txt_item) Edge.null_language_metadata)),
     after_markdown KeyPOC default_config (name Fixtures.txt_item) world0)
  /\ (if 3 <? MAX_RETRIES default_config
      then
        if backoff_accepted default_config Edge.null_language_env 3
        then attempt_once KeyPOC default_config Edge.null_language_env (Some {| total := 1 |})
               Fixtures.txt_item 3 world0
             = (Ok Continue,
                after_sleep (delay default_config 3)
                  (tick (Some {| total := 1 |})
                     (after_markdown KeyPOC default_config (name Fixtures.txt_item) world0)))
        else exists e',
               attempt_once KeyPOC default_config Edge.null_language_env
                 (Some {| total := 1 |}) Fixtures.txt_item 3 world0
               = (Raise e',
                  tick (Some {| total := 1 |})
                    (after_markdown KeyPOC default_config (name Fixtures.txt_item) world0))
      else attempt_once KeyPOC default_config Edge.null_language_env (Some {| total := 1 |})
             Fixtures.txt_item 3 world0
           = (Ok (Return AtException
                    (failure_result KeyPOC (name Fixtures.txt_item)
                       (PStr ("'" ++ type_name PNone ++ "' object has no attribute 'upper'")))),
              tick (Some {| total := 1 |})
                (tick (Some {| total := 1 |})
                   (after_markdown KeyPOC default_config (name Fixtures.txt_item) world0)))).
Proof.
  eapply (success_report_needs_string_language KeyPOC default_config Edge.null_language_env
            {| total := 1 |} Fixtures.txt_item 3 world0 _ _ None
            Edge.null_language_metadata None PNone).
  - vm_compute. reflexivity.
  - computed.
  - intros H. apply (f_equal (fun m : dict => m !! "source_language")) in H.
    vm_compute in H. discriminate.
  - computed.
  - discriminate.
Defined.

Example null_language_run :
  process_contract_with_retry KeyPOC default_config (fun _ => Edge.null_language_env)
    Fixtures.txt_item (Fixtures.tracker 1) world0
  = (Returned AtException
       (failure_result KeyPOC "sv/leveransavtal.txt"
          (PStr "'NoneType' object has no attribute 'upper'")),
     {| completed := 4; slept := [Finite 2; Finite 4]; markdown := [] |}).
Proof. vm_compute. reflexivity. Qed.

(** ** The report of a batch *)

Lemma count_partition (results : list dict) :
  (success_count results + error_count results)%nat = length results.
Proof.
  unfold success_count, error_count.
  induction results as [|r rs IH]; [reflexivity|].
  rewrite !filter_cons. destruct (is_error r) eqn:E.
  - rewrite decide_False by done. rewrite decide_True by done. cbn [length]. lia.
  - rewrite decide_True by done. rewrite decide_False by done. cbn [length]. lia.
Qed.

(** The two counts printed at the end of a batch add up to the number of
    submitted documents: each document is counted once, as a success or as a
    failure. *)
Theorem counts_add_up s src cfg services disk parallel picks file_infos output_csv results :
  collected (process_file_infos s src cfg services disk parallel picks file_infos output_csv)
  = Some results ->
  (success_count results + error_count results)%nat = length file_infos.
Proof.
  intros Hc. apply collected_results in Hc as (_ & Hperm & _).
  rewrite count_partition, (Permutation_length Hperm). apply length_item_results.
Qed.

Lemma counts_add_up_witness :
  (success_count (item_results KeyPOC default_config Batch.services {| total := 2 |} 0
                    Batch.items)
   + error_count (item_results KeyPOC default_config Batch.services {| total := 2 |} 0
                    Batch.items))%nat
  = length Batch.items.
Proof.
  apply (counts_add_up KeyPOC Blob default_config Batch.services Fixtures.writable false []
           Batch.items "sirion_metadata.csv").
  apply batch_run_results.
Defined.

Lemma build_row_file_name s file_name metadata :
  build_row s file_name metadata !! "File Name"
  = Some (PStr (match s with
                | KeyPOC => file_name
                | ManagedPOC => Path.basename file_name
                end)).
Proof.
  unfold build_row. rewrite !lookup_insert_ne by done.
  rewrite (lookup_foldl_insert (fun f => dict_get metadata f (PStr ""))).
  rewrite decide_False by (apply not_a_field; destruct s; vm_compute; reflexivity).
  rewrite !lookup_insert_ne by done. apply identity_file_name.
Qed.

Lemma item_results_names s cfg services progress file_infos : forall i,
  all_returned s cfg services progress i file_infos ->
  map (fun r => dict_get r "File Name" (PStr "")) (item_results s cfg services progress i file_infos)
  = map (fun fi => PStr (shown_name s fi)) file_infos.
Proof.
  induction file_infos as [|fi rest IH]; intros i; cbn [item_results map all_returned]; [done|].
  intros [(site & r & w1 & Hp) Hall]. rewrite (IH _ Hall). f_equal.
  rewrite Hp. cbn [fst result_of]. unfold dict_get, shown_name.
  apply process_result in Hp as [(_ & a & kv & md & _ & _ & _ & ->)|(_ & err & ->)].
  - by rewrite build_row_file_name.
  - by rewrite failure_result_file_name.
Qed.

(** The ['File Name'] entries of the results that a batch has collected are,
    up to their order, the names of the submitted documents (the base names
    in the managed-identity script): every document shows once, under its
    own name, whether it succeeded or failed. *)
Theorem every_document_is_named_once s src cfg services disk parallel picks file_infos
    output_csv results :
  collected (process_file_infos s src cfg services disk parallel picks file_infos output_csv)
  = Some results ->
  Permutation (map (fun r => dict_get r "File Name" (PStr "")) results)
              (map (fun fi => PStr (shown_name s fi)) file_infos).
Proof.
  intros Hc. apply collected_results in Hc as (Hall & Hperm & _).
  rewrite <- (item_results_names s cfg services {| total := Z.of_nat (length file_infos) |}
                file_infos 0 Hall).
  by apply Permutation_map.
Qed.

Lemma every_document_is_named_once_witness :
  Permutation
    (map (fun r => dict_get r "File Name" (PStr ""))
         (item_results ManagedPOC default_config Batch.services {| total := 2 |} 0 Batch.items))
    (map (fun fi => PStr (shown_name ManagedPOC fi)) Batch.items).
Proof.
  apply (every_document_is_named_once ManagedPOC Blob default_config Batch.services
           Fixtures.writable false [] Batch.items "sirion_metadata.csv").
  apply batch_run_results.
Defined.

(** ** The name of the failure list *)

Lemma replace_absent (old new : string) : forall s,
  Str.contains old s = false -> Str.replace old new s = s.
Proof.
  unfold Str.replace. induction s as [|c s IH]; intros H; [reflexivity|].
  cbn [Str.contains] in H. cbn [Str.replace_from].
  destruct (String.prefix old (String c s)); [discriminate|].
  by rewrite IH.
Qed.

(** The failure list is written to the name of the CSV file with [.csv]
    replaced.  When the output name holds no [.csv], the two names are the
    same: a batch of the managed-identity script that has collected a failed
    document, and whose writes succeed, writes the CSV file and then the
    failure list to that one path, and the CSV file is lost. *)
Theorem failure_list_replaces_csv_without_suffix src cfg services disk parallel picks
    file_infos output_csv results :
  collected (process_file_infos ManagedPOC src cfg services disk parallel picks file_infos
               output_csv) = Some results ->
  writes_succeed disk (outputs ManagedPOC src output_csv results) ->
  Str.contains ".csv" output_csv = false ->
  (0 < error_count results)%nat ->
  files (process_file_infos ManagedPOC src cfg services disk parallel picks file_infos
           output_csv)
  = [(output_csv, write_csv (csv_columns ManagedPOC src) results);
     (output_csv, Text (failed_file_text src results))].
Proof.
  intros Hc Hdisk Hcsv Herr.
  apply collected_results in Hc as (_ & _ & _ & -> & _).
  rewrite (export_succeeds _ _ _ _ _ Hdisk). cbn [snd].
  unfold outputs, failed_file_name. destruct results as [|r rs]; [cbn in Herr; lia|].
  assert ((0 <? error_count (r :: rs))%nat = true) as -> by by apply Nat.ltb_lt.
  by rewrite replace_absent.
Qed.

Lemma failure_list_replaces_csv_without_suffix_witness :
  files (process_file_infos ManagedPOC Blob default_config Batch.services Fixtures.writable
           false [] Batch.items "report")
  = [("report",
      write_csv (csv_columns ManagedPOC Blob)
        (item_results ManagedPOC default_config Batch.services {| total := 2 |} 0 Batch.items));
     ("report",
      Text (failed_file_text Blob
              (item_results ManagedPOC default_config Batch.services {| total := 2 |} 0
                 Batch.items)))].
Proof.
  apply (failure_list_replaces_csv_without_suffix Blob default_config Batch.services
           Fixtures.writable false [] Batch.items "report").
  - computed.
  - apply writable_succeeds.
  - reflexivity.
  - apply Nat.ltb_lt. computed.
Defined.

(** ** The summary after the files are written *)

Lemma for_each_cases {A} (f : A -> res unit) (l : list A) :
  (for_each f l = Ok tt /\ forall x, x ∈ l -> f x = Ok tt)
  \/ (exists x e, x ∈ l /\ f x = Raise e /\ for_each f l = Raise e).
Proof.
  induction l as [|a l IH]; cbn [for_each].
  - left. split; [done|]. intros x H. by apply elem_of_nil in H.
  - destruct (f a) as [[]|e] eqn:Ha.
    + destruct IH as [[H1 H2]|(x & e & Hx & Hf & He)].
      * left. split; [done|]. intros x [->|Hx]%elem_of_cons; auto.
      * right. exists x, e. split; [by right | done].
    + right. exists a, e. split; [by left | done].
Qed.

(** With a progress tracker, the progress line has upper-cased the language
    of every success. *)
Lemma attempt_body_tracked_language s cfg env p fi attempt w w' row :
  attempt_body s cfg env (Some p) fi attempt w = (Ok (Return AtSuccess row), w') ->
  string_language row.
Proof.
  intros H. unfold attempt_body in H.
  unfold report, save_text_as_markdown, increment in H. unfold bind, lift, ret in H.
  repeat (case_match; simplify_eq/=).
  all: simplify_eq/=.
  all: intros v Hv; rewrite build_row_language in Hv; simplify_eq.
  all: match goal with
       | Hu : py_upper ?x = Ok _ |- _ => destruct x; try discriminate Hu
       end.
  all: eauto.
Qed.

Lemma failure_result_string_language s file_name error :
  string_language (failure_result s file_name error).
Proof. intros v Hv. by rewrite failure_result_other in Hv. Qed.

Lemma tracked_result_language s cfg services fi p w w' site result :
  process_contract_with_retry s cfg services fi (Some p) w = (Returned site result, w') ->
  string_language result.
Proof.
  unfold process_contract_with_retry. intros H.
  apply retry_loop_inv in H as [[-> ->]|(a & w0 & w1 & _ & H)].
  - apply failure_result_string_language.
  - unfold attempt_once in H.
    destruct (attempt_body s cfg (services a) (Some p) fi a w0) as [[c|e] w2] eqn:Hb.
    + simplify_eq. destruct (decide (site = AtSuccess)) as [->|Hs].
      * eapply attempt_body_tracked_language; eauto.
      * eapply attempt_body_failure in Hb as (err & ->); [|done].
        apply failure_result_string_language.
    + destruct (a <? MAX_RETRIES cfg).
      * handler_backoff H.
      * unfold bind, ret in H. unfold report, increment, bind, ret in H. simplify_eq.
        apply failure_result_string_language.
Qed.

Lemma item_results_language s cfg services progress file_infos r : forall i,
  r ∈ item_results s cfg services progress i file_infos -> string_language r.
Proof.
  induction file_infos as [|fi rest IH]; intros i; cbn [item_results].
  - intros H. by apply elem_of_nil in H.
  - intros [->|H]%elem_of_cons; [|by eapply IH].
    destruct (process_contract_with_retry s cfg (services i) fi (Some progress) world0)
      as [[site r|e] w1] eqn:Hp; cbn [fst result_of].
    + by eapply tracked_result_language.
    + intros v Hv. by rewrite lookup_empty in Hv.
Qed.

Lemma no_success_all_errors (results : list dict) r :
  success_count results = 0%nat -> r ∈ results -> is_error r = true.
Proof.
  unfold success_count. intros H Hr. destruct (is_error r) eqn:E; [done|].
  assert (Hin : r ∈ filter (fun r => is_error r = false) results)
    by by apply list_elem_of_filter.
  destruct (filter _ results); [by apply elem_of_nil in Hin | discriminate].
Qed.

Lemma summary_cases (results : list dict) :
  (forall r, r ∈ results -> string_language r) ->
  (forall r, r ∈ results -> is_error r = true -> r !! "Confidence" = None) ->
  (summary_statistics results = Ok tt
   /\ forall r conf, r ∈ results -> r !! "Confidence" = Some conf -> hashable conf = Ok tt)
  \/ (exists r conf e,
        r ∈ results /\ is_error r = false /\ r !! "Confidence" = Some conf
        /\ hashable conf = Raise e /\ summary_statistics results = Raise e).
Proof.
  intros Hlang Hfail. unfold summary_statistics.
  destruct results as [|r0 rs]; [left; split; [done|]; intros r conf H; by apply elem_of_nil in H|].
  set (results := r0 :: rs) in *.
  destruct (0 <? success_count results)%nat eqn:Hs.
  - destruct (for_each_cases count_row results) as [[-> Hall]|(r & e & Hr & Hc & ->)].
    + left. split.
      * destruct (for_each_cases
                    (fun row => match row !! "Source Language" with
                                | Some lang => match py_upper lang with
                                               | Ok _ => Ok tt
                                               | Raise e => Raise e
                                               end
                                | None => Ok tt
                                end) results) as [[-> _]|(r & e & Hr & Hu & _)]; [done|].
        exfalso. destruct (r !! "Source Language") as [v|] eqn:Hv; [|done].
        destruct (Hlang r Hr v Hv) as [x ->]. done.
      * intros r conf Hr Hconf. specialize (Hall r Hr). unfold count_row in Hall.
        rewrite Hconf in Hall. repeat case_match; simplify_eq; done.
    + right. unfold count_row in Hc.
      destruct (r !! "Source Language") as [v|] eqn:Hv.
      * destruct (Hlang r Hr v Hv) as [x ->]. cbn in Hc.
        destruct (r !! "Confidence") as [conf|] eqn:Hconf; [|done].
        exists r, conf, e. repeat split; try done.
        destruct (is_error r) eqn:E; [|done]. by rewrite (Hfail r Hr E) in Hconf.
      * destruct (r !! "Confidence") as [conf|] eqn:Hconf; [|done].
        exists r, conf, e. repeat split; try done.
        destruct (is_error r) eqn:E; [|done]. by rewrite (Hfail r Hr E) in Hconf.
  - left. split; [done|]. intros r conf Hr Hconf.
    apply Nat.ltb_ge in Hs.
    assert (is_error r = true) as E by (apply (no_success_all_errors results); [lia | done]).
    by rewrite (Hfail r Hr E) in Hconf.
Qed.

(** When the collection of a batch has completed and its writes have
    succeeded, the batch either returns the name of its CSV file, and then
    no result holds a list or a dictionary as its confidence; or the model
    has answered such a confidence for some document that succeeded, and
    the [TypeError] of looking it up in the table of the confidence levels
    ends the summary, after the files were written: the blob variant
    swallows it and returns [None], the local variant lets it out. *)
Theorem summary_ends_batch_on_unhashable_confidence s src cfg services disk parallel picks
    file_infos output_csv results :
  collected (process_file_infos s src cfg services disk parallel picks file_infos output_csv)
  = Some results ->
  writes_succeed disk (outputs s src output_csv results) ->
  files (process_file_infos s src cfg services disk parallel picks file_infos output_csv)
  = outputs s src output_csv results
  /\ ((returned (process_file_infos s src cfg services disk parallel picks file_infos
                   output_csv) = Ok (Some output_csv)
       /\ forall r conf,
            r ∈ results -> r !! "Confidence" = Some conf -> hashable conf = Ok tt)
      \/ (exists r conf e,
            r ∈ results /\ is_error r = false /\ r !! "Confidence" = Some conf
            /\ hashable conf = Raise e
            /\ returned (process_file_infos s src cfg services disk parallel picks file_infos
                           output_csv) = leave src e
            /\ (output_csv, write_csv (csv_columns s src) results)
               ∈ outputs s src output_csv results)).
Proof.
  intros Hc Hdisk.
  apply collected_results in Hc as (Hall & Hperm & _ & -> & ->).
  rewrite (export_succeeds _ _ _ _ _ Hdisk). cbn [fst snd]. split; [done|].
  destruct (summary_cases results) as [[-> Hconf]|(r & conf & e & Hr & E & Hc & Hh & ->)].
  - intros r Hr. rewrite Hperm in Hr. by eapply item_results_language.
  - intros r Hr E.
    destruct (failed_result_shape _ _ _ _ _ _ _ Hall Hperm Hr E) as (fi & err & _ & ->).
    by apply failure_result_other.
  - by left.
  - right. exists r, conf, e. repeat split; try done.
    unfold outputs. destruct results; [by apply elem_of_nil in Hr | left].
Qed.

Lemma summary_ends_batch_on_unhashable_confidence_witness :
  files (Unhashable.run Local)
  = outputs KeyPOC Local "sirion_metadata.csv"
      (item_results KeyPOC default_config (fun _ _ => Unhashable.env) {| total := 1 |} 0
         [Fixtures.txt_item])
  /\ ((returned (Unhashable.run Local) = Ok (Some "sirion_metadata.csv")
       /\ forall r conf,
            r ∈ item_results KeyPOC default_config (fun _ _ => Unhashable.env) {| total := 1 |} 0
                  [Fixtures.txt_item] ->
            r !! "Confidence" = Some conf -> hashable conf = Ok tt)
      \/ (exists r conf e,
            r ∈ item_results KeyPOC default_config (fun _ _ => Unhashable.env) {| total := 1 |} 0
                  [Fixtures.txt_item]
            /\ is_error r = false /\ r !! "Confidence" = Some conf
            /\ hashable conf = Raise e
            /\ returned (Unhashable.run Local) = leave Local e
            /\ ("sirion_metadata.csv",
                write_csv (csv_columns KeyPOC Local)
                  (item_results KeyPOC default_config (fun _ _ => Unhashable.env)
                     {| total := 1 |} 0 [Fixtures.txt_item]))
               ∈ outputs KeyPOC Local "sirion_metadata.csv"
                   (item_results KeyPOC default_config (fun _ _ => Unhashable.env)
                      {| total := 1 |} 0 [Fixtures.txt_item]))).
Proof.
  apply (summary_ends_batch_on_unhashable_confidence KeyPOC Local default_config
           (fun _ _ => Unhashable.env) Fixtures.writable false [] [Fixtures.txt_item]
           "sirion_metadata.csv").
  - computed.
  - apply writable_succeeds.
Defined.

Example unhashable_confidence_run :
  returned (Unhashable.run Blob) = Ok None
  /\ returned (Unhashable.run Local) = Raise (Exception "unhashable type: 'list'")
  /\ map fst (files (Unhashable.run Blob)) = ["sirion_metadata.csv"]
  /\ (success_count <$> collected (Unhashable.run Blob)) = Some 1%nat.
Proof. vm_compute. repeat split. Qed.

(** A write that raises ends the batch before the summary: nothing is
    returned by the blob variant, and the local variant raises. *)
Example refused_write_run :
  returned (process_file_infos KeyPOC Blob default_config Batch.services
              (fun _ _ => Raise (Exception "'utf-8' codec can't encode character"))
              false [] Batch.items "sirion_metadata.csv") = Ok None
  /\ files (process_file_infos KeyPOC Local default_config Batch.services
              (fun _ _ => Raise (Exception "'utf-8' codec can't encode character"))
              false [] Batch.items "sirion_metadata.csv") = []
  /\ returned (process_file_infos KeyPOC Local default_config Batch.services
                 (fun _ _ => Raise (Exception "'utf-8' codec can't encode character"))
                 false [] Batch.items "sirion_metadata.csv")
     = Raise (Exception "'utf-8' codec can't encode character").
Proof. vm_compute. repeat split. Qed.

(** ** The rate-limit test *)

Lemma prefix_app (n : string) : forall h,
  String.prefix n h = true <-> exists post, h = n ++ post.
Proof.
  induction n as [|a n IH]; intros h.
  - split; [intros _; by exists h | by destruct h].
  - destruct h as [|b h]; cbn [String.prefix].
    + split; [done | intros [post H]; discriminate].
    + destruct (ascii_dec a b) as [->|Hab].
      * split.
        -- intros H. apply IH in H as [post ->]. by exists post.
        -- intros [post H]. apply IH. exists post.
           change (String b h = String b (n ++ post)) in H. congruence.
      * split; [done|]. intros [post H].
        change (String b h = String a (n ++ post)) in H. congruence.
Qed.

Lemma contains_unfold (n h : string) :
  Str.contains n h
  = if String.prefix n h then true
    else match h with
         | EmptyString => false
         | String _ h' => Str.contains n h'
         end.
Proof. by destruct h. Qed.

(** [needle in hay] holds exactly for the substrings of [hay]. *)
Lemma contains_app (n : string) : forall h,
  Str.contains n h = true <-> exists pre post, h = pre ++ n ++ post.
Proof.
  intros h. split.
  - induction h as [|c h IH]; rewrite contains_unfold;
      destruct (String.prefix n _) eqn:Hp.
    + intros _. apply prefix_app in Hp as [post ->]. by exists "", post.
    + done.
    + intros _. apply prefix_app in Hp as [post ->]. by exists "", post.
    + intros H. destruct (IH H) as (pre & post & ->). by exists (String c pre), post.
  - intros (pre & post & ->). induction pre as [|c pre IH].
    + rewrite contains_unfold.
      assert (String.prefix n ("" ++ n ++ post) = true) as ->; [|done].
      apply prefix_app. by exists post.
    + rewrite contains_unfold. destruct (String.prefix n _); [done|]. exact IH.
Qed.

Lemma lower_app (a b : string) : Str.lower (a ++ b) = Str.lower a ++ Str.lower b.
Proof.
  unfold Str.lower. induction a as [|c a IH]; [done|].
  change (String c a ++ b) with (String c (a ++ b)). cbn [Str.map_ascii].
  change (String (Str.lower_ascii c) (Str.map_ascii Str.lower_ascii a)
          ++ Str.map_ascii Str.lower_ascii b)
    with (String (Str.lower_ascii c)
            (Str.map_ascii Str.lower_ascii a ++ Str.map_ascii Str.lower_ascii b)).
  by rewrite IH.
Qed.

Lemma append_assoc (a b c : string) : (a ++ b) ++ c = a ++ b ++ c.
Proof.
  induction a as [|x a IH]; [done|].
  change (String x ((a ++ b) ++ c) = String x (a ++ b ++ c)). by rewrite IH.
Qed.

Lemma contains_extend (n a e b : string) :
  Str.contains n e = true -> Str.contains n (a ++ e ++ b) = true.
Proof.
  intros (pre & post & ->)%contains_app. apply contains_app.
  exists (a ++ pre), (post ++ b). by rewrite !append_assoc.
Qed.

Lemma rate_limited_extend (a e b : string) :
  rate_limited e = true -> rate_limited (a ++ e ++ b) = true.
Proof.
  unfold rate_limited. intros [H|H]%orb_true_iff; apply orb_true_iff.
  - left. rewrite !lower_app. by apply contains_extend.
  - right. by apply contains_extend.
Qed.

(** The test that decides a retry, ["rate" in error.lower() or "429" in
    error], accepts exactly the messages that hold the letters [rate] in any
    mix of cases, or the digits [429], anywhere: inside a word or a number as
    well. *)
Theorem rate_limited_iff_substring (error : string) :
  rate_limited error = true
  <-> (exists pre post, Str.lower error = pre ++ "rate" ++ post)
      \/ (exists pre post, error = pre ++ "429" ++ post).
Proof.
  unfold rate_limited. rewrite orb_true_iff, !contains_app. done.
Qed.

Example rate_limited_inside_words :
  rate_limited "Failed to generate a completion" = true
  /\ rate_limited "Request 14290 timed out" = true
  /\ rate_limited "Too Many Requests" = false.
Proof. vm_compute. repeat split. Qed.

(** When the extraction call of the direct strategy raises, the function
    returns no metadata and the text of the exception, to which it appends
    [" (Rate limit detected)"] when its rate-limit test accepts the text.
    The caller runs the same test on what it gets: the appended words do not
    change its outcome, so the retry is decided by the text of the exception
    alone. *)
Theorem direct_error_annotation_keeps_retry_test s env contract_text file_name attempt e :
  chat_extract env file_name
    (Str.take (match s with KeyPOC => 8000%N | ManagedPOC => 100000%N end) contract_text)
  = Raise e ->
  exists error_msg,
    extract_metadata_direct s env contract_text file_name attempt = (None, Some error_msg)
    /\ error_msg = (if rate_limited (str_exn e)
                    then str_exn e ++ " (Rate limit detected)"
                    else str_exn e)
    /\ rate_limited error_msg = rate_limited (str_exn e).
Proof.
  intros H. unfold extract_metadata_direct, extract_direct_try. rewrite H.
  eexists. split; [reflexivity|]. split; [reflexivity|].
  destruct (rate_limited (str_exn e)) eqn:Hr; [|done].
  pose proof (rate_limited_extend "" (str_exn e) " (Rate limit detected)" Hr) as H'.
  exact H'.
Qed.

Lemma direct_error_annotation_keeps_retry_test_witness :
  exists error_msg,
    extract_metadata_direct KeyPOC (Throttled.services 1) "Leveransavtal ..."
      "sv/leveransavtal.txt" 1 = (None, Some error_msg)
    /\ error_msg = (if rate_limited (str_exn Fixtures.rate_limit_error)
                    then str_exn Fixtures.rate_limit_error ++ " (Rate limit detected)"
                    else str_exn Fixtures.rate_limit_error)
    /\ rate_limited error_msg = rate_limited (str_exn Fixtures.rate_limit_error).
Proof.
  apply (direct_error_annotation_keeps_retry_test KeyPOC (Throttled.services 1)
           "Leveransavtal ..." "sv/leveransavtal.txt" 1 Fixtures.rate_limit_error).
  reflexivity.
Defined.

(** The answer of the model is parsed as JSON and then used as a
    dictionary.  When it is valid JSON but no object (a list, a string, a
    number, a boolean, null), both extraction functions return no metadata
    and the text of the [TypeError] of the first assignment; the rate-limit
    test rejects that text, so the document fails without a retry. *)
Theorem non_object_answer_is_an_error s env text english_text file_name attempt v :
  (forall kv, v <> PDict kv) ->
  (forall sent, chat_extract env file_name sent = Ok v) ->
  exists error,
    extract_metadata_direct s env text file_name attempt = (None, Some error)
    /\ extract_metadata_from_english s env english_text file_name = (None, Some error)
    /\ rate_limited error = false.
Proof.
  intros Hv H.
  assert (exists msg, as_object v = Raise (Exception msg) /\ rate_limited msg = false)
    as (msg & Hmsg & Hrate).
  { destruct v as [| [] | | | | |kv]; try (eexists; split; [reflexivity|]; vm_compute; reflexivity).
    by destruct (Hv kv). }
  exists msg.
  unfold extract_metadata_direct, extract_direct_try, extract_metadata_from_english,
    extract_english_try.
  rewrite !H, Hmsg. cbn [str_exn]. by rewrite Hrate.
Qed.

Lemma non_object_answer_is_an_error_witness :
  exists error,
    extract_metadata_direct KeyPOC (Fixtures.answering (Ok None) (Ok (PList []))) "Avtal"
      "a.txt" 1 = (None, Some error)
    /\ extract_metadata_from_english KeyPOC (Fixtures.answering (Ok None) (Ok (PList [])))
         "Agreement" "a.txt" = (None, Some error)
    /\ rate_limited error = false.
Proof.
  apply (non_object_answer_is_an_error KeyPOC (Fixtures.answering (Ok None) (Ok (PList [])))
           "Avtal" "Agreement" "a.txt" 1 (PList [])).
  - discriminate.
  - reflexivity.
Defined.

(** ** The two batch functions *)

Lemma rsplit_at_app c : forall p, fst (Path.rsplit_at c p) ++ snd (Path.rsplit_at c p) = p.
Proof.
  induction p as [|a p IH]; [done|]. cbn [Path.rsplit_at].
  destruct (Path.rsplit_at c p) as [h t]. cbn [fst snd] in IH.
  destruct h as [|x h].
  - destruct (Ascii.eqb a c); cbn [fst snd]; [done|].
    change ("" ++ t) with t in IH. by rewrite IH.
  - cbn [fst snd]. change (String a (String x h ++ t) = String a p). by rewrite IH.
Qed.

Lemma rsplit_at_idem c : forall p,
  Path.rsplit_at c (snd (Path.rsplit_at c p)) = ("", snd (Path.rsplit_at c p)).
Proof.
  induction p as [|a p IH]; [done|]. cbn [Path.rsplit_at].
  pose proof (rsplit_at_app c p) as Happ.
  destruct (Path.rsplit_at c p) as [h t]. cbn [fst snd] in *.
  destruct h as [|x h]; [|done].
  change ("" ++ t) with t in Happ. subst t.
  destruct (Ascii.eqb a c) eqn:E; cbn [snd]; [done|].
  cbn [Path.rsplit_at]. by rewrite IH, E.
Qed.

Lemma basename_idem p : Path.basename (Path.basename p) = Path.basename p.
Proof. unfold Path.basename. by rewrite rsplit_at_idem. Qed.

Lemma dirname_basename p : Path.dirname (Path.basename p) = "".
Proof. unfold Path.dirname, Path.basename. by rewrite rsplit_at_idem. Qed.

Lemma blob_file_info_name s b : name (blob_file_info s b) = blob_name b.
Proof. unfold blob_file_info. by repeat case_match. Qed.

Lemma process_file_infos_blob_returned s cfg services disk parallel picks file_infos
    output_csv :
  returned (process_file_infos s Blob cfg services disk parallel picks file_infos output_csv)
  = Ok None
  \/ returned (process_file_infos s Blob cfg services disk parallel picks file_infos
                output_csv)
     = Ok (Some output_csv).
Proof.
  unfold process_file_infos.
  destruct (collect_results _ _ _ _ _ _ _) as [[results|e] w]; cbn [returned leave]; [|by left].
  destruct (export s Blob disk output_csv results) as [[[]|e] written]; cbn [returned leave];
    [|by left].
  destruct (summary_statistics results); cbn [leave]; auto.
Qed.

(** The CSV file is written when the batch returns its name. *)
Lemma returned_name_written s src cfg services disk parallel picks file_infos output_csv :
  file_infos <> [] ->
  returned (process_file_infos s src cfg services disk parallel picks file_infos output_csv)
  = Ok (Some output_csv) ->
  exists results,
    collected (process_file_infos s src cfg services disk parallel picks file_infos output_csv)
    = Some results
    /\ results <> []
    /\ (output_csv, write_csv (csv_columns s src) results)
       ∈ files (process_file_infos s src cfg services disk parallel picks file_infos
                  output_csv).
Proof.
  intros Hne. unfold process_file_infos.
  destruct (collect_results s cfg services parallel picks file_infos world0)
    as [[results|e] w] eqn:Hc; [|by destruct src].
  apply collect_results_inv in Hc as (_ & Hperm & _).
  pose proof (results_nonempty _ _ _ _ _ _ Hne Hperm) as Hres.
  unfold export, outputs. destruct results as [|r rs]; [done|]. cbn [write_files].
  destruct (disk output_csv (write_csv (csv_columns s src) (r :: rs))) as [[]|e];
    [|by destruct src].
  destruct (write_files disk _) as [exported written]. cbn [returned collected files].
  intros _. exists (r :: rs). split; [done|]. split; [done | left].
Qed.

Lemma collected_names s src cfg services disk parallel picks file_infos output_csv results :
  collected (process_file_infos s src cfg services disk parallel picks file_infos output_csv)
  = Some results ->
  Permutation (map (fun r => dict_get r "File Name" (PStr "")) results)
              (map (fun fi => PStr (shown_name s fi)) file_infos)
  /\ all_returned s cfg services {| total := Z.of_nat (length file_infos) |} 0 file_infos
  /\ Permutation results
       (item_results s cfg services {| total := Z.of_nat (length file_infos) |} 0 file_infos).
Proof.
  intros Hc. apply collected_results in Hc as (Hall & Hperm & _).
  split; [|done].
  rewrite <- (item_results_names s cfg services {| total := Z.of_nat (length file_infos) |}
                file_infos 0 Hall).
  by apply Permutation_map.
Qed.

(** [process_contracts_from_blob] never lets an exception out: it returns
    [None] or the name of the CSV file.  It collects results only when a
    storage client is configured and the listing succeeded, and then the
    results name, up to order, exactly the listed blobs whose lower-cased
    suffix is [.txt], [.docx] or [.pdf] (blobs that could not be downloaded
    included), each once; blobs of other types are skipped.  When it returns
    the name of the CSV file, that file has been written. *)
Theorem blob_batch_outcome s cfg services disk picks listing output_csv parallel :
  let rep :=
    process_contracts_from_blob s cfg services disk picks listing output_csv parallel in
  (returned rep = Ok None \/ returned rep = Ok (Some output_csv))
  /\ (forall results,
        collected rep = Some results ->
        blob_service_client cfg = true
        /\ exists listed,
             listing = Ok listed
             /\ Permutation
                  (map (fun r => dict_get r "File Name" (PStr "")) results)
                  (map (fun b => PStr (match s with
                                       | KeyPOC => blob_name b
                                       | ManagedPOC => Path.basename (blob_name b)
                                       end))
                       (filter (fun b => supported (Str.lower (PurePath.suffix (blob_name b)))
                                         = true)
                               listed)))
  /\ (returned rep = Ok (Some output_csv) ->
      exists results,
        collected rep = Some results
        /\ results <> []
        /\ (output_csv, write_csv (csv_columns s Blob) results) ∈ files rep).
Proof.
  cbn zeta. unfold process_contracts_from_blob.
  destruct (blob_service_client cfg); cbn [negb];
    [|by (split; [left|split]; cbn)].
  destruct listing as [listed|e]; [|by (split; [left|split]; cbn)].
  destruct (filter _ listed) as [|b0 blobs] eqn:Hf; [by (split; [left|split]; cbn)|].
  rewrite <- Hf.
  assert (Hne : map (blob_file_info s)
                  (filter (fun b => supported (Str.lower (PurePath.suffix (blob_name b))) = true)
                          listed) <> []) by by rewrite Hf.
  split; [apply process_file_infos_blob_returned|]. split.
  - intros results Hc. split; [done|]. exists listed. split; [done|].
    destruct (collected_names _ _ _ _ _ _ _ _ _ _ Hc) as (Hperm & _ & _).
    rewrite Hperm, map_map. apply Permutation_refl'. apply map_ext.
    intros b. unfold shown_name. by rewrite blob_file_info_name.
  - by apply returned_name_written.
Qed.

(** [process_contracts_to_csv] collects results only for an existing folder
    in which the three patterns found a file, and then the results name, up
    to order, exactly the found files by their base names, each once; in the
    managed-identity script their ['Folder Path'] is empty. *)
Theorem local_batch_outcome s cfg services disk picks found output_csv parallel results :
  collected (process_contracts_to_csv s cfg services disk picks found output_csv parallel)
  = Some results ->
  exists paths,
    found = Some paths
    /\ paths <> []
    /\ Permutation (map (fun r => dict_get r "File Name" (PStr "")) results)
                   (map (fun p => PStr (Path.basename p)) paths)
    /\ (s = ManagedPOC ->
        forall r, r ∈ results -> r !! "Folder Path" = Some (PStr "")).
Proof.
  unfold process_contracts_to_csv. destruct found as [[|p0 paths]|]; try done.
  intros Hc. exists (p0 :: paths). split; [done|]. split; [done|].
  destruct (collected_names _ _ _ _ _ _ _ _ _ _ Hc) as (Hnames & Hall & Hperm).
  split.
  - rewrite Hnames, map_map. generalize (p0 :: paths). intros l.
    apply Permutation_refl'. apply map_ext.
    intros p. unfold shown_name, local_file_info. cbn [name].
    destruct s; by rewrite ?basename_idem.
  - intros -> r Hr. rewrite Hperm in Hr.
    apply (item_results_shape _ _ _ _ _ _ _ Hall) in Hr as (fi & Hin & Hshape).
    apply list_elem_of_fmap in Hin as (p & -> & _).
    assert (Hfolder : identity_entries ManagedPOC (name (local_file_info p)) !! "Folder Path"
                      = Some (PStr "")).
    { unfold identity_entries, local_file_info, folder_path_of. cbn [name].
      rewrite lookup_insert_ne by done. rewrite lookup_insert_eq.
      rewrite dirname_basename. by destruct (_ || _). }
    destruct Hshape as [(md & ->)|(err & ->)].
    + unfold build_row. rewrite !lookup_insert_ne by done.
      rewrite (lookup_foldl_insert (fun f => dict_get md f (PStr ""))).
      rewrite decide_False by (apply not_a_field; vm_compute; reflexivity).
      by rewrite !lookup_insert_ne by done.
    + unfold failure_result. by rewrite lookup_insert_ne by done.
Qed.

Lemma local_batch_outcome_witness :
  exists paths,
    Some LocalRun.paths = Some paths
    /\ paths <> []
    /\ Permutation (map (fun r => dict_get r "File Name" (PStr "")) (LocalRun.results ManagedPOC))
                   (map (fun p => PStr (Path.basename p)) paths)
    /\ (ManagedPOC = ManagedPOC ->
        forall r, r ∈ LocalRun.results ManagedPOC -> r !! "Folder Path" = Some (PStr "")).
Proof.
  apply (local_batch_outcome ManagedPOC default_config LocalRun.services Fixtures.writable []
           (Some LocalRun.paths) "sirion_metadata.csv" false (LocalRun.results ManagedPOC)).
  computed.
Defined.

(** ** Quality checks *)

Example t_stem : PurePath.stem "contracts/nda.txt" = "nda". Proof. reflexivity. Qed.
Example t_stem2 : PurePath.stem "a/archive.tar.gz" = "archive.tar". Proof. reflexivity. Qed.
Example t_stem3 : PurePath.stem ".bashrc" = ".bashrc". Proof. reflexivity. Qed.
Example t_stem4 : PurePath.stem "a/b./" = "b.". Proof. reflexivity. Qed.
Example t_name : PurePath.name "a/./b//" = "b". Proof. reflexivity. Qed.
Example t_name2 : PurePath.name "/" = "". Proof. reflexivity. Qed.
Example t_name3 : PurePath.name "a/.." = "..". Proof. reflexivity. Qed.

Lemma foldl_collect {A} (p : A -> bool) (g : A -> string) (l : list A) : forall acc,
  foldl (fun (acc : list string) x => if p x then (acc ++ [g x])%list else acc) acc l
  = (acc ++ map g (List.filter p l))%list.
Proof.
  induction l as [|x l IH]; intros acc; cbn [foldl List.filter map].
  - by rewrite app_nil_r.
  - rewrite IH. destruct (p x); [|done]. cbn [map]. by rewrite <- app_assoc.
Qed.

Lemma validate_critical_fields_filter s metadata :
  validate_critical_fields s metadata
  = List.filter (fun field => missing_value (dict_get metadata field PNone)) (critical_fields s).
Proof.
  unfold validate_critical_fields.
  rewrite (foldl_collect (fun field => missing_value (dict_get metadata field PNone))
             (fun field => field)).
  by rewrite map_id.
Qed.

Lemma analyze_field_quality_map metadata :
  analyze_field_quality metadata
  = map (fun field => "Missing: " ++ field)
        (List.filter (fun field => missing_value (dict_get metadata field PNone))
                     (SIRION_FIELDS ManagedPOC)).
Proof.
  unfold analyze_field_quality.
  by rewrite (foldl_collect (fun field => missing_value (dict_get metadata field PNone))
                (fun field => "Missing: " ++ field)).
Qed.

Lemma analyze_field_quality_elem metadata field :
  ("Missing: " ++ field) ∈ analyze_field_quality metadata
  <-> field ∈ SIRION_FIELDS ManagedPOC
      /\ missing_value (dict_get metadata field PNone) = true.
Proof.
  rewrite analyze_field_quality_map, list_elem_of_fmap. split.
  - intros (f & Heq & Hin). change (String "M" ("issing: " ++ field) = String "M" ("issing: " ++ f)) in Heq.
    assert (field = f) as <- by (cbv in Heq; congruence).
    apply list_elem_of_In, filter_In in Hin as [Hin Hm]. split; [|done].
    by apply list_elem_of_In.
  - intros [Hin Hm]. exists field. split; [done|].
    apply list_elem_of_In, filter_In. split; [|done]. by apply list_elem_of_In.
Qed.

(** The four disjuncts of the test for a missing value come to two: a value
    counts as missing exactly when it is falsy (absent, null, [false], zero,
    an empty string, list or object) or the string ['null']. *)
Lemma missing_value_cases (value : pyval) :
  missing_value value = negb (py_bool value) || py_eq_str value "null".
Proof.
  unfold missing_value. destruct value as [| | | |x| |]; cbn; rewrite ?orb_false_r; try done.
  by destruct (String.eqb x "").
Qed.

(** [validate_critical_fields] returns, in the order of its list, the
    critical fields whose value is missing; each of them is a field of the
    schema of its script; and in the managed-identity script every field it
    returns is also reported, as ["Missing: <field>"], by
    [analyze_field_quality]. *)
Theorem critical_fields_are_schema_fields s metadata field :
  field ∈ validate_critical_fields s metadata ->
  field ∈ critical_fields s
  /\ field ∈ SIRION_FIELDS s
  /\ missing_value (dict_get metadata field PNone) = true
  /\ (s = ManagedPOC -> ("Missing: " ++ field) ∈ analyze_field_quality metadata).
Proof.
  rewrite validate_critical_fields_filter. intros Hin.
  apply list_elem_of_In, filter_In in Hin as [Hin Hm].
  assert (Hs : field ∈ SIRION_FIELDS s).
  { apply list_elem_of_In. destruct s; cbn in Hin;
      repeat (destruct Hin as [<-|Hin]; [cbn; tauto|]); done. }
  split; [by apply list_elem_of_In|]. split; [done|]. split; [done|].
  intros ->. by apply analyze_field_quality_elem.
Qed.

Lemma critical_fields_are_schema_fields_witness :
  "Effective Date" ∈ critical_fields ManagedPOC
  /\ "Effective Date" ∈ SIRION_FIELDS ManagedPOC
  /\ missing_value (dict_get Single.metadata "Effective Date" PNone) = true
  /\ (ManagedPOC = ManagedPOC
      -> ("Missing: " ++ "Effective Date") ∈ analyze_field_quality Single.metadata).
Proof.
  apply (critical_fields_are_schema_fields ManagedPOC Single.metadata "Effective Date").
  apply (bool_decide_unpack _); vm_compute; exact I.
Defined.

(** A cell of a Sirion field that is empty in the row of a success is a
    reported quality issue: [analyze_field_quality] lists ["Missing:
    <field>"] for every field of the schema whose cell in the row built from
    the same metadata is the empty string. *)
Theorem empty_cell_is_a_quality_issue file_name metadata field :
  field ∈ SIRION_FIELDS ManagedPOC ->
  build_row ManagedPOC file_name metadata !! field = Some (PStr "") ->
  ("Missing: " ++ field) ∈ analyze_field_quality metadata.
Proof.
  intros Hin Hrow. rewrite build_row_field in Hrow by done.
  apply analyze_field_quality_elem. split; [done|].
  unfold dict_get in *. destruct (metadata !! field) as [v|]; [|done].
  by simplify_eq.
Qed.

Lemma empty_cell_is_a_quality_issue_witness :
  ("Missing: " ++ "Term Type") ∈ analyze_field_quality Single.metadata.
Proof.
  apply (empty_cell_is_a_quality_issue "nda.txt" Single.metadata "Term Type").
  - apply (bool_decide_unpack _); vm_compute; exact I.
  - computed.
Defined.

(** In the managed-identity script the extraction overwrites ['Original File
    Name'] with the caller's file name, so [analyze_field_quality] reports
    that field as missing only for a file whose name is empty or is the
    word [null]. *)
Theorem file_name_field_missing_only_for_null_name env contract_text file_name attempt
    metadata error :
  extract_metadata_direct ManagedPOC env contract_text file_name attempt
  = (Some metadata, error) ->
  ("Missing: " ++ "Original File Name") ∈ analyze_field_quality metadata
  <-> file_name = "" \/ file_name = "null".
Proof.
  intros H. apply extract_metadata_direct_file_name in H.
  rewrite analyze_field_quality_elem. unfold dict_get. rewrite H.
  rewrite missing_value_cases. cbn [py_bool py_eq_str]. split.
  - intros [_ Hm]. apply orb_true_iff in Hm as [Hm|Hm].
    + left. apply negb_true_iff in Hm. destruct (String.eqb_spec file_name ""); done.
    + right. by apply String.eqb_eq.
  - intros Hn. split.
    + apply (bool_decide_unpack _); vm_compute; exact I.
    + destruct Hn as [->| ->]; reflexivity.
Qed.

Lemma file_name_field_missing_only_for_null_name_witness :
  ("Missing: " ++ "Original File Name") ∈ analyze_field_quality NullName.metadata
  <-> "null" = "" \/ "null" = "null".
Proof.
  apply (file_name_field_missing_only_for_null_name Answers.sparse_env "Avtal" "null" 1
           NullName.metadata None).
  computed.
Defined.

(** ** Single-file mode *)

Lemma read_path_ignores_extension s cfg env p extension blob_url :
  read_contract_file s cfg env (PathStr p) extension blob_url
  = Ok (read_by_extension s cfg env (open_read env p) (PathStr p) blob_url
          (Str.lower (PurePath.suffix p))).
Proof. unfold read_contract_file. by repeat case_match. Qed.

(** [process_single_contract] raises only what [Path.exists()] or the write
    of the JSON file raises: no failure of the reader, of the OCR service or
    of the model leaves it.  It writes a file exactly when it returns
    metadata: one JSON file, named by the stem of the path with
    [_metadata.json], holding the dictionary it returns; that dictionary is
    the answer of the model to one direct extraction call, stamped with the
    name of the file.  For a path that does not exist, an unreadable file or
    a failed extraction it returns [None] and writes nothing. *)
Theorem single_contract_saves_what_it_returns s cfg env path_exists write_json file_path :
  match fst (process_single_contract s cfg env path_exists write_json file_path) with
  | Raise e =>
      snd (process_single_contract s cfg env path_exists write_json file_path) = []
      /\ (path_exists = Raise e
          \/ (path_exists = Ok true
              /\ exists metadata,
                   write_json (PurePath.stem file_path ++ "_metadata.json") metadata
                   = Raise e))
  | Ok None =>
      snd (process_single_contract s cfg env path_exists write_json file_path) = []
  | Ok (Some metadata) =>
      snd (process_single_contract s cfg env path_exists write_json file_path)
      = [(PurePath.stem file_path ++ "_metadata.json", metadata)]
      /\ path_exists = Ok true
      /\ write_json (PurePath.stem file_path ++ "_metadata.json") metadata = Ok tt
      /\ exists kv,
           model_answer env (PurePath.name file_path) kv
           /\ stamped s (PurePath.name file_path) (dict_of_pairs kv) metadata
  end.
Proof.
  unfold process_single_contract. rewrite read_path_ignores_extension.
  destruct path_exists as [[|]|e]; cbn [fst snd]; [|done|by auto].
  destruct (read_by_extension _ _ _ _ _ _ _) as [[[|c t]|] read_error]; try done.
  unfold extract_metadata_direct.
  destruct (extract_direct_try s env (String c t) (PurePath.name file_path)) as [r|e] eqn:Ht;
    cbn [metadata_truthy]; [|done].
  destruct (bool_decide (r = ∅)); [done|].
  destruct (write_json _ r) as [[]|e] eqn:Hw; cbn [fst snd].
  - split; [done|]. split; [done|]. split; [done|]. by apply extract_direct_try_inv in Ht.
  - split; [done|]. right. split; [done|]. eauto.
Qed.

Example single_contract_refused_write :
  process_single_contract KeyPOC default_config Answers.sparse_env (Ok true)
    (fun _ _ => Raise (Exception "[Errno 13] Permission denied: 'nda_metadata.json'"))
    Single.path
  = (Raise (Exception "[Errno 13] Permission denied: 'nda_metadata.json'"), []).
Proof. vm_compute. reflexivity. Qed.

(** Single-file mode and the batch agree on a file.  When
    [process_single_contract] returns metadata for a path, a run of
    [process_contract_with_retry] on the work item of that path, with the
    same collaborators in its first attempt and with the direct strategy in
    force, returns at that attempt the row built from that very metadata. *)
Theorem single_mode_agrees_with_batch s cfg services write_json file_path pt w metadata
    written :
  process_single_contract s cfg (services 1) (Ok true) write_json file_path
  = (Ok (Some metadata), written) ->
  1 <= MAX_RETRIES cfg ->
  ALWAYS_USE_TWO_CALL cfg = false ->
  USE_TWO_CALL_FOR_PDFS cfg = false \/ Str.lower (PurePath.suffix file_path) <> ".pdf" ->
  PurePath.name file_path = Path.basename file_path ->
  pt = None \/ (exists x, dict_get metadata "source_language" (PStr "unknown") = PStr x) ->
  fst (process_contract_with_retry s cfg services (local_file_info file_path) pt w)
  = Returned AtSuccess (build_row s (Path.basename file_path) metadata).
Proof.
  intros H Hmax Htwo Hpdf Hname Hpt.
  unfold process_single_contract in H. cbn [negb] in H.
  rewrite read_path_ignores_extension in H.
  destruct (read_by_extension _ _ _ _ _ _ _) as [[[|c t]|] read_error] eqn:Hread;
    try discriminate.
  destruct (extract_metadata_direct s (services 1) (String c t) (PurePath.name file_path) 1)
    as [md err] eqn:Hx.
  destruct (metadata_truthy md) as [m|] eqn:Hm; [|discriminate].
  destruct (write_json _ m) as [[]|e]; simplify_eq.
  remember (local_file_info file_path) as fi eqn:Hfi.
  assert (Hn : name fi = Path.basename file_path) by by rewrite Hfi.
  assert (Hrs : run_strategy s cfg (services 1) fi (String c t) 1 = Ok (inr (md, err))).
  { rewrite Hfi. unfold run_strategy, local_file_info. cbn [extension name py_lower].
    rewrite Htwo.
    assert (String.eqb (Str.lower (Str.lower (PurePath.suffix file_path))) ".pdf"
            && USE_TWO_CALL_FOR_PDFS cfg = false) as ->.
    { destruct Hpdf as [->|Hpdf]; [apply andb_false_r|].
      destruct (String.eqb_spec (Str.lower (Str.lower (PurePath.suffix file_path))) ".pdf")
        as [E|E]; [|done].
      exfalso. apply Hpdf. revert E. generalize (PurePath.suffix file_path). intros x.
      assert (Str.lower (Str.lower x) = Str.lower x) as ->; [|done].
      unfold Str.lower. induction x as [|a x IH]; [done|]. cbn [Str.map_ascii].
      rewrite IH. f_equal. unfold Str.lower_ascii.
      destruct a as [[] [] [] [] [] [] [] []]; reflexivity. }
    cbn [orb]. by rewrite <- Hname, Hx. }
  assert (Hread' : read_contract_file s cfg (services 1) (data fi) (extension fi) (blob_url fi)
                   = Ok (Some (String c t), read_error)).
  { rewrite Hfi. unfold local_file_info. cbn [data extension blob_url].
    by rewrite read_path_ignores_extension, Hread. }
  clear Hfi.
  unfold process_contract_with_retry. rewrite py_range_cons by lia. cbn [retry_loop].
  unfold attempt_once, attempt_body.
  unfold save_text_as_markdown, report, increment, bind, lift, ret. rewrite Hread'.
  destruct Hpt as [->|[x Hx']].
  - destruct s, (SAVE_MARKDOWN cfg), (blob_service_client cfg); cbn -[build_row];
      rewrite Hrs, Hm; cbn -[build_row]; by rewrite Hn.
  - destruct pt, s, (SAVE_MARKDOWN cfg), (blob_service_client cfg); cbn -[build_row];
      rewrite Hrs, Hm, ?Hx'; cbn -[build_row]; by rewrite Hn.
Qed.

Lemma single_mode_agrees_with_batch_witness :
  fst (process_contract_with_retry KeyPOC default_config (fun _ => Answers.sparse_env)
         (local_file_info Single.path) (Fixtures.tracker 1) world0)
  = Returned AtSuccess (build_row KeyPOC (Path.basename Single.path) Single.metadata).
Proof.
  apply (single_mode_agrees_with_batch KeyPOC default_config (fun _ => Answers.sparse_env)
           (fun _ _ => Ok tt) Single.path (Fixtures.tracker 1) world0 Single.metadata
           [("nda_metadata.json", Single.metadata)]).
  - computed.
  - vm_compute. discriminate.
  - reflexivity.
  - right. vm_compute. discriminate.
  - reflexivity.
  - right. exists "unknown". computed.
Defined.
